(** * Provider bond-and-mod orchestration (provider-core/admin_api.py)

    A shallow embedding of the [/api/bond-mod-provider] handler and of the
    helpers it calls, followed by the properties of the registration
    protocol: skipping the bond for a registered pair, sequence-mismatch
    recovery, terminal failures and the shape of the responses.

    Conventions of the embedding.
    - A Python [str] is a [string]; a character stands for the code point of
      the same number, so the strings covered are those whose code points lie
      below 256.
    - A value decoded from JSON is a [json]; numbers are integers.
    - Every [run_list] call appends its command to a log of events and gets
      its answer from an oracle that sees the log so far; [time.sleep] is
      logged too.

    The other endpoints of the file follow: the bond alone, the listing of
    the services of the node and of the catalogue, the description of the
    provider, the height, the balance and the version, the control of the
    sentinel process, and the environment file and configuration of the
    sentinel.
    - The endpoints that derive no identity log their commands as they give
      them, a list for [run_list] and a line for [run]; the text of an
      exception they report comes from the world as well.
    - A file is read whole or not at all, and a YAML document is the JSON
      data it stands for. *)

From Stdlib Require Import ZArith NArith List String Ascii Bool Lia.
From Stdlib Require Import DecimalString.
Import ListNotations.

Local Open Scope string_scope.
Local Open Scope list_scope.

(** ** Python strings *)

Module PyStr.

Definition code_point (c : ascii) : N := N_of_ascii c.

Definition between (lo hi : N) (n : N) : bool := (N.leb lo n && N.leb n hi)%bool.

(** [str.isspace] on one character, also the class [\s] of [re]. *)
Definition isspace (c : ascii) : bool :=
  let n := code_point c in
  (between 9 13 n || between 28 32 n || N.eqb n 133 || N.eqb n 160)%bool.

(** [str.isdigit] on one character: decimal digits and the superscripts
    two, three and one. *)
Definition isdigit_char (c : ascii) : bool :=
  let n := code_point c in
  (between 48 57 n || N.eqb n 178 || N.eqb n 179 || N.eqb n 185)%bool.

(** The class [\d] of [re]: decimal digits only. *)
Definition isdecimal_char (c : ascii) : bool := between 48 57 (code_point c).

(** The line boundaries of [str.splitlines]. *)
Definition is_linebreak (c : ascii) : bool :=
  let n := code_point c in
  (between 10 13 n || between 28 30 n || N.eqb n 133)%bool.

Definition is_empty (s : string) : bool :=
  match s with EmptyString => true | String _ _ => false end.

Fixpoint lstrip (s : string) : string :=
  match s with
  | EmptyString => EmptyString
  | String c r => if isspace c then lstrip r else s
  end.

Fixpoint rstrip (s : string) : string :=
  match s with
  | EmptyString => EmptyString
  | String c r =>
      let r' := rstrip r in
      if (isspace c && is_empty r')%bool then EmptyString else String c r'
  end.

(** [s.strip()] *)
Definition strip (s : string) : string := rstrip (lstrip s).

Fixpoint all_chars (p : ascii -> bool) (s : string) : bool :=
  match s with
  | EmptyString => true
  | String c r => (p c && all_chars p r)%bool
  end.

(** [s.isdigit()]: at least one character, all of them digits. *)
Definition isdigit (s : string) : bool :=
  (negb (is_empty s) && all_chars isdigit_char s)%bool.

(** [s.startswith(p)] *)
Fixpoint startswith (p s : string) : bool :=
  match p, s with
  | EmptyString, _ => true
  | String a p', String b s' => (Ascii.eqb a b && startswith p' s')%bool
  | String _ _, EmptyString => false
  end.

(** [needle in s] *)
Fixpoint contains (needle s : string) : bool :=
  if startswith needle s then true
  else match s with
       | EmptyString => false
       | String _ r => contains needle r
       end.

(** [s.replace(old, new)] for a non-empty [old]: occurrences are replaced
    from the left and do not overlap; [skip] counts the characters of an
    occurrence still to be dropped. *)
Fixpoint replace_from (old new : string) (skip : nat) (s : string) : string :=
  match s with
  | EmptyString => EmptyString
  | String c r =>
      match skip with
      | S k => replace_from old new k r
      | O =>
          if startswith old s
          then new ++ replace_from old new (pred (String.length old)) r
          else String c (replace_from old new 0 r)
      end
  end.

Definition replace (old new s : string) : string := replace_from old new 0 s.

(** [s.splitlines()]: [cur] is the line being read, [after_cr] says that the
    previous character was a carriage return, whose line feed belongs to the
    same boundary. *)
Fixpoint splitlines_from (after_cr : bool) (cur : string) (s : string)
  : list string :=
  match s with
  | EmptyString => if is_empty cur then [] else [cur]
  | String c r =>
      if (after_cr && Ascii.eqb c "010")%bool then splitlines_from false cur r
      else if is_linebreak c
           then cur :: splitlines_from (Ascii.eqb c "013") EmptyString r
           else splitlines_from false (cur ++ String c EmptyString) r
  end.

Definition splitlines (s : string) : list string :=
  splitlines_from false EmptyString s.

(** The longest prefix of characters in a class, and what follows it. *)
Fixpoint span (p : ascii -> bool) (s : string) : string * string :=
  match s with
  | EmptyString => (EmptyString, EmptyString)
  | String c r =>
      if p c then let '(a, b) := span p r in (String c a, b)
      else (EmptyString, s)
  end.

Fixpoint drop (n : nat) (s : string) : string :=
  match n, s with
  | O, _ => s
  | S k, EmptyString => EmptyString
  | S k, String _ r => drop k r
  end.

(** A match of [expected\s+(\d+)] anchored at the start of [s]: group 1.
    White space and digits are disjoint classes, so the greedy runs are the
    only way to match. *)
Definition match_expected_here (s : string) : option string :=
  if startswith "expected" s then
    let '(ws, rest) := span isspace (drop 8 s) in
    let '(ds, _) := span isdecimal_char rest in
    if (is_empty ws || is_empty ds)%bool then None else Some ds
  else None.

(** [re.search(r"expected\s+(\d+)", s)]: group 1 of the leftmost match. *)
Fixpoint re_search_expected (s : string) : option string :=
  match match_expected_here s with
  | Some d => Some d
  | None =>
      match s with
      | EmptyString => None
      | String _ r => re_search_expected r
      end
  end.

(** [str(n)] for an integer. *)
Definition of_Z (z : Z) : string := NilZero.string_of_int (Z.to_int z).

(** [s.lower()] on one character: the capital letters of ASCII and of
    Latin-1 move up by 32. *)
Definition lower_char (c : ascii) : ascii :=
  let n := code_point c in
  if (between 65 90 n || between 192 214 n || between 216 222 n)%bool
  then ascii_of_N (n + 32) else c.

Fixpoint lower (s : string) : string :=
  match s with
  | EmptyString => EmptyString
  | String c r => String (lower_char c) (lower r)
  end.

(** [s.endswith(p)] *)
Definition endswith (p s : string) : bool :=
  String.eqb (drop (String.length s - String.length p) s) p.

(** [s[:-1]] *)
Fixpoint drop_last (s : string) : string :=
  match s with
  | EmptyString => EmptyString
  | String c EmptyString => EmptyString
  | String c r => String c (drop_last r)
  end.

(** [s[1:-1]] *)
Definition inner (s : string) : string := drop_last (drop 1 s).

(** [s[-1]]: [None] for the empty string, which has none. *)
Fixpoint last_char (s : string) : option ascii :=
  match s with
  | EmptyString => None
  | String c EmptyString => Some c
  | String _ r => last_char r
  end.

(** [s.find(c)] for a character: [None] stands for -1. *)
Fixpoint find_char (c : ascii) (s : string) : option nat :=
  match s with
  | EmptyString => None
  | String a r => if Ascii.eqb a c then Some O else option_map S (find_char c r)
  end.

(** [s.split(c, 1)] for a string that holds [c]: what is before the first
    [c] and what is after it. *)
Definition split_once (c : ascii) (s : string) : string * string :=
  let '(a, b) := span (fun x => negb (Ascii.eqb x c)) s in (a, drop 1 b).

(** [sep.join(parts)] *)
Fixpoint join (sep : string) (parts : list string) : string :=
  match parts with
  | [] => EmptyString
  | [p] => p
  | p :: rest => p ++ sep ++ join sep rest
  end.

(** The lines a text file yields when it is iterated, opened for reading
    with universal newlines: a line ends after a line feed, a carriage
    return or the two in a row, and its end is given as a line feed. *)
Fixpoint file_lines_from (after_cr : bool) (cur : string) (s : string)
  : list string :=
  match s with
  | EmptyString => if is_empty cur then [] else [cur]
  | String c r =>
      if (after_cr && Ascii.eqb c "010")%bool then file_lines_from false cur r
      else if (Ascii.eqb c "010" || Ascii.eqb c "013")%bool
           then (cur ++ String "010" EmptyString)%string
                  :: file_lines_from (Ascii.eqb c "013") EmptyString r
           else file_lines_from false (cur ++ String c EmptyString) r
  end.

Definition file_lines (s : string) : list string :=
  file_lines_from false EmptyString s.

Definition squote : string := "'".
Definition dquote : string := String "034" EmptyString.

(** The characters [shlex.quote] leaves alone: ASCII letters and digits and
    [_@%+=:,./-]. *)
Definition is_shell_safe (c : ascii) : bool :=
  let n := code_point c in
  (between 48 57 n || between 65 90 n || between 97 122 n || N.eqb n 95
   || N.eqb n 64 || N.eqb n 37 || N.eqb n 43 || N.eqb n 61 || N.eqb n 58
   || N.eqb n 44 || N.eqb n 46 || N.eqb n 47 || N.eqb n 45)%bool.

(** [shlex.quote(s)]: the empty string and the strings with an unsafe
    character go between single quotes, each single quote inside written
    as a closing quote, a double-quoted single quote and an opening quote. *)
Definition shlex_quote (s : string) : string :=
  if is_empty s then squote ++ squote
  else if all_chars is_shell_safe s then s
  else squote ++ replace squote (squote ++ dquote ++ squote ++ dquote ++ squote) s ++ squote.

(** [s[:n]] *)
Fixpoint take (n : nat) (s : string) : string :=
  match n, s with
  | O, _ => EmptyString
  | S k, EmptyString => EmptyString
  | S k, String c r => String c (take k r)
  end.

(** [s.rfind(c)] for a character: [None] stands for -1. *)
Fixpoint rfind_char (c : ascii) (s : string) : option nat :=
  match s with
  | EmptyString => None
  | String a r =>
      match rfind_char c r with
      | Some i => Some (S i)
      | None => if Ascii.eqb a c then Some O else None
      end
  end.

(** [re.match] of the pattern of the text lines of a catalogue: white
    space, a dash, white space, the lazy group service of one or more
    characters other than a colon, white space, a colon, white space, the
    group id of one or more digits 0-9, white space, the group desc of any
    characters between parentheses, white space, the end; every white space
    is a greedy run that may be empty. The result is the three groups.
    - The dash is the first character that is not white space.
    - No group or white space before the colon of the pattern can hold a
      colon, so that colon is the first one after the dash; what lies
      between, [x], is not empty. The greedy white space takes the start of
      [x] and the lazy group stops at its last character that is not white
      space, so the group is [x] stripped; when [x] is all white space the
      greedy run gives back its last character to the group.
    - White space, digits and the parenthesis are disjoint, so the greedy
      runs after the colon are the only way to match.
    - Only white space may follow the closing parenthesis, so it is the last
      one of the line, and the dot does not match a line feed. *)
Definition match_service_line (line : string) : option (string * string * string) :=
  let '(_, s1) := span isspace line in
  match s1 with
  | String "-" s2 =>
      match find_char ":" s2 with
      | None => None
      | Some i =>
          let x := take i s2 in
          if is_empty x then None
          else
            let service :=
              if is_empty (strip x) then drop (String.length x - 1) x else strip x in
            let '(_, s4) := span isspace (drop (S i) s2) in
            let '(id, s5) := span isdecimal_char s4 in
            if is_empty id then None
            else
              let '(_, s6) := span isspace s5 in
              match s6 with
              | String "(" r =>
                  match rfind_char ")" r with
                  | None => None
                  | Some j =>
                      if (all_chars isspace (drop (S j) r)
                          && negb (contains (String "010" EmptyString) (take j r)))%bool
                      then Some (service, id, take j r)
                      else None
                  end
              | _ => None
              end
      end
  | _ => None
  end.

End PyStr.

(** ** JSON values and the Python operations used on them *)

#[warnings="-register-all"]
Inductive json : Type :=
| JNull
| JBool (b : bool)
| JNum (z : Z)
| JStr (s : string)
| JArr (items : list json)
| JObj (fields : list (string * json)).

Coercion JStr : string >-> json.

Module Py.

(** Truth value of a Python object. *)
Definition truthy (v : json) : bool :=
  match v with
  | JNull => false
  | JBool b => b
  | JNum z => negb (Z.eqb z 0)
  | JStr s => negb (PyStr.is_empty s)
  | JArr l => match l with [] => false | _ => true end
  | JObj d => match d with [] => false | _ => true end
  end.

(** [a or b] *)
Definition por (a b : json) : json := if truthy a then a else b.

Fixpoint lookup (d : list (string * json)) (k : string) : option json :=
  match d with
  | [] => None
  | (k', v) :: rest => if String.eqb k' k then Some v else lookup rest k
  end.

(** [d.get(k)] on a dict: [None] when the key is absent. *)
Definition get (d : list (string * json)) (k : string) : json :=
  match lookup d k with Some v => v | None => JNull end.

(** [x is None] *)
Definition is_none (v : json) : bool :=
  match v with JNull => true | _ => false end.

(** [cmd.index(x)] for a string [x]; [None] stands for [ValueError]. *)
Fixpoint index_of (x : string) (l : list json) : option nat :=
  match l with
  | [] => None
  | JStr s :: rest =>
      if String.eqb s x then Some O else option_map S (index_of x rest)
  | _ :: rest => option_map S (index_of x rest)
  end.

(** [l[i:i] = ins] *)
Definition insert_at (i : nat) (ins l : list json) : list json :=
  firstn i l ++ ins ++ skipn i l.

(** [d[k] = v]: a key that is there keeps its place, a new one goes last. *)
Fixpoint set (d : list (string * json)) (k : string) (v : json)
  : list (string * json) :=
  match d with
  | [] => [(k, v)]
  | (k', v') :: rest =>
      if String.eqb k' k then (k', v) :: rest else (k', v') :: set rest k v
  end.

(** [d.update(e)] *)
Definition update (d e : list (string * json)) : list (string * json) :=
  fold_left (fun acc kv => set acc (fst kv) (snd kv)) e d.

(** [v == s] for a string [s]: only the same string is equal to it. *)
Definition eq_str (v : json) (s : string) : bool :=
  match v with
  | JStr s' => String.eqb s' s
  | _ => false
  end.

(** [isinstance(v, list)] and [isinstance(v, dict)] *)
Definition is_list (v : json) : bool :=
  match v with JArr _ => true | _ => false end.

Definition is_dict (v : json) : bool :=
  match v with JObj _ => true | _ => false end.

End Py.

Example strip_example : PyStr.strip "  7 " = "7".
Proof. reflexivity. Qed.

Example re_search_example :
  PyStr.re_search_expected "account sequence mismatch, expected 6, got 5" = Some "6".
Proof. reflexivity. Qed.

Example of_Z_example : PyStr.of_Z 42 = "42" /\ PyStr.of_Z 0 = "0" /\ PyStr.of_Z (-3) = "-3".
Proof. repeat split; reflexivity. Qed.

(** ** The external world *)

(** The seven places of the handler that call [run_list]; a label of the
    log, not an argument of the command. *)
Inductive call_site : Type :=
| AllServices    (* query arkeo all-services *)
| KeysShow       (* keys show <user> -p *)
| PubkeyRaw      (* debug pubkey-raw *)
| ProviderQuery  (* query arkeo provider *)
| BondTx         (* tx arkeo bond-provider *)
| AccountQuery   (* query auth account *)
| ModTx.         (* tx arkeo mod-provider *)

Inductive event : Type :=
| Run (site : call_site) (cmd : list json)
| Sleep (secs : nat).

(** What [run_list] gives back: an exit code with the decoded output, or an
    exception other than [CalledProcessError] (the program cannot be started,
    the output is not UTF-8, an argument is not a string). *)
Inductive response : Type :=
| Exited (code : Z) (out : string)
| Raised.

(** Result of a computation: a value, or an exception on its way up. *)
Inductive res (A : Type) : Type :=
| Ret (a : A)
| Exn.
Arguments Ret {A} a.
Arguments Exn {A}.

(** What [json.loads] does with a text: it gives the value the text stands
    for, it raises [JSONDecodeError] on a text that is not JSON, or it raises
    another exception, which the handlers of [JSONDecodeError] do not catch:
    [RecursionError] on a document nested too deep, [ValueError] on an
    integer with more digits than the interpreter converts. *)
Inductive decoded : Type :=
| Decoded (v : json)
| JSONDecodeError
| OtherError.

(** The module-level settings read from the environment at load time. *)
Record config : Type := {
  ARKEOD_HOME : string;
  KEY_NAME : string;
  KEYRING : string;
  ARKEOD_NODE : string;
  CHAIN_ID : string;
  SENTINEL_URI_DEFAULT : string;
  METADATA_NONCE_DEFAULT : string;
  BOND_DEFAULT : string;
  FEES_DEFAULT : string
}.

(** A Flask response: the JSON body and the HTTP status. *)
Definition http : Type := json * Z.

(** The local variables of the handler read from the request. *)
Record inputs : Type := {
  service : json;
  bond : string;
  sentinel_uri : json;
  metadata_nonce : string;
  status : string;
  min_contract_dur : string;
  max_contract_dur : string;
  subscription_rates : json;
  pay_as_you_go_rates : json;
  settlement_dur : string
}.

Definition is_site (s : call_site) (e : event) : bool :=
  match e with
  | Run s' _ =>
      match s, s' with
      | AllServices, AllServices | KeysShow, KeysShow | PubkeyRaw, PubkeyRaw
      | ProviderQuery, ProviderQuery | BondTx, BondTx
      | AccountQuery, AccountQuery | ModTx, ModTx => true
      | _, _ => false
      end
  | Sleep _ => false
  end.

(** Number of commands run from a call site in a log. *)
Definition count_site (s : call_site) (evs : list event) : nat :=
  List.length (filter (is_site s) evs).

(** The settings of the sentinel endpoints, read from the environment at
    load time like the others. *)
Record sentinel_settings : Type := {
  SUPERVISOR_CONF : string;
  SENTINEL_CONFIG_PATH : string;
  SENTINEL_ENV_PATH : string
}.

(** What the endpoints outside the registration protocol run: a command
    given as a list to [run_list], or a line given to the shell by [run]. *)
Inductive command : Type :=
| Argv (cmd : list json)
| Shell (line : string).

(** What a path holds when it is read: nothing that is a regular file, a
    file that cannot be opened, bytes that are not UTF-8, or a text. *)
Inductive file : Type :=
| NoFile
| Unreadable
| Garbled
| Text (content : string).

(** ** A scripted world for the examples *)

Module Fixture.

Definition quote : string := String "034" EmptyString.
Definition newline : string := String "010" EmptyString.

(** A string between double quotes, as JSON writes it. *)
Definition quoted (s : string) : string := (quote ++ s ++ quote)%string.

(** The JSON texts the scripted commands print. *)
Definition key_text : string :=                 (* {"key": "pk1"} *)
  ("{" ++ quoted "key" ++ ": " ++ quoted "pk1" ++ "}")%string.
Definition key_null_text : string :=            (* {"key": null} *)
  ("{" ++ quoted "key" ++ ": null}")%string.
Definition account_text : string :=             (* {"account": {"sequence": "5"}} *)
  ("{" ++ quoted "account" ++ ": {" ++ quoted "sequence" ++ ": " ++ quoted "5" ++ "}}")%string.
Definition no_services_text : string :=         (* {"services": []} *)
  ("{" ++ quoted "services" ++ ": []}")%string.
Definition catalog_text : string :=             (* {"services": [{"id": 7, "name": "swapi"}]} *)
  ("{" ++ quoted "services" ++ ": [{" ++ quoted "id" ++ ": 7, " ++ quoted "name" ++ ": "
       ++ quoted "swapi" ++ "}]}")%string.
Definition empty_array_text : string := "[]".

(** [json.loads] on those texts; every other text of the examples is not
    JSON. *)
Definition loads (s : string) : decoded :=
  if String.eqb s key_text then Decoded (JObj [("key", JStr "pk1")])
  else if String.eqb s key_null_text then Decoded (JObj [("key", JNull)])
  else if String.eqb s account_text then
    Decoded (JObj [("account", JObj [("sequence", JStr "5")])])
  else if String.eqb s no_services_text then Decoded (JObj [("services", JArr [])])
  else if String.eqb s catalog_text then
    Decoded (JObj [("services", JArr [JObj [("id", JNum 7); ("name", JStr "swapi")]])])
  else if String.eqb s empty_array_text then Decoded (JArr [])
  else JSONDecodeError.

(** [str] of a list or a dict: the examples render none. *)
Definition repr (v : json) : string := "".

Definition cfg : config :=
  {| ARKEOD_HOME := "/root/.arkeod";
     KEY_NAME := "provider";
     KEYRING := "test";
     ARKEOD_NODE := "tcp://node:26657";
     CHAIN_ID := "arkeo";
     SENTINEL_URI_DEFAULT := "http://127.0.0.1:3636/metadata.json";
     METADATA_NONCE_DEFAULT := "1";
     BOND_DEFAULT := "1";
     FEES_DEFAULT := "200uarkeo" |}.

Definition commands_run (t : list event) : nat :=
  List.length (filter (fun e => match e with Run _ _ => true | Sleep _ => false end) t).

(** The world that answers the n-th command with the n-th entry of a
    script, and raises once the script is over. *)
Definition scripted (script : list response) : list event -> list json -> response :=
  fun t _ => nth (commands_run t) script Raised.

(** The command of the n-th event of a log. *)
Definition command_at (n : nat) (evs : list event) : list json :=
  match nth n evs (Sleep 0) with
  | Run _ c => c
  | Sleep _ => []
  end.

Definition bech32_lines : string :=
  ("Address: 0A1B" ++ newline ++ "Bech32 Acc: addr1" ++ newline ++ "Bech32 Val: val1")%string.

(** Service "7" unknown to the catalogue, pair not registered, bond and
    metadata update accepted with sequence 5. *)
Definition fresh_registration : list response :=
  [Exited 0 no_services_text; Exited 0 key_text; Exited 0 bech32_lines;
   Exited 1 "provider not found"; Exited 0 "bond accepted";
   Exited 0 account_text; Exited 0 "mod accepted"].

(** Pair registered; the first metadata update meets a mismatch that names
    the expected sequence, the second is accepted. *)
Definition mismatch_then_accepted : list response :=
  [Exited 0 no_services_text; Exited 0 key_text; Exited 0 bech32_lines;
   Exited 0 "provider found"; Exited 0 account_text;
   Exited 1 "account sequence mismatch, expected 6, got 5: incorrect account sequence";
   Exited 0 "mod accepted"].

(** Pair registered; no account query ever answers, and both metadata
    updates meet a mismatch that names no sequence. *)
Definition mismatch_twice : list response :=
  [Exited 0 no_services_text; Exited 0 key_text; Exited 0 bech32_lines;
   Exited 0 "provider found";
   Exited 1 "connection refused"; Exited 1 "connection refused"; Exited 1 "connection refused";
   Exited 1 "account sequence mismatch";
   Exited 1 "connection refused"; Raised;
   Exited 1 "account sequence mismatch"].

(** Pair not registered and the bond refused. *)
Definition bond_refused : list response :=
  [Exited 0 no_services_text; Exited 0 key_text; Exited 0 bech32_lines;
   Exited 1 "provider not found"; Exited 1 "insufficient funds"].

(** The key is missing from the keyring. *)
Definition key_missing : list response :=
  [Exited 0 no_services_text; Exited 1 "provider is not a valid name or address"].

(** The key command prints an object whose key is null. *)
Definition key_is_null : list response :=
  [Exited 0 no_services_text; Exited 0 key_null_text].

(** The catalogue command prints an array instead of an object. *)
Definition catalogue_is_array : list response :=
  [Exited 0 empty_array_text; Exited 0 key_text; Exited 0 bech32_lines].

(** A named service, pair registered, everything accepted. *)
Definition named_service : list response :=
  [Exited 0 key_text; Exited 0 bech32_lines; Exited 0 "provider found";
   Exited 0 account_text; Exited 0 "mod accepted"].

Definition request_by_id : json := JObj [("service", JStr "7")].


Definition request_full : json :=
  JObj [("service", JStr "swapi"); ("sentinel_uri", JStr "http://host/metadata.json");
        ("metadata_nonce", JStr "3"); ("status", JStr "0");
        ("min_contract_dur", JStr "10"); ("max_contract_dur", JStr "20");
        ("subscription_rates", JStr "5uarkeo"); ("pay_as_you_go_rates", JStr "6uarkeo");
        ("settlement_dur", JStr "30")].

(** *** The other endpoints *)

(** The providers the chain lists: the node with one service, and another
    provider. *)
Definition own_provider : list (string * json) :=
  [("pub_key", JStr "addr1"); ("service", JStr "swapi"); ("status", JStr "ONLINE");
   ("subscription_rate",
    JArr [JObj [("denom", JStr "uarkeo"); ("amount", JStr "10")]]);
   ("pay_as_you_go_rate", JNull)].

Definition other_provider : list (string * json) :=
  [("pub_key", JStr "addr2"); ("service", JStr "btc"); ("status", JStr "ONLINE")].

Definition providers_text : string :=
  ("{" ++ quoted "provider" ++ ": [{" ++ quoted "pub_key" ++ ": " ++ quoted "addr1" ++ ", "
       ++ quoted "service" ++ ": " ++ quoted "swapi" ++ ", "
       ++ quoted "status" ++ ": " ++ quoted "ONLINE" ++ ", "
       ++ quoted "subscription_rate" ++ ": [{" ++ quoted "denom" ++ ": " ++ quoted "uarkeo"
       ++ ", " ++ quoted "amount" ++ ": " ++ quoted "10" ++ "}], "
       ++ quoted "pay_as_you_go_rate" ++ ": null}, {"
       ++ quoted "pub_key" ++ ": " ++ quoted "addr2" ++ ", "
       ++ quoted "service" ++ ": " ++ quoted "btc" ++ ", "
       ++ quoted "status" ++ ": " ++ quoted "ONLINE" ++ "}]}")%string.

Definition status_text : string :=  (* {"sync_info": {"latest_block_height": "1234"}} *)
  ("{" ++ quoted "sync_info" ++ ": {" ++ quoted "latest_block_height" ++ ": "
       ++ quoted "1234" ++ "}}")%string.

(** [json.loads] on the texts above and on those of [loads]. *)
Definition decode (s : string) : decoded :=
  if String.eqb s providers_text then
    Decoded (JObj [("provider", JArr [JObj own_provider; JObj other_provider])])
  else if String.eqb s status_text then
    Decoded (JObj [("sync_info", JObj [("latest_block_height", JStr "1234")])])
  else loads s.

(** The node can derive its identity and the chain lists the providers. *)
Definition providers_listed : list response :=
  [Exited 0 key_text; Exited 0 bech32_lines; Exited 0 providers_text].

(** The node can derive its identity and the bond is accepted. *)
Definition bond_accepted : list response :=
  [Exited 0 key_text; Exited 0 bech32_lines; Exited 0 "bond accepted"].

(** The world of the endpoints that run no key command: the n-th command
    gets the n-th answer of a script, and an exception once it is over. *)
Definition answers (script : list response) : list command -> command -> response :=
  fun t _ => nth (List.length t) script Raised.

(** The text of every exception of the examples. *)
Definition no_such_file : list command -> command -> string :=
  fun _ _ => "[Errno 2] No such file or directory: 'supervisorctl'".

Definition sentinel : sentinel_settings :=
  {| SUPERVISOR_CONF := "/etc/supervisor/conf.d/supervisord.conf";
     SENTINEL_CONFIG_PATH := "/app/config/sentinel.yaml";
     SENTINEL_ENV_PATH := "/app/config/sentinel.env" |}.

(** A file system with one file. *)
Definition only_file (path content : string) : string -> file :=
  fun p => if String.eqb p path then Text content else NoFile.

(** The variables of an environment file, and a request that changes the
    name of the node. *)
Definition variables : list (string * json) :=
  [("MONIKER", JStr "my node"); ("WEBSITE", JStr "https://example.org");
   ("FREE_RATE_LIMIT", JNum 10)].

Definition sentinel_yaml : json :=
  JObj [("provider", JObj [("pubkey", JStr "old"); ("name", JStr "old name");
                           ("listen_addr", JStr "0.0.0.0:3636")]);
        ("services", JArr [JObj [("name", JStr "swapi"); ("id", JNum 7)]]);
        ("api", JObj [("listen_addr", JStr "0.0.0.0:3636")])].

Definition rename_request : list (string * json) :=
  [("provider_pubkey", JStr "addr1"); ("moniker", JStr "node-1")].

(** Two lines of the text form of the catalogue. *)
Definition catalogue_items : list (string * string * string) :=
  [("swapi", "7", "Star Wars API"); ("btc-mainnet-fullnode", "12", "bitcoin (full node)")].

End Fixture.

Section Orchestrator.

(** [json.loads] *)
Variable json_loads : string -> decoded.
(** [str] of a list or a dict. *)
Variable py_repr : json -> string.
Variable cfg : config.
(** The answer of the operating system and of the chain client to a command,
    given everything that was run before. *)
Variable oracle : list event -> list json -> response.

(** [str(v)] *)
Definition py_str (v : json) : string :=
  match v with
  | JStr s => s
  | JNum z => PyStr.of_Z z
  | JBool true => "True"
  | JBool false => "False"
  | JNull => "None"
  | _ => py_repr v
  end.

Definition NODE_ARGS : list json :=
  if PyStr.is_empty (ARKEOD_NODE cfg) then [] else [JStr "--node"; JStr (ARKEOD_NODE cfg)].

Definition CHAIN_ARGS : list json :=
  if PyStr.is_empty (CHAIN_ID cfg) then [] else [JStr "--chain-id"; JStr (CHAIN_ID cfg)].

(** *** Computations: a log so far, a result and the events added *)

Definition M (A : Type) : Type := list event -> res A * list event.

Definition ret {A} (a : A) : M A := fun _ => (Ret a, []).

Definition raise {A} : M A := fun _ => (Exn, []).

Definition bind {A B} (m : M A) (k : A -> M B) : M B :=
  fun t =>
    match m t with
    | (Ret a, e1) => let '(r, e2) := k a (t ++ e1) in (r, e1 ++ e2)
    | (Exn, e1) => (Exn, e1)
    end.

(** [try: m except Exception: h] *)
Definition try_except {A} (m h : M A) : M A :=
  fun t =>
    match m t with
    | (Ret a, e1) => (Ret a, e1)
    | (Exn, e1) => let '(r, e2) := h (t ++ e1) in (r, e1 ++ e2)
    end.

(** [run_list(cmd)] at a call site. *)
Definition run_list (site : call_site) (cmd : list json) : M (Z * string) :=
  fun t =>
    (match oracle t cmd with
     | Exited code out => Ret (code, out)
     | Raised => Exn
     end, [Run site cmd]).

(** [time.sleep(n)] *)
Definition sleep (n : nat) : M unit := fun _ => (Ret tt, [Sleep n]).

Notation "x <- m ;; k" := (bind m (fun x => k))
  (at level 61, m at next level, right associativity).
Notation "' pat <- m ;; k" := (bind m (fun x => match x with pat => k end))
  (at level 61, pat pattern, m at next level, right associativity).
Notation "m ;;; k" := (bind m (fun _ => k))
  (at level 61, right associativity).

(** *** derive_pubkeys (lines 88-125) *)

Definition pubkey_cmd (user keyring_backend : string) : list json :=
  [JStr "arkeod"; JStr "--home"; JStr (ARKEOD_HOME cfg); JStr "keys"; JStr "show";
   JStr user; JStr "-p"; JStr "--keyring-backend"; JStr keyring_backend].

(** [json.loads(pubkey_out).get("key", "").strip()] with its handler for
    [JSONDecodeError]; [.get] on a value that is not a dict and [.strip] on a
    value that is not a string raise [AttributeError], and so does the
    decoder on a text it does not take. *)
Definition raw_pubkey_of (pubkey_out : string) : res string :=
  match json_loads pubkey_out with
  | JSONDecodeError => Ret ""
  | Decoded (JObj d) =>
      match Py.lookup d "key" with
      | None => Ret (PyStr.strip "")
      | Some (JStr k) => Ret (PyStr.strip k)
      | Some _ => Exn
      end
  | Decoded _ => Exn
  | OtherError => Exn
  end.

(** The loop over [bech32_out.splitlines()]: the first line that starts with
    the marker decides. *)
Fixpoint find_bech32 (lines : list string) : string :=
  match lines with
  | [] => ""
  | line :: rest =>
      if PyStr.startswith "Bech32 Acc:" line
      then PyStr.strip (PyStr.replace "Bech32 Acc:" "" line)
      else find_bech32 rest
  end.

Definition derive_pubkeys (user keyring_backend : string)
  : M (string * string * option string) :=
  '(code, pubkey_out) <- run_list KeysShow (pubkey_cmd user keyring_backend) ;;
  if negb (Z.eqb code 0) then
    ret ("", "", Some ("failed to fetch raw pubkey: " ++ pubkey_out)%string)
  else
    match raw_pubkey_of pubkey_out with
    | Exn => raise
    | Ret raw_pubkey =>
        if PyStr.is_empty raw_pubkey then
          ret ("", "", Some ("could not parse raw pubkey: " ++ pubkey_out)%string)
        else
          '(code, bech32_out) <-
             run_list PubkeyRaw [JStr "arkeod"; JStr "debug"; JStr "pubkey-raw"; JStr raw_pubkey] ;;
          if negb (Z.eqb code 0) then
            ret (raw_pubkey, "", Some ("failed to convert pubkey: " ++ bech32_out)%string)
          else
            let bech32_pubkey := find_bech32 (PyStr.splitlines bech32_out) in
            if PyStr.is_empty bech32_pubkey then
              ret (raw_pubkey, "", Some ("Bech32 pubkey not found: " ++ bech32_out)%string)
            else ret (raw_pubkey, bech32_pubkey, None)
    end.

(** *** Service resolution (lines 336-367) *)

Definition all_services_cmd : list json :=
  [JStr "arkeod"; JStr "--home"; JStr (ARKEOD_HOME cfg)]
  ++ (if PyStr.is_empty (ARKEOD_NODE cfg) then [] else [JStr "--node"; JStr (ARKEOD_NODE cfg)])
  ++ [JStr "query"; JStr "arkeo"; JStr "all-services"; JStr "-o"; JStr "json"].

(** The list the scan runs over (lines 353-356). *)
Definition services_of (data : list (string * json)) : list json :=
  let services :=
    Py.por (Py.get data "services")
      (Py.por (Py.get data "service") (Py.por (Py.get data "result") (JArr []))) in
  let services :=
    match services with
    | JObj s => Py.por (Py.get s "services") (Py.por (Py.get s "service") (JArr []))
    | _ => services
    end in
  match services with
  | JArr l => l
  | _ => []
  end.

(** [sid_val] of line 359: the id of a catalogue entry as text. *)
Definition sid_val_of (item : list (string * json)) : string :=
  py_str (Py.por (Py.get item "id")
            (Py.por (Py.get item "service_id")
               (Py.por (Py.get item "serviceID") (JStr "")))).

(** The scan (lines 356-362): the first entry whose id is [sid]. *)
Fixpoint find_service (sid : string) (items : list json) : option json :=
  match items with
  | [] => None
  | JObj item :: rest =>
      if String.eqb (sid_val_of item) sid
      then Some (Py.por (Py.get item "service") (Py.por (Py.get item "name") (JStr sid)))
      else find_service sid rest
  | _ :: rest => find_service sid rest
  end.

Definition _lookup_service_name_by_id (sid : string) : M (option json) :=
  '(code, out) <- run_list AllServices all_services_cmd ;;
  if negb (Z.eqb code 0) then ret None
  else
    match json_loads out with
    | JSONDecodeError => ret None
    | Decoded (JObj data) => ret (find_service sid (services_of data))
    | Decoded _ => raise
    | OtherError => raise
    end.

Definition lookup_note_for (svc_id : string) : string :=
  "could not resolve service id " ++ svc_id ++ " to name".

(** Gives [(resolved_service, lookup_note)]. *)
Definition resolve_service (service : json) : M (json * string) :=
  match service with
  | JStr s =>
      if PyStr.isdigit (PyStr.strip s) then
        let svc_id := PyStr.strip s in
        looked_up <- _lookup_service_name_by_id svc_id ;;
        match looked_up with
        | Some name =>
            if Py.truthy name then ret (name, "")
            else ret (service, lookup_note_for svc_id)
        | None => ret (service, lookup_note_for svc_id)
        end
      else ret (service, "")
  | _ => ret (service, "")
  end.

(** *** Existing registration (lines 381-408) *)

Definition lookup_cmd (bech32_pubkey : string) (resolved_service : json) : list json :=
  [JStr "arkeod"; JStr "--home"; JStr (ARKEOD_HOME cfg); JStr "query"; JStr "arkeo";
   JStr "provider"; JStr bech32_pubkey; resolved_service; JStr "-o"; JStr "json"]
  ++ (if PyStr.is_empty (ARKEOD_NODE cfg) then [] else [JStr "--node"; JStr (ARKEOD_NODE cfg)]).

(** Gives [(skip_bond, bond_out)] as they stand at line 410. *)
Definition provider_exists (bech32_pubkey : string) (resolved_service : json)
  : M (bool * string) :=
  try_except
    ('(code, lookup_out) <- run_list ProviderQuery (lookup_cmd bech32_pubkey resolved_service) ;;
     if Z.eqb code 0 then ret (true, "skipped: provider already exists")
     else ret (false, "skipped: provider already bonded"))
    (ret (false, "skipped: provider already bonded")).

(** *** Commands of the two transactions *)

Definition bond_cmd_of (i : inputs) (bech32_pubkey : string) (resolved_service : json)
  : list json :=
  [JStr "arkeod"; JStr "--home"; JStr (ARKEOD_HOME cfg); JStr "tx"; JStr "arkeo";
   JStr "bond-provider"; JStr bech32_pubkey; resolved_service; JStr (bond i)]
  ++ NODE_ARGS ++ CHAIN_ARGS
  ++ [JStr "--from"; JStr (KEY_NAME cfg); JStr "--fees"; JStr (FEES_DEFAULT cfg);
      JStr "--keyring-backend"; JStr (KEYRING cfg); JStr "-y"].

Definition mod_cmd_base (i : inputs) (bech32_pubkey : string) (resolved_service : json)
  : list json :=
  [JStr "arkeod"; JStr "--home"; JStr (ARKEOD_HOME cfg); JStr "tx"; JStr "arkeo";
   JStr "mod-provider"; JStr bech32_pubkey; resolved_service;
   sentinel_uri i; JStr (metadata_nonce i); JStr (status i);
   JStr (min_contract_dur i); JStr (max_contract_dur i);
   subscription_rates i; pay_as_you_go_rates i; JStr (settlement_dur i)]
  ++ NODE_ARGS ++ CHAIN_ARGS
  ++ [JStr "--from"; JStr (KEY_NAME cfg); JStr "--fees"; JStr (FEES_DEFAULT cfg);
      JStr "--keyring-backend"; JStr (KEYRING cfg); JStr "-y"].

(** The command of [run_mod_with_sequence] (lines 507-513): the sequence
    arguments go just before the first ["--from"]. *)
Definition with_sequence (base seq_arg : list json) : list json :=
  let insert_at :=
    match Py.index_of "--from" base with
    | Some i => i
    | None => List.length base
    end in
  Py.insert_at insert_at seq_arg base.

Definition run_mod_with_sequence (base seq_arg : list json)
  : M (list json * Z * string) :=
  let cmd := with_sequence base seq_arg in
  '(code, out) <- run_list ModTx cmd ;;
  ret (cmd, code, out).

(** *** Account sequence (lines 454-476 and 526-548) *)

Definition acct_cmd (bech32_pubkey : string) : list json :=
  [JStr "arkeod"; JStr "--home"; JStr (ARKEOD_HOME cfg); JStr "query"; JStr "auth";
   JStr "account"; JStr bech32_pubkey; JStr "-o"; JStr "json"]
  ++ (if PyStr.is_empty (ARKEOD_NODE cfg) then [] else [JStr "--node"; JStr (ARKEOD_NODE cfg)]).

(** [seq_val] of lines 464-470. *)
Definition seq_val_of (acct : json) : json :=
  match acct with
  | JObj a =>
      let account_info := Py.por (Py.get a "account") (Py.por (Py.get a "result") (JObj [])) in
      match account_info with
      | JObj ai =>
          match Py.por (Py.get ai "value") account_info with
          | JObj val => Py.get val "sequence"
          | _ => JNull
          end
      | _ => JNull
      end
  | _ => JNull
  end.

(** The body of the [try] of one iteration: [Some] of the sequence arguments
    when the loop breaks, [None] when it goes on to sleep. *)
Definition query_sequence (bech32_pubkey : string) : M (option (list json)) :=
  '(code, acct_out) <- run_list AccountQuery (acct_cmd bech32_pubkey) ;;
  if Z.eqb code 0 then
    match json_loads acct_out with
    | JSONDecodeError | OtherError => raise
    | Decoded acct =>
        let seq_val := seq_val_of acct in
        if Py.is_none seq_val then ret None
        else ret (Some [JStr "--sequence"; JStr (py_str seq_val)])
    end
  else ret None.

(** [for _ in range(n)] around it; the result is the sequence arguments
    after the loop, empty when no iteration broke out. *)
Fixpoint fetch_sequence (n : nat) (bech32_pubkey : string) : M (list json) :=
  match n with
  | O => ret []
  | S k =>
      got <- try_except (query_sequence bech32_pubkey) (ret None) ;;
      match got with
      | Some seq_arg => ret seq_arg
      | None => sleep 1 ;;; fetch_sequence k bech32_pubkey
      end
  end.

(** *** Response bodies *)

Definition pubkey_json (raw_pubkey bech32_pubkey : string) : json :=
  JObj [("raw", JStr raw_pubkey); ("bech32", JStr bech32_pubkey)].

Definition tx_json (code : Z) (out : string) : json :=
  JObj [("exit_code", JNum code); ("output", JStr out)].

Definition pubkey_failure (pubkey_err raw_pubkey bech32_pubkey : string) : http :=
  (JObj [("error", JStr pubkey_err);
         ("pubkey_error", JStr pubkey_err);
         ("user", JStr (KEY_NAME cfg));
         ("keyring_backend", JStr (KEYRING cfg));
         ("pubkey", pubkey_json raw_pubkey bech32_pubkey)], 500%Z).

Definition bond_failure (i : inputs) (resolved_service : json) (lookup_note : string)
    (raw_pubkey bech32_pubkey : string) (bond_cmd : list json) (bond_out : string) : http :=
  (JObj [("error", JStr "failed to bond provider");
         ("detail", JStr bond_out);
         ("cmd", JArr bond_cmd);
         ("inputs", JObj [("service", service i);
                          ("resolved_service", resolved_service);
                          ("lookup_note", JStr lookup_note);
                          ("bond", JStr (bond i));
                          ("keyring_backend", JStr (KEYRING cfg));
                          ("fees", JStr (FEES_DEFAULT cfg))]);
         ("pubkey", pubkey_json raw_pubkey bech32_pubkey);
         ("user", JStr (KEY_NAME cfg))], 500%Z).

Definition mod_inputs (i : inputs) (resolved_service : json) (note : list (string * json))
  : json :=
  JObj ([("service", service i); ("resolved_service", resolved_service)]
        ++ note
        ++ [("sentinel_uri", sentinel_uri i);
            ("metadata_nonce", JStr (metadata_nonce i));
            ("status", JStr (status i));
            ("min_contract_dur", JStr (min_contract_dur i));
            ("max_contract_dur", JStr (max_contract_dur i));
            ("subscription_rates", subscription_rates i);
            ("pay_as_you_go_rates", pay_as_you_go_rates i);
            ("settlement_dur", JStr (settlement_dur i));
            ("bond", JStr (bond i));
            ("keyring_backend", JStr (KEYRING cfg));
            ("fees", JStr (FEES_DEFAULT cfg))]).

Definition mod_failure (i : inputs) (resolved_service : json)
    (raw_pubkey bech32_pubkey : string) (bond_code : Z) (bond_out : string)
    (mod_cmd : list json) (mod_out : string) : http :=
  (JObj [("error", JStr "failed to mod provider");
         ("detail", JStr mod_out);
         ("cmd", JArr mod_cmd);
         ("inputs", mod_inputs i resolved_service []);
         ("pubkey", pubkey_json raw_pubkey bech32_pubkey);
         ("user", JStr (KEY_NAME cfg));
         ("bond_tx", tx_json bond_code bond_out)], 500%Z).

Definition submitted (i : inputs) (resolved_service : json) (lookup_note : string)
    (raw_pubkey bech32_pubkey : string) (bond_cmd : option (list json))
    (bond_code : Z) (bond_out : string)
    (mod_cmd : list json) (mod_code : Z) (mod_out : string) : http :=
  (JObj [("status", JStr "bond_and_mod_submitted");
         ("user", JStr (KEY_NAME cfg));
         ("inputs", mod_inputs i resolved_service [("lookup_note", JStr lookup_note)]);
         ("pubkey", pubkey_json raw_pubkey bech32_pubkey);
         ("bond_cmd", match bond_cmd with Some c => JArr c | None => JNull end);
         ("mod_cmd", JArr mod_cmd);
         ("bond_tx", tx_json bond_code bond_out);
         ("mod_tx", tx_json mod_code mod_out)], 200%Z).

(** *** The handler (lines 314-604) *)

(** Lines 319-331: the request fields with their defaults. *)
Definition read_inputs (payload : list (string * json)) : inputs :=
  {| service := Py.get payload "service";
     bond := py_str (Py.por (Py.get payload "bond") (JStr (BOND_DEFAULT cfg)));
     sentinel_uri := Py.por (Py.get payload "sentinel_uri") (JStr (SENTINEL_URI_DEFAULT cfg));
     metadata_nonce :=
       py_str (Py.por (Py.get payload "metadata_nonce") (JStr (METADATA_NONCE_DEFAULT cfg)));
     status := py_str (Py.por (Py.get payload "status") (JStr "1"));
     min_contract_dur := py_str (Py.por (Py.get payload "min_contract_dur") (JStr "5"));
     max_contract_dur := py_str (Py.por (Py.get payload "max_contract_dur") (JStr "432000"));
     subscription_rates := Py.por (Py.get payload "subscription_rates") (JStr "200uarkeo");
     pay_as_you_go_rates := Py.por (Py.get payload "pay_as_you_go_rates") (JStr "200uarkeo");
     settlement_dur := py_str (Py.por (Py.get payload "settlement_dur") (JStr "1000")) |}.

(** Lines 518-549: the retry on an account-sequence mismatch. The arguments
    are the outcome of the first submission. *)
Definition retry_on_mismatch (base : list json) (bech32_pubkey : string)
    (first : list json * Z * string) : M (list json * Z * string) :=
  let '(mod_cmd, mod_code, mod_out) := first in
  if PyStr.contains "account sequence mismatch" mod_out then
    sleep 1 ;;;
    let retry_seq :=
      match PyStr.re_search_expected mod_out with
      | Some d => [JStr "--sequence"; JStr d]
      | None => []
      end in
    retry_seq <-
      match retry_seq with
      | [] => fetch_sequence 2 bech32_pubkey
      | _ => ret retry_seq
      end ;;
    run_mod_with_sequence base retry_seq
  else ret first.

(** Lines 454-604: from the sequence fetch to the response. *)
Definition mod_provider (i : inputs) (resolved_service : json) (lookup_note : string)
    (raw_pubkey bech32_pubkey : string) (bond_cmd : option (list json))
    (bond_code : Z) (bond_out : string) : M http :=
  sequence_arg <- fetch_sequence 3 bech32_pubkey ;;
  let base := mod_cmd_base i bech32_pubkey resolved_service in
  first <- run_mod_with_sequence base sequence_arg ;;
  '(mod_cmd, mod_code, mod_out) <- retry_on_mismatch base bech32_pubkey first ;;
  if negb (Z.eqb mod_code 0) then
    ret (mod_failure i resolved_service raw_pubkey bech32_pubkey bond_code bond_out
           mod_cmd mod_out)
  else
    ret (submitted i resolved_service lookup_note raw_pubkey bech32_pubkey bond_cmd
           bond_code bond_out mod_cmd mod_code mod_out).

(** Lines 381-452: the registration check and the bond, then the rest. *)
Definition bond_then_mod (i : inputs) (resolved_service : json) (lookup_note : string)
    (raw_pubkey bech32_pubkey : string) : M http :=
  '(skip_bond, bond_out) <- provider_exists bech32_pubkey resolved_service ;;
  if skip_bond then
    mod_provider i resolved_service lookup_note raw_pubkey bech32_pubkey None 0%Z bond_out
  else
    let bond_cmd := bond_cmd_of i bech32_pubkey resolved_service in
    '(bond_code, bond_out) <- run_list BondTx bond_cmd ;;
    if negb (Z.eqb bond_code 0) then
      ret (bond_failure i resolved_service lookup_note raw_pubkey bech32_pubkey
             bond_cmd bond_out)
    else
      sleep 2 ;;;
      mod_provider i resolved_service lookup_note raw_pubkey bech32_pubkey
        (Some bond_cmd) bond_code bond_out.

(** [if pubkey_err:] *)
Definition err_truthy (e : option string) : bool :=
  match e with
  | Some s => negb (PyStr.is_empty s)
  | None => false
  end.

(** The view function. [body] is what [request.get_json(force=True,
    silent=True)] gave, [JNull] when it gave [None]. *)
Definition bond_and_mod_provider (body : json) : M http :=
  match Py.por body (JObj []) with
  | JObj payload =>
      let i := read_inputs payload in
      if negb (Py.truthy (service i)) then
        ret (JObj [("error", JStr "service is required")], 400%Z)
      else
        '(resolved_service, lookup_note) <- resolve_service (service i) ;;
        '(raw_pubkey, bech32_pubkey, pubkey_err) <-
           derive_pubkeys (KEY_NAME cfg) (KEYRING cfg) ;;
        if err_truthy pubkey_err then
          ret (pubkey_failure (match pubkey_err with Some e => e | None => "" end)
                 raw_pubkey bech32_pubkey)
        else
          bond_then_mod i resolved_service lookup_note raw_pubkey bech32_pubkey
  | _ => raise
  end.

(** *** _strip_quotes (lines 33-39) *)

(** [val] is [None] or a string; the first and the last character are read
    only from a string of two characters or more. *)
Definition _strip_quotes (val : option string) : string :=
  match val with
  | None => ""
  | Some val =>
      if PyStr.is_empty val then ""
      else
        let val := PyStr.strip val in
        match val, PyStr.last_char val with
        | String first _, Some last =>
            if (Nat.leb 2 (String.length val) && Ascii.eqb first last
                && (Ascii.eqb first "'" || Ascii.eqb first "034"))%bool
            then PyStr.inner val
            else val
        | _, _ => val
        end
  end.

(** *** bond_provider (lines 229-311) *)

Definition bond_inputs (service : json) (bond : string) : json :=
  JObj [("service", service); ("bond", JStr bond);
        ("keyring_backend", JStr (KEYRING cfg)); ("fees", JStr (FEES_DEFAULT cfg))].

(** The command of lines 261-279; the chain id is not among its
    arguments. *)
Definition bond_only_cmd (bech32_pubkey : string) (service : json) (bond : string)
  : list json :=
  [JStr "arkeod"; JStr "--home"; JStr (ARKEOD_HOME cfg); JStr "tx"; JStr "arkeo";
   JStr "bond-provider"; JStr bech32_pubkey; service; JStr bond]
  ++ NODE_ARGS
  ++ [JStr "--from"; JStr (KEY_NAME cfg); JStr "--fees"; JStr (FEES_DEFAULT cfg);
      JStr "--keyring-backend"; JStr (KEYRING cfg); JStr "-y"].

Definition bond_identity_failure (pubkey_err raw_pubkey bech32_pubkey : string)
    (service : json) (bond : string) : http :=
  (JObj [("error", JStr pubkey_err);
         ("pubkey_error", JStr pubkey_err);
         ("user", JStr (KEY_NAME cfg));
         ("keyring_backend", JStr (KEYRING cfg));
         ("pubkey", pubkey_json raw_pubkey bech32_pubkey);
         ("inputs", bond_inputs service bond)], 500%Z).

Definition bond_refused (raw_pubkey bech32_pubkey : string)
    (service : json) (bond : string) (bond_out : string) : http :=
  (JObj [("error", JStr "failed to bond provider");
         ("detail", JStr bond_out);
         ("inputs", bond_inputs service bond);
         ("pubkey", pubkey_json raw_pubkey bech32_pubkey);
         ("user", JStr (KEY_NAME cfg))], 500%Z).

Definition bond_submitted (raw_pubkey bech32_pubkey : string) (pubkey_err : option string)
    (service : json) (bond : string) (bond_out : string) : http :=
  (JObj [("status", JStr "bond_submitted");
         ("tx_output", JStr bond_out);
         ("inputs", bond_inputs service bond);
         ("pubkey", pubkey_json raw_pubkey bech32_pubkey);
         ("user", JStr (KEY_NAME cfg));
         ("pubkey_error", match pubkey_err with Some e => JStr e | None => JNull end)],
   200%Z).

(** The view function; [body] is read as for [bond_and_mod_provider]. *)
Definition bond_provider (body : json) : M http :=
  match Py.por body (JObj []) with
  | JObj payload =>
      let service := Py.get payload "service" in
      let bond := py_str (Py.por (Py.get payload "bond") (JStr (BOND_DEFAULT cfg))) in
      if negb (Py.truthy service) then
        ret (JObj [("error", JStr "service is required")], 400%Z)
      else
        '(raw_pubkey, bech32_pubkey, pubkey_err) <-
           derive_pubkeys (KEY_NAME cfg) (KEYRING cfg) ;;
        if err_truthy pubkey_err then
          ret (bond_identity_failure (match pubkey_err with Some e => e | None => "" end)
                 raw_pubkey bech32_pubkey service bond)
        else
          '(code, bond_out) <- run_list BondTx (bond_only_cmd bech32_pubkey service bond) ;;
          if negb (Z.eqb code 0) then
            ret (bond_refused raw_pubkey bech32_pubkey service bond bond_out)
          else
            ret (bond_submitted raw_pubkey bech32_pubkey pubkey_err service bond bond_out)
  | _ => raise
  end.

(** *** The environment file of the sentinel (lines 926-943) *)

(** Lines 938-939: one pair of quotes around a value is dropped. *)
Definition unquote_value (v : string) : string :=
  if ((PyStr.startswith PyStr.squote v && PyStr.endswith PyStr.squote v)
      || (PyStr.startswith PyStr.dquote v && PyStr.endswith PyStr.dquote v))%bool
  then PyStr.inner v else v.

(** The body of the loop (lines 933-940) on one line of the file. The split
    is reached only with a line that holds the equals sign. *)
Definition env_entry (data : list (string * json)) (line : string)
  : list (string * json) :=
  let line := PyStr.strip line in
  if (PyStr.is_empty line || PyStr.startswith "#" line
      || negb (PyStr.contains "=" line))%bool
  then data
  else
    let '(k, v) := PyStr.split_once "=" line in
    let v := unquote_value (PyStr.strip v) in
    Py.set data (PyStr.strip k) (JStr v).

Definition env_of_text (content : string) : list (string * json) :=
  fold_left env_entry (PyStr.file_lines content) [].

(** [look] tells what a path holds when the function runs. The [OSError]
    of a file that cannot be opened is caught; the [UnicodeDecodeError] of
    one that cannot be decoded is not. *)
Definition _load_env_file (look : string -> file) (path : string)
  : res (list (string * json)) :=
  if PyStr.is_empty path then Ret []
  else
    match look path with
    | Text content => Ret (env_of_text content)
    | NoFile | Unreadable => Ret []
    | Garbled => Exn
    end.

(** *** The update of the environment file and of the configuration
        (fragments of update_sentinel_config, lines 1006-1044) *)

(** [_set_env] (lines 1008-1011) *)
Definition _set_env (env_file : list (string * json)) (key : string) (value : json)
  : list (string * json) :=
  if Py.is_none value then env_file else Py.set env_file key value.

(** Lines 1012-1021: the fields of the request that go to the file. *)
Definition updated_env (payload env_file : list (string * json))
  : list (string * json) :=
  let e := _set_env env_file "MONIKER" (Py.get payload "moniker") in
  let e := _set_env e "WEBSITE" (Py.get payload "website") in
  let e := _set_env e "DESCRIPTION" (Py.get payload "description") in
  let e := _set_env e "LOCATION" (Py.get payload "location") in
  let e := _set_env e "FREE_RATE_LIMIT" (Py.get payload "free_rate_limit") in
  let e := _set_env e "FREE_RATE_LIMIT_DURATION" (Py.get payload "free_rate_limit_duration") in
  if Py.truthy (Py.get payload "provider_hub_uri") then
    let e := _set_env e "PROVIDER_HUB_URI" (Py.get payload "provider_hub_uri") in
    _set_env e "ARKEO_REST_API_PORT" (Py.get payload "provider_hub_uri")
  else e.

(** Lines 1042-1044: the text written to the file, one line for each key. *)
Definition env_text (env_file : list (string * json)) : string :=
  String.concat ""
    (map (fun kv => (fst kv ++ "=" ++ PyStr.shlex_quote (py_str (snd kv))
                       ++ String "010" EmptyString)%string) env_file).

(** [config.setdefault("provider", {})] and [config["provider"][k] = v]
    (lines 1027-1028 and 1030-1031); a configuration that is not a mapping,
    or whose provider is not one, raises. *)
Definition set_provider_field (config : json) (k : string) (v : json) : res json :=
  match config with
  | JObj c =>
      match Py.lookup c "provider" with
      | None => Ret (JObj (Py.set c "provider" (JObj [(k, v)])))
      | Some (JObj p) => Ret (JObj (Py.set c "provider" (JObj (Py.set p k v))))
      | Some _ => Exn
      end
  | _ => Exn
  end.

(** Lines 1023-1031: the configuration after the update. *)
Definition updated_config (payload : list (string * json)) (config : json) : res json :=
  let provider_pubkey := Py.get payload "provider_pubkey" in
  let effective_provider_name :=
    Py.por (Py.get payload "provider_name") (Py.get payload "moniker") in
  match (if Py.truthy provider_pubkey
         then set_provider_field config "pubkey" provider_pubkey
         else Ret config) with
  | Exn => Exn
  | Ret config =>
      if Py.truthy effective_provider_name
      then set_provider_field config "name" effective_provider_name
      else Ret config
  end.

(** *** The other endpoints *)

Section Endpoints.

(** **** provider_info (lines 128-138 and 607-626) *)

Variable settings : sentinel_settings.
(** What the files hold, given the commands run so far. *)
Variable fs : list event -> string -> file.

Definition provider_pubkeys_response (user keyring_backend : string)
  : M (list (string * json)) :=
  '(raw_pubkey, bech32_pubkey, pubkey_err) <- derive_pubkeys user keyring_backend ;;
  let resp := [("user", JStr user); ("keyring_backend", JStr keyring_backend);
               ("pubkey", pubkey_json raw_pubkey bech32_pubkey)] in
  if err_truthy pubkey_err then
    ret (Py.set resp "pubkey_error"
           (JStr (match pubkey_err with Some e => e | None => "" end)))
  else ret resp.

Definition provider_info : M http :=
  base <- provider_pubkeys_response (KEY_NAME cfg) (KEYRING cfg) ;;
  fun t =>
    match _load_env_file (fs t) (SENTINEL_ENV_PATH settings) with
    | Exn => (Exn, [])
    | Ret provider_metadata =>
        (Ret (JObj (Py.update base
                      [("fees", JStr (FEES_DEFAULT cfg));
                       ("bond", JStr (BOND_DEFAULT cfg));
                       ("sentinel_uri", JStr (SENTINEL_URI_DEFAULT cfg));
                       ("metadata_nonce", JStr (METADATA_NONCE_DEFAULT cfg));
                       ("arkeod_node", JStr (ARKEOD_NODE cfg));
                       ("provider_metadata", JObj provider_metadata)]),
              200%Z), [])
    end.

(** **** provider_services (lines 700-840) *)

Definition list_providers_cmd : list json :=
  [JStr "arkeod"; JStr "--home"; JStr (ARKEOD_HOME cfg)]
  ++ (if PyStr.is_empty (ARKEOD_NODE cfg) then [] else [JStr "--node"; JStr (ARKEOD_NODE cfg)])
  ++ [JStr "query"; JStr "arkeo"; JStr "list-providers"; JStr "--output"; JStr "json"].

(** What a [for] loop goes through: the items of a list, the characters of
    a string, the keys of a dict; [None] stands for the [TypeError] of a
    value that is not iterable. *)
Definition iterate (v : json) : option (list json) :=
  match v with
  | JArr l => Some l
  | JStr s => Some (map (fun c => JStr (String c EmptyString)) (list_ascii_of_string s))
  | JObj d => Some (map (fun kv => JStr (fst kv)) d)
  | JNull | JBool _ | JNum _ => None
  end.

(** Lines 732-737. *)
Definition providers_of (out : string) : res (list json) :=
  match json_loads out with
  | JSONDecodeError => Ret []
  | Decoded (JObj data) =>
      match iterate (Py.por (Py.get data "provider")
                       (Py.por (Py.get data "providers") (JArr []))) with
      | Some l => Ret l
      | None => Exn
      end
  | Decoded _ => Exn
  | OtherError => Exn
  end.

(** [pk] of line 743. *)
Definition provider_key (p : list (string * json)) : json :=
  Py.por (Py.get p "pub_key") (Py.por (Py.get p "pubkey") (Py.get p "pubKey")).

(** Lines 739-745: the dicts whose key is the encoded key of the node. *)
Fixpoint matched_providers (bech32_pubkey : string) (providers : list json)
  : list (list (string * json)) :=
  match providers with
  | [] => []
  | JObj p :: rest =>
      let pk := provider_key p in
      if (Py.truthy pk && Py.eq_str pk bech32_pubkey)%bool
      then p :: matched_providers bech32_pubkey rest
      else matched_providers bech32_pubkey rest
  | _ :: rest => matched_providers bech32_pubkey rest
  end.

(** One item of a list of rates (lines 752-759): [None] when it is
    skipped. *)
Definition rate_part (r : json) : option string :=
  match r with
  | JObj d =>
      let amount := Py.get d "amount" in
      let denom := Py.por (Py.get d "denom") (JStr "") in
      if Py.is_none amount then None
      else Some (py_str amount ++ py_str denom)%string
  | _ => None
  end.

Fixpoint rate_parts (l : list json) : list string :=
  match l with
  | [] => []
  | r :: rest =>
      match rate_part r with
      | Some s => s :: rate_parts rest
      | None => rate_parts rest
      end
  end.

(** [_rate_to_string] (lines 748-767) *)
Definition _rate_to_string (rate_val : json) : string :=
  match rate_val with
  | JArr l =>
      match rate_parts l with
      | [] => ""
      | parts => PyStr.join "," parts
      end
  | JObj d =>
      let amount := Py.get d "amount" in
      let denom := Py.por (Py.get d "denom") (JStr "") in
      if Py.is_none amount then "" else (py_str amount ++ py_str denom)%string
  | JNull => ""
  | JBool _ | JNum _ | JStr _ => py_str rate_val
  end.

(** The entry built from a service of a provider, or from the provider
    itself (lines 780-805 and 807-831, the same text for [s] and [p]). *)
Definition service_entry (s : list (string * json)) : json :=
  let min_dur := Py.por (Py.get s "min_contract_duration") (Py.get s "min_contract_dur") in
  let max_dur := Py.por (Py.get s "max_contract_duration") (Py.get s "max_contract_dur") in
  let sub_rate_raw := Py.por (Py.get s "subscription_rate") (Py.get s "subscription_rates") in
  let paygo_rate_raw := Py.por (Py.get s "pay_as_you_go_rate") (Py.get s "pay_as_you_go_rates") in
  let sub_rate := _rate_to_string sub_rate_raw in
  let paygo_rate := _rate_to_string paygo_rate_raw in
  let settle := Py.por (Py.get s "settlement_duration") (Py.get s "settlement_dur") in
  let status_val := Py.get s "status" in
  let sid := Py.por (Py.get s "service_id") (Py.por (Py.get s "id") (Py.get s "service")) in
  let sname := Py.por (Py.get s "service") (Py.get s "name") in
  JObj [("name", sname);
        ("id", sid);
        ("service", Py.get s "service");
        ("metadata_uri", Py.por (Py.get s "metadata_uri") (Py.get s "metadataUri"));
        ("metadata_nonce", Py.por (Py.get s "metadata_nonce") (Py.get s "metadataNonce"));
        ("status", status_val);
        ("min_contract_dur", min_dur);
        ("max_contract_dur", max_dur);
        ("subscription_rates", JStr sub_rate);
        ("pay_as_you_go_rates", JStr paygo_rate);
        ("settlement_dur", settle)].

(** [svc_list] of lines 770-774. *)
Definition svc_list_of (p : list (string * json)) : list json :=
  match Py.get p "services" with
  | JArr l => l
  | _ => match Py.get p "service" with
         | JArr l => l
         | _ => []
         end
  end.

(** The loop of lines 777-805: the dicts of the list, each as an entry. *)
Fixpoint entries_of_list (l : list json) : list json :=
  match l with
  | [] => []
  | JObj s :: rest => service_entry s :: entries_of_list rest
  | _ :: rest => entries_of_list rest
  end.

(** The entries one matched provider adds (lines 770-831). *)
Definition provider_entries (p : list (string * json)) : list json :=
  match svc_list_of p with
  | [] => [service_entry p]
  | l => entries_of_list l
  end.

Definition services_listed (raw_pubkey bech32_pubkey : string) (providers : list json)
  : http :=
  let matched := matched_providers bech32_pubkey providers in
  (JObj [("services", JArr (flat_map provider_entries matched));
         ("matched_providers", JArr (map JObj matched));
         ("pubkey", pubkey_json raw_pubkey bech32_pubkey);
         ("cmd", JArr list_providers_cmd)], 200%Z).

(** The view function. Its query of the providers is logged under the
    label of the provider query. *)
Definition provider_services : M http :=
  '(raw_pubkey, bech32_pubkey, pubkey_err) <- derive_pubkeys (KEY_NAME cfg) (KEYRING cfg) ;;
  if err_truthy pubkey_err then
    ret (JObj [("error", JStr (match pubkey_err with Some e => e | None => "" end));
               ("user", JStr (KEY_NAME cfg));
               ("keyring_backend", JStr (KEYRING cfg));
               ("pubkey", pubkey_json raw_pubkey bech32_pubkey)], 500%Z)
  else
    '(code, out) <- run_list ProviderQuery list_providers_cmd ;;
    if negb (Z.eqb code 0) then
      ret (JObj [("error", JStr "failed to list providers");
                 ("detail", JStr out);
                 ("cmd", JArr list_providers_cmd);
                 ("pubkey", pubkey_json raw_pubkey bech32_pubkey)], 500%Z)
    else
      match providers_of out with
      | Exn => raise
      | Ret providers => ret (services_listed raw_pubkey bech32_pubkey providers)
      end.

(** **** The endpoints that run no key command *)

(** The answer to a command of these endpoints given the commands run
    before it, and the text of the exception when the answer is one. *)
Variable world : list command -> command -> response.
Variable exn_text : list command -> command -> string.

(** **** version (lines 145-153) *)

Definition version (t : list command) : res http * list command :=
  let cmd := Shell "arkeod version" in
  (match world t cmd with
   | Raised => Exn
   | Exited code out =>
       if negb (Z.eqb code 0) then
         Ret (JObj [("error", JStr "failed to get arkeod version"); ("detail", JStr out)],
              500%Z)
       else
         let ver := PyStr.strip out in
         let ver := if PyStr.is_empty ver then "unknown" else ver in
         Ret (JObj [("arkeod_version", JStr ver)], 200%Z)
   end, [cmd]).

(** **** get_key and get_balance (lines 175-226) *)

Definition key_address_cmd : string :=
  "arkeod --home " ++ ARKEOD_HOME cfg ++ " --keyring-backend " ++ KEYRING cfg
    ++ " keys show " ++ KEY_NAME cfg ++ " -a".

Definition balance_cmd (address : string) : string :=
  "arkeod query bank balances " ++ address ++ " --node " ++ ARKEOD_NODE cfg ++ " -o json".

Definition get_key (t : list command) : res http * list command :=
  let cmd := Shell key_address_cmd in
  (match world t cmd with
   | Raised => Exn
   | Exited code out =>
       if negb (Z.eqb code 0) then
         Ret (JObj [("error", JStr "failed to get key address"); ("detail", JStr out)],
              500%Z)
       else Ret (JObj [("address", JStr (PyStr.strip out))], 200%Z)
   end, [cmd]).

Definition get_balance (t : list command) : res http * list command :=
  let addr_cmd := Shell key_address_cmd in
  match world t addr_cmd with
  | Raised => (Exn, [addr_cmd])
  | Exited code addr_out =>
      if negb (Z.eqb code 0) then
        (Ret (JObj [("error", JStr "failed to get key address"); ("detail", JStr addr_out)],
              500%Z), [addr_cmd])
      else
        let address := PyStr.strip addr_out in
        let bal_cmd := Shell (balance_cmd address) in
        (match world (t ++ [addr_cmd]) bal_cmd with
         | Raised => Exn
         | Exited code bal_out =>
             if negb (Z.eqb code 0) then
               Ret (JObj [("address", JStr address);
                          ("error", JStr "failed to query balance");
                          ("detail", JStr bal_out)], 500%Z)
             else
               match json_loads bal_out with
               | Decoded data =>
                   Ret (JObj [("address", JStr address); ("balance", data)], 200%Z)
               | JSONDecodeError =>
                   Ret (JObj [("address", JStr address);
                              ("balance", JObj [("raw", JStr bal_out)])], 200%Z)
               | OtherError => Exn
               end
         end, [addr_cmd; bal_cmd])
  end.

(** **** block_height (lines 155-172) *)

Definition status_cmd : list json :=
  [JStr "arkeod"; JStr "--home"; JStr (ARKEOD_HOME cfg)]
  ++ (if PyStr.is_empty (ARKEOD_NODE cfg) then [] else [JStr "--node"; JStr (ARKEOD_NODE cfg)])
  ++ [JStr "status"].

(** Lines 168-170: the value of the field "height"; a document that is
    not a dict, or whose sync info is true but not a dict, raises. *)
Definition height_of (data : json) : res json :=
  match data with
  | JObj d =>
      match Py.por (Py.get d "SyncInfo") (Py.por (Py.get d "sync_info") (JObj [])) with
      | JObj sync_info =>
          let height :=
            Py.por (Py.get sync_info "latest_block_height") (Py.get sync_info "latest_block") in
          Ret (if Py.is_none height then JNull else JStr (py_str height))
      | _ => Exn
      end
  | _ => Exn
  end.

Definition block_height (t : list command) : res http * list command :=
  (match world t (Argv status_cmd) with
   | Raised => Exn
   | Exited code out =>
       if negb (Z.eqb code 0) then
         Ret (JObj [("error", JStr "failed to fetch status"); ("detail", JStr out);
                    ("cmd", JArr status_cmd)], 500%Z)
       else
         match json_loads out with
         | JSONDecodeError =>
             Ret (JObj [("error", JStr "invalid JSON from status"); ("detail", JStr out);
                        ("cmd", JArr status_cmd)], 500%Z)
         | Decoded data =>
             match height_of data with
             | Exn => Exn
             | Ret height => Ret (JObj [("height", height); ("status", data)], 200%Z)
             end
         | OtherError => Exn
         end
   end, [Argv status_cmd]).

(** **** list_services (lines 629-697) *)

(** [parse_json] (lines 643-656); [JNull] stands for [None], which is also
    what the text "null" decodes to. Both handlers are for [JSONDecodeError]
    alone: any other exception of the decoder goes up. *)
Definition parse_json (text : string) : res json :=
  match json_loads text with
  | Decoded v => Ret v
  | OtherError => Exn
  | JSONDecodeError =>
      let first_brace := PyStr.find_char "{" text in
      let first_bracket := PyStr.find_char "[" text in
      let start :=
        match first_brace, first_bracket with
        | None, None => None
        | Some i, None => Some i
        | None, Some j => Some j
        | Some i, Some j => Some (Nat.min i j)
        end in
      match start with
      | None => Ret JNull
      | Some start =>
          match json_loads (PyStr.drop start text) with
          | Decoded v => Ret v
          | JSONDecodeError => Ret JNull
          | OtherError => Exn
          end
      end
  end.

(** Lines 664-672: the list the entries are read from. *)
Definition candidates_of (parsed : json) : list json :=
  match parsed with
  | JObj d =>
      match Py.get d "services" with
      | JArr l => l
      | _ => match Py.get d "result" with
             | JArr l => l
             | _ => match Py.get d "data" with
                    | JArr l => l
                    | _ => []
                    end
             end
      end
  | JArr l => l
  | _ => []
  end.

(** Lines 674-681. *)
Fixpoint catalogue_entries (items : list json) : list json :=
  match items with
  | [] => []
  | JObj item :: rest =>
      let sid := Py.por (Py.get item "id")
                   (Py.por (Py.get item "service_id") (Py.get item "serviceID")) in
      let name := Py.por (Py.get item "service")
                    (Py.por (Py.get item "name") (Py.get item "label")) in
      if (Py.is_none sid && Py.is_none name)%bool then catalogue_entries rest
      else JObj [("id", sid); ("name", name)] :: catalogue_entries rest
  | _ :: rest => catalogue_entries rest
  end.

(** Lines 688-695: the entries read from the lines of a text. *)
Fixpoint text_entries (lines : list string) : list json :=
  match lines with
  | [] => []
  | line :: rest =>
      match PyStr.match_service_line line with
      | Some (svc, sid, desc) =>
          JObj [("id", JStr (PyStr.strip sid)); ("name", JStr (PyStr.strip svc));
                ("description", JStr (PyStr.strip desc))] :: text_entries rest
      | None => text_entries rest
      end
  end.

(** Lines 658-660: [parsed], from the output and what [parse_json] gave for
    it. *)
Definition parsed_of (raw_out : string) (parsed : json) : json :=
  match parsed with
  | JNull => JStr raw_out
  | v => v
  end.

(** Lines 662-695: the entries. *)
Definition services_of_parsed (parsed : json) : list json :=
  match catalogue_entries (candidates_of parsed), parsed with
  | [], JStr text => text_entries (PyStr.splitlines text)
  | services, _ => services
  end.

Definition list_services (t : list command) : res http * list command :=
  (match world t (Argv all_services_cmd) with
   | Raised => Exn
   | Exited code out =>
       if negb (Z.eqb code 0) then
         Ret (JObj [("error", JStr "failed to list services"); ("detail", JStr out)], 500%Z)
       else
         match parse_json out with
         | Exn => Exn
         | Ret parsed =>
             let parsed := parsed_of out parsed in
             Ret (JObj [("services", JArr (services_of_parsed parsed)); ("raw", parsed);
                        ("cmd", JArr all_services_cmd)], 200%Z)
         end
   end, [Argv all_services_cmd]).

(** **** sentinel_status and sentinel_control (lines 843-886) *)

Definition SUPERVISORCTL : list json :=
  [JStr "supervisorctl"; JStr "-c"; JStr (SUPERVISOR_CONF settings)].

Definition SUPERVISORCTL_FALLBACK : list json := [JStr "supervisorctl"].

Definition sentinel_status (t : list command) : res http * list command :=
  let c1 := Argv (SUPERVISORCTL ++ [JStr "status"; JStr "sentinel"]) in
  let c2 := Argv (SUPERVISORCTL_FALLBACK ++ [JStr "status"; JStr "sentinel"]) in
  let '(status, e1) :=
    match world t c1 with
    | Exited _ out => (PyStr.strip out, [c1])
    | Raised =>
        match world (t ++ [c1]) c2 with
        | Exited _ out => (PyStr.strip out, [c1; c2])
        | Raised => (("status error: " ++ exn_text (t ++ [c1]) c2)%string, [c1; c2])
        end
    end in
  let c3 := Argv [JStr "tail"; JStr "-n"; JStr "80"; JStr "/var/log/provider-sentinel.log"] in
  let log_tail :=
    match world (t ++ e1) c3 with
    | Exited _ out => out
    | Raised => ("log error: " ++ exn_text (t ++ e1) c3)%string
    end in
  let c4 := Argv [JStr "tail"; JStr "-n"; JStr "80"; JStr "/var/log/provider-sentinel.err.log"] in
  let err_tail :=
    match world (t ++ e1 ++ [c3]) c4 with
    | Exited _ out => out
    | Raised => ("errlog error: " ++ exn_text (t ++ e1 ++ [c3]) c4)%string
    end in
  (Ret (JObj [("status", JStr status); ("log", JStr log_tail); ("err_log", JStr err_tail)],
        200%Z), e1 ++ [c3; c4]).

Definition control_done (action : string) (code : Z) (out : string) : http :=
  (JObj [("status", JStr "ok"); ("action", JStr action); ("exit_code", JNum code);
         ("output", JStr out)], 200%Z).

Definition is_action (action : string) : bool :=
  (String.eqb action "start" || String.eqb action "stop" || String.eqb action "restart")%bool.

(** [body] is read as for the other view functions. A value of "action"
    that is true and not a string has no [lower]. *)
Definition sentinel_control (body : json) (t : list command) : res http * list command :=
  match Py.por body (JObj []) with
  | JObj payload =>
      match Py.por (Py.get payload "action") (JStr "") with
      | JStr a =>
          let action := PyStr.lower a in
          if negb (is_action action) then
            (Ret (JObj [("error", JStr "action must be one of start, stop, restart")], 400%Z),
             [])
          else
            let c1 := Argv (SUPERVISORCTL ++ [JStr action; JStr "sentinel"]) in
            let c2 := Argv (SUPERVISORCTL_FALLBACK ++ [JStr action; JStr "sentinel"]) in
            match world t c1 with
            | Exited code out => (Ret (control_done action code out), [c1])
            | Raised =>
                match world (t ++ [c1]) c2 with
                | Exited code out => (Ret (control_done action code out), [c1; c2])
                | Raised =>
                    (Ret (JObj [("error", JStr ("failed to " ++ action ++ " sentinel"));
                                ("detail", JStr (exn_text (t ++ [c1]) c2))], 500%Z),
                     [c1; c2])
                end
            end
      | _ => (Exn, [])
      end
  | _ => (Exn, [])
  end.

End Endpoints.

(** *** Vocabulary of the statements *)

(** A field of a response body. *)
Definition field (h : http) (k : string) : json :=
  match fst h with
  | JObj d => Py.get d k
  | _ => JNull
  end.

(** What one account query obtains: the text of the sequence, if any
    (lines 461-472 with the handler of line 474). *)
Definition obtained (a : response) : option string :=
  match a with
  | Exited code acct_out =>
      if Z.eqb code 0 then
        match json_loads acct_out with
        | Decoded acct =>
            if Py.is_none (seq_val_of acct) then None
            else Some (py_str (seq_val_of acct))
        | JSONDecodeError | OtherError => None
        end
      else None
  | Raised => None
  end.

(** The events of a computation placed after earlier ones. *)
Definition after {A} (e : list event) (x : res A * list event) : res A * list event :=
  (fst x, e ++ snd x).

(** The response that ends the handler, from the outcome of the last
    submission (lines 551-604). *)
Definition final_response (i : inputs) (resolved_service : json) (lookup_note : string)
    (raw_pubkey bech32_pubkey : string) (bond_cmd : option (list json))
    (bond_code : Z) (bond_out : string)
    (mod_cmd : list json) (mod_code : Z) (mod_out : string) : http :=
  if negb (Z.eqb mod_code 0) then
    mod_failure i resolved_service raw_pubkey bech32_pubkey bond_code bond_out mod_cmd mod_out
  else
    submitted i resolved_service lookup_note raw_pubkey bech32_pubkey bond_cmd
      bond_code bond_out mod_cmd mod_code mod_out.



(** Whether a JSON object has a key. *)
Definition has_key (v : json) (k : string) : bool :=
  match v with
  | JObj d => match Py.lookup d k with Some _ => true | None => false end
  | _ => false
  end.

(** Whether a response body has a field. *)
Definition has_field (h : http) (k : string) : bool := has_key (fst h) k.

(** No account query of the events [evs], run after [t0], obtains a
    sequence: a check by position. *)
Definition no_sequence_obtained (t0 evs : list event) : bool :=
  forallb
    (fun n =>
       match nth n evs (Sleep 0) with
       | Run AccountQuery q =>
           match obtained (oracle (t0 ++ firstn n evs) q) with
           | None => true
           | Some _ => false
           end
       | _ => true
       end)
    (seq 0 (List.length evs)).

(** A field of a field of a response body. *)
Definition subfield (v : json) (k : string) : json :=
  match v with
  | JObj d => Py.get d k
  | _ => JNull
  end.

(** The answers to the catalogue query after which the lookup gives
    nothing: a non-zero exit code, an output that is not JSON, or an object
    in which the scan finds no entry with the id. *)
Definition catalogue_misses (sid : string) (a : response) : Prop :=
  match a with
  | Exited code out =>
      code <> 0%Z \/
      json_loads out = JSONDecodeError \/
      exists data, json_loads out = Decoded (JObj data) /\
                   find_service sid (services_of data) = None
  | Raised => False
  end.

(** The four ways [derive_pubkeys] reports an error, with the error text,
    the raw key known by then and the commands run. [t] is the log when it
    is called. *)
Inductive derivation_failure (user keyring_backend : string) (t : list event)
  : string -> string -> list event -> Prop :=
| key_lookup_failed code out :
    oracle t (pubkey_cmd user keyring_backend) = Exited code out ->
    code <> 0%Z ->
    derivation_failure user keyring_backend t
      ("failed to fetch raw pubkey: " ++ out)%string ""
      [Run KeysShow (pubkey_cmd user keyring_backend)]
| key_not_found out :
    oracle t (pubkey_cmd user keyring_backend) = Exited 0 out ->
    raw_pubkey_of out = Ret "" ->
    derivation_failure user keyring_backend t
      ("could not parse raw pubkey: " ++ out)%string ""
      [Run KeysShow (pubkey_cmd user keyring_backend)]
| conversion_failed out raw code2 out2 :
    oracle t (pubkey_cmd user keyring_backend) = Exited 0 out ->
    raw_pubkey_of out = Ret raw -> raw <> "" ->
    oracle (t ++ [Run KeysShow (pubkey_cmd user keyring_backend)])
      [JStr "arkeod"; JStr "debug"; JStr "pubkey-raw"; JStr raw] = Exited code2 out2 ->
    code2 <> 0%Z ->
    derivation_failure user keyring_backend t
      ("failed to convert pubkey: " ++ out2)%string raw
      [Run KeysShow (pubkey_cmd user keyring_backend);
       Run PubkeyRaw [JStr "arkeod"; JStr "debug"; JStr "pubkey-raw"; JStr raw]]
| bech32_not_found out raw out2 :
    oracle t (pubkey_cmd user keyring_backend) = Exited 0 out ->
    raw_pubkey_of out = Ret raw -> raw <> "" ->
    oracle (t ++ [Run KeysShow (pubkey_cmd user keyring_backend)])
      [JStr "arkeod"; JStr "debug"; JStr "pubkey-raw"; JStr raw] = Exited 0 out2 ->
    find_bech32 (PyStr.splitlines out2) = "" ->
    derivation_failure user keyring_backend t
      ("Bech32 pubkey not found: " ++ out2)%string raw
      [Run KeysShow (pubkey_cmd user keyring_backend);
       Run PubkeyRaw [JStr "arkeod"; JStr "debug"; JStr "pubkey-raw"; JStr raw]].

(** The sequence arguments of a command. *)
Definition sequence_args (s : string) : list json := [JStr "--sequence"; JStr s].

(** What the loop can do in [n] rounds: it always ends with a value, runs
    nothing but account queries and sleeps, at most [n] queries, and its
    result is empty or one sequence. *)
Inductive fetched (b : string) : nat -> list event -> list json -> list event -> Prop :=
| fetched_none t : fetched b 0 t [] []
| fetched_now n t s :
    obtained (oracle t (acct_cmd b)) = Some s ->
    fetched b (S n) t (sequence_args s) [Run AccountQuery (acct_cmd b)]
| fetched_later n t seq evs :
    obtained (oracle t (acct_cmd b)) = None ->
    fetched b n (t ++ [Run AccountQuery (acct_cmd b); Sleep 1]) seq evs ->
    fetched b (S n) t seq (Run AccountQuery (acct_cmd b) :: Sleep 1 :: evs).

(** The answer that makes the pair count as registered (line 402). *)
Definition registered (a : response) : bool :=
  match a with
  | Exited code _ => Z.eqb code 0
  | Raised => false
  end.

(** Logs that hold no registration check, no transaction and no account
    query. *)
Definition prelude (P : list event) : Prop :=
  forall s, s <> AllServices -> s <> KeysShow -> s <> PubkeyRaw -> count_site s P = 0.


(** ** Logs *)

Lemma count_site_app s (a b : list event) :
  count_site s (a ++ b) = count_site s a + count_site s b.
Proof.
  unfold count_site. now rewrite filter_app, length_app.
Qed.

Lemma count_site_cons s e (l : list event) :
  count_site s (e :: l) = (if is_site s e then 1 else 0) + count_site s l.
Proof.
  unfold count_site. simpl. now destruct (is_site s e).
Qed.

Lemma is_site_refl s c : is_site s (Run s c) = true.
Proof. now destruct s. Qed.

(** The first command of a site in a log is where it is. *)
Lemma locate_first s (A B pre post : list event) x c :
  A ++ Run s x :: B = pre ++ Run s c :: post ->
  count_site s A = 0 -> count_site s pre = 0 ->
  pre = A /\ c = x /\ post = B.
Proof.
  revert pre. induction A as [|a A IH]; intros [|p pre] E HA Hp; simpl in E.
  - now inversion E.
  - inversion E; subst. rewrite count_site_cons, is_site_refl in Hp. discriminate.
  - inversion E; subst. rewrite count_site_cons, is_site_refl in HA. discriminate.
  - inversion E; subst.
    rewrite count_site_cons in HA, Hp.
    destruct (IH pre H1) as (-> & -> & ->); try lia.
    now repeat split.
Qed.

(** So is the last one. *)
Lemma locate_last s (A B pre post : list event) x c :
  A ++ Run s x :: B = pre ++ Run s c :: post ->
  count_site s B = 0 -> count_site s post = 0 ->
  pre = A /\ c = x /\ post = B.
Proof.
  revert pre. induction A as [|a A IH]; intros [|p pre] E HB Hp; simpl in E.
  - now inversion E.
  - inversion E; subst.
    rewrite count_site_app, count_site_cons, is_site_refl in HB. lia.
  - inversion E; subst.
    rewrite count_site_app, count_site_cons, is_site_refl in Hp. lia.
  - inversion E; subst.
    destruct (IH pre H1) as (-> & -> & ->); auto.
Qed.

(** A command of a site that the first part of a log never runs lies in the
    second part. *)
Lemma locate_after s (P S pre post : list event) c :
  P ++ S = pre ++ Run s c :: post ->
  count_site s P = 0 ->
  exists pre', pre = P ++ pre' /\ S = pre' ++ Run s c :: post.
Proof.
  revert pre. induction P as [|p P IH]; intros pre E HP; simpl in E.
  - now exists pre.
  - rewrite count_site_cons in HP.
    destruct pre as [|q pre]; simpl in E; inversion E; subst.
    + rewrite is_site_refl in HP. discriminate.
    + destruct (IH pre H1) as (pre' & -> & ->); [lia|].
      now exists pre'.
Qed.

Lemma count_zero_no_run s (pre post : list event) c :
  count_site s (pre ++ Run s c :: post) = 0 -> False.
Proof.
  rewrite count_site_app, count_site_cons, is_site_refl. lia.
Qed.

Lemma no_sequence_obtained_spec t0 evs :
  no_sequence_obtained t0 evs = true ->
  forall p q p', evs = p ++ Run AccountQuery q :: p' ->
                 obtained (oracle (t0 ++ p) q) = None.
Proof.
  unfold no_sequence_obtained. intros H p q p' ->.
  rewrite forallb_forall in H. specialize (H (List.length p)).
  rewrite nth_middle in H.
  rewrite firstn_app, firstn_all, Nat.sub_diag in H. cbn [firstn] in H.
  rewrite app_nil_r in H.
  destruct (obtained _); [|reflexivity].
  discriminate H. apply in_seq. rewrite length_app. cbn. lia.
Qed.

(** ** The account-sequence loop *)

(** One iteration, exceptions handled: the query is run once and breaks the
    loop exactly when it obtains a sequence. *)
Lemma query_once b t :
  try_except (query_sequence b) (ret None) t =
  (Ret (option_map sequence_args (obtained (oracle t (acct_cmd b)))),
   [Run AccountQuery (acct_cmd b)]).
Proof.
  unfold try_except, query_sequence, bind, run_list, obtained, ret, raise.
  destruct (oracle t (acct_cmd b)) as [code out|]; simpl; [|reflexivity].
  destruct (Z.eqb code 0); simpl; [|reflexivity].
  destruct (json_loads out) as [acct| |]; simpl; [|reflexivity..].
  now destruct (Py.is_none (seq_val_of acct)).
Qed.

Lemma fetch_sequence_step n b t :
  fetch_sequence (S n) b t =
  match obtained (oracle t (acct_cmd b)) with
  | Some s => (Ret (sequence_args s), [Run AccountQuery (acct_cmd b)])
  | None =>
      after [Run AccountQuery (acct_cmd b); Sleep 1]
        (fetch_sequence n b (t ++ [Run AccountQuery (acct_cmd b); Sleep 1]))
  end.
Proof.
  cbn [fetch_sequence]. unfold bind at 1. rewrite query_once.
  generalize (acct_cmd b) as q. intro q.
  destruct (obtained (oracle t q)) as [s|]; cbn [option_map].
  - reflexivity.
  - unfold bind, sleep, after.
    replace ((t ++ [Run AccountQuery q]) ++ [Sleep 1])
      with (t ++ [Run AccountQuery q; Sleep 1]) by now rewrite <- app_assoc.
    now destruct (fetch_sequence n b (t ++ [Run AccountQuery q; Sleep 1])) as [[a|] e].
Qed.

Lemma fetch_sequence_fetched n b : forall t,
  exists seq evs, fetch_sequence n b t = (Ret seq, evs) /\ fetched b n t seq evs.
Proof.
  induction n as [|n IH]; intro t.
  - exists [], []. split; [reflexivity | constructor].
  - rewrite fetch_sequence_step.
    destruct (obtained (oracle t (acct_cmd b))) as [s|] eqn:E.
    + eexists _, _. split; [reflexivity | now constructor].
    + destruct (IH (t ++ [Run AccountQuery (acct_cmd b); Sleep 1])) as (seq & evs & -> & F).
      eexists _, _. split; [reflexivity | now constructor].
Qed.

Lemma fetched_count b n t seq evs :
  fetched b n t seq evs -> count_site AccountQuery evs <= n.
Proof.
  induction 1.
  - cbn. lia.
  - cbn. lia.
  - rewrite !count_site_cons. cbn. lia.
Qed.

Lemma fetched_other_sites b n t seq evs s :
  fetched b n t seq evs -> s <> AccountQuery -> count_site s evs = 0.
Proof.
  induction 1; intro Hs.
  - reflexivity.
  - rewrite count_site_cons. now destruct s.
  - rewrite !count_site_cons, IHfetched by assumption. now destruct s.
Qed.


(** When no query of the loop obtains a sequence, the result is empty. *)
Lemma fetched_nothing b n t seq evs :
  fetched b n t seq evs ->
  (forall pre q post, evs = pre ++ Run AccountQuery q :: post ->
                      obtained (oracle (t ++ pre) q) = None) ->
  seq = [].
Proof.
  induction 1; intro Hall.
  - reflexivity.
  - specialize (Hall [] _ [] eq_refl). rewrite app_nil_r in Hall. congruence.
  - apply IHfetched. intros pre q post ->.
    specialize (Hall (Run AccountQuery (acct_cmd b) :: Sleep 1 :: pre) q post eq_refl).
    now rewrite <- app_assoc.
Qed.



(** ** Computations step by step *)

Lemma after_nil {A} (x : res A * list event) : after [] x = x.
Proof. now destruct x. Qed.

Lemma after_after {A} e1 e2 (x : res A * list event) :
  after e1 (after e2 x) = after (e1 ++ e2) x.
Proof. unfold after. cbn. now rewrite app_assoc. Qed.

Lemma after_pair {A} e (r : res A) e' : after e (r, e') = (r, e ++ e').
Proof. reflexivity. Qed.

Lemma bind_ret {A B} (a : A) (k : A -> M B) t : bind (ret a) k t = k a t.
Proof.
  unfold bind, ret. rewrite app_nil_r. now destruct (k a t).
Qed.

Lemma bind_raise {A B} (k : A -> M B) t : bind raise k t = (Exn, []).
Proof. reflexivity. Qed.

Lemma bind_sleep {B} n (k : unit -> M B) t :
  bind (sleep n) k t = after [Sleep n] (k tt (t ++ [Sleep n])).
Proof.
  unfold bind, sleep, after. now destruct (k tt (t ++ [Sleep n])).
Qed.

Lemma bind_run_list {B} s c (k : Z * string -> M B) t :
  bind (run_list s c) k t =
  match oracle t c with
  | Exited code out => after [Run s c] (k (code, out) (t ++ [Run s c]))
  | Raised => (Exn, [Run s c])
  end.
Proof.
  unfold bind, run_list, after.
  destruct (oracle t c) as [code out|]; [|reflexivity].
  now destruct (k (code, out) (t ++ [Run s c])).
Qed.

Lemma bind_bind {A B C} (m : M A) (k : A -> M B) (h : B -> M C) t :
  bind (bind m k) h t = bind m (fun a => bind (k a) h) t.
Proof.
  unfold bind. destruct (m t) as [[a|] e1]; [|reflexivity].
  destruct (k a (t ++ e1)) as [[b|] e2]; [|reflexivity].
  rewrite <- app_assoc.
  destruct (h b (t ++ e1 ++ e2)) as [r e3]. now rewrite app_assoc.
Qed.

Lemma bind_value {A B} (m : M A) (k : A -> M B) t a e :
  m t = (Ret a, e) -> bind m k t = after e (k a (t ++ e)).
Proof.
  intro E. unfold bind, after. rewrite E. now destruct (k a (t ++ e)).
Qed.

Lemma bind_run_mod {B} base seq (k : list json * Z * string -> M B) t :
  bind (run_mod_with_sequence base seq) k t =
  match oracle t (with_sequence base seq) with
  | Exited code out =>
      after [Run ModTx (with_sequence base seq)]
        (k (with_sequence base seq, code, out) (t ++ [Run ModTx (with_sequence base seq)]))
  | Raised => (Exn, [Run ModTx (with_sequence base seq)])
  end.
Proof.
  unfold run_mod_with_sequence. rewrite bind_bind, bind_run_list.
  destruct (oracle t (with_sequence base seq)) as [code out|]; [|reflexivity].
  now rewrite bind_ret.
Qed.

(** ** From the sequence fetch to the response *)

Section ModProvider.

Variables (i : inputs) (rs : json) (note raw b : string)
          (bc : option (list json)) (bcode : Z) (bout : string).

Let base := mod_cmd_base i b rs.
Let respond := final_response i rs note raw b bc bcode bout.

(** The retry, or its absence, after the first submission [c1] answered
    [(code, out)] at log [t]; [evs] are the events that follow. *)
Definition recovery (t : list event) (c1 : list json) (code : Z) (out : string)
    (r : res http) (evs : list event) : Prop :=
  if PyStr.contains "account sequence mismatch" out then
    exists seq2 Q,
      match PyStr.re_search_expected out with
      | Some d => seq2 = sequence_args d /\ Q = []
      | None => fetched b 2 (t ++ [Sleep 1]) seq2 Q
      end /\
      evs = Sleep 1 :: Q ++ [Run ModTx (with_sequence base seq2)] /\
      match oracle (t ++ Sleep 1 :: Q) (with_sequence base seq2) with
      | Exited code2 out2 => r = Ret (respond (with_sequence base seq2) code2 out2)
      | Raised => r = Exn
      end
  else r = Ret (respond c1 code out) /\ evs = [].

(** The closing lines 551-604 as a continuation of a submission. *)
Definition conclude (x : list json * Z * string) : M http :=
  let '(mod_cmd, mod_code, mod_out) := x in
  if negb (Z.eqb mod_code 0) then
    ret (mod_failure i rs raw b bcode bout mod_cmd mod_out)
  else
    ret (submitted i rs note raw b bc bcode bout mod_cmd mod_code mod_out).

Lemma conclude_respond c code out t :
  conclude (c, code, out) t = (Ret (respond c code out), []).
Proof.
  unfold conclude, respond, final_response, ret.
  now destruct (negb (code =? 0)%Z).
Qed.

Lemma submit_and_conclude seq t r evs :
  bind (run_mod_with_sequence base seq) conclude t = (r, evs) ->
  evs = [Run ModTx (with_sequence base seq)] /\
  match oracle t (with_sequence base seq) with
  | Exited code out => r = Ret (respond (with_sequence base seq) code out)
  | Raised => r = Exn
  end.
Proof.
  rewrite bind_run_mod.
  destruct (oracle t (with_sequence base seq)) as [code out|].
  - rewrite conclude_respond, after_pair. intro H. inversion H. now split.
  - intro H. inversion H. now split.
Qed.

Lemma recovery_run t c1 code out r evs :
  bind (retry_on_mismatch base b (c1, code, out)) conclude t = (r, evs) ->
  recovery t c1 code out r evs.
Proof.
  unfold retry_on_mismatch, recovery.
  destruct (PyStr.contains "account sequence mismatch" out).
  - rewrite bind_bind, bind_sleep, bind_bind.
    destruct (PyStr.re_search_expected out) as [d|].
    + rewrite bind_ret.
      destruct (bind _ conclude (t ++ [Sleep 1])) as [r' R] eqn:E.
      apply submit_and_conclude in E. destruct E as [-> E].
      rewrite after_pair. intro H. inversion H; subst.
      exists (sequence_args d), []. repeat split. exact E.
    + destruct (fetch_sequence_fetched 2 b (t ++ [Sleep 1])) as (seq2 & Q & EQ & HQ).
      rewrite (bind_value _ _ _ _ _ EQ), after_after.
      destruct (bind _ conclude ((t ++ [Sleep 1]) ++ Q)) as [r' R] eqn:E.
      apply submit_and_conclude in E. destruct E as [-> E].
      rewrite after_pair. intro H. inversion H; subst.
      exists seq2, Q. split; [exact HQ|]. split; [reflexivity|].
      rewrite <- app_assoc in E. exact E.
  - rewrite bind_ret, conclude_respond. intro H. inversion H. now split.
Qed.

(** Every run of the last part of the handler: a fetch of at most three
    queries, the first submission, and the recovery. *)
Lemma mod_provider_run t r evs :
  mod_provider i rs note raw b bc bcode bout t = (r, evs) ->
  exists seq F,
    fetched b 3 t seq F /\
    match oracle (t ++ F) (with_sequence base seq) with
    | Exited code out =>
        exists R, evs = F ++ Run ModTx (with_sequence base seq) :: R /\
                  recovery (t ++ F ++ [Run ModTx (with_sequence base seq)])
                    (with_sequence base seq) code out r R
    | Raised => r = Exn /\ evs = F ++ [Run ModTx (with_sequence base seq)]
    end.
Proof.
  intro H.
  destruct (fetch_sequence_fetched 3 b t) as (seq & F & EF & HF).
  exists seq, F. split; [exact HF|].
  unfold mod_provider in H. rewrite (bind_value _ _ _ _ _ EF) in H.
  fold base in H |- *. rewrite bind_run_mod in H.
  destruct (oracle (t ++ F) (with_sequence base seq)) as [code out|].
  - fold conclude in H.
    destruct (bind _ conclude ((t ++ F) ++ _)) as [r' R] eqn:E.
    apply recovery_run in E. rewrite <- app_assoc in E.
    rewrite !after_pair in H. inversion H; subst.
    exists R. split; [reflexivity | exact E].
  - rewrite after_pair in H. inversion H. now split.
Qed.

End ModProvider.

(** ** The registration check and the bond *)

Lemma bind_inv {A B} (m : M A) (k : A -> M B) t r evs :
  bind m k t = (r, evs) ->
  (exists a e1 e2, m t = (Ret a, e1) /\ k a (t ++ e1) = (r, e2) /\ evs = e1 ++ e2)
  \/ (m t = (Exn, evs) /\ r = Exn).
Proof.
  unfold bind. destruct (m t) as [[a|] e1].
  - destruct (k a (t ++ e1)) as [r' e2] eqn:E. intro H. inversion H; subst.
    left. now exists a, e1, e2.
  - intro H. inversion H; subst. now right.
Qed.

Lemma provider_exists_run b rs t :
  provider_exists b rs t =
  (Ret (if registered (oracle t (lookup_cmd b rs))
        then (true, "skipped: provider already exists")
        else (false, "skipped: provider already bonded")),
   [Run ProviderQuery (lookup_cmd b rs)]).
Proof.
  unfold provider_exists, try_except. rewrite bind_run_list.
  destruct (oracle t (lookup_cmd b rs)) as [code out|]; cbn [registered].
  - now destruct (Z.eqb code 0).
  - reflexivity.
Qed.

(** Every run of lines 381-604. *)
Lemma bond_then_mod_run i rs note raw b t r evs :
  bond_then_mod i rs note raw b t = (r, evs) ->
  let q := lookup_cmd b rs in
  let bcmd := bond_cmd_of i b rs in
  if registered (oracle t q) then
    exists S,
      evs = Run ProviderQuery q :: S /\
      mod_provider i rs note raw b None 0 "skipped: provider already exists"
        (t ++ [Run ProviderQuery q]) = (r, S)
  else
    match oracle (t ++ [Run ProviderQuery q]) bcmd with
    | Exited code out =>
        if Z.eqb code 0 then
          exists S,
            evs = Run ProviderQuery q :: Run BondTx bcmd :: Sleep 2 :: S /\
            mod_provider i rs note raw b (Some bcmd) code out
              (t ++ [Run ProviderQuery q; Run BondTx bcmd; Sleep 2]) = (r, S)
        else
          r = Ret (bond_failure i rs note raw b bcmd out) /\
          evs = [Run ProviderQuery q; Run BondTx bcmd]
    | Raised => r = Exn /\ evs = [Run ProviderQuery q; Run BondTx bcmd]
    end.
Proof.
  intros H q bcmd. unfold bond_then_mod in H.
  rewrite (bind_value _ _ _ _ _ (provider_exists_run b rs t)) in H.
  fold q bcmd in H.
  destruct (registered (oracle t q)).
  - destruct (mod_provider _ _ _ _ _ None _ _ _) as [r' S] eqn:E.
    rewrite after_pair in H. inversion H; subst. now exists S.
  - rewrite bind_run_list in H.
    destruct (oracle (t ++ [Run ProviderQuery q]) bcmd) as [code out|].
    + destruct (Z.eqb code 0); cbn [negb] in H.
      * rewrite bind_sleep, !after_after in H.
        rewrite <- !app_assoc in H. cbn [app] in H.
        destruct (mod_provider _ _ _ _ _ (Some bcmd) _ _ _) as [r' S] eqn:E.
        rewrite after_pair in H. inversion H; subst. now exists S.
      * unfold ret in H. rewrite !after_pair in H. inversion H. now split.
    + rewrite after_pair in H. inversion H. now split.
Qed.

(** ** The steps before the registration check *)

Lemma prelude_nil : prelude [].
Proof. intros s _ _ _. reflexivity. Qed.

Lemma prelude_app P Q : prelude P -> prelude Q -> prelude (P ++ Q).
Proof.
  intros HP HQ s H1 H2 H3. rewrite count_site_app, HP, HQ; auto.
Qed.

Lemma resolve_service_events svc t r e :
  resolve_service svc t = (r, e) ->
  e = [] \/ e = [Run AllServices all_services_cmd].
Proof.
  unfold resolve_service.
  destruct svc as [| | |s| |]; try (intro H; inversion H; now left).
  destruct (PyStr.isdigit (PyStr.strip s)); [|intro H; inversion H; now left].
  unfold _lookup_service_name_by_id. rewrite bind_bind, bind_run_list.
  destruct (oracle t all_services_cmd) as [code out|].
  2:{ intro H. inversion H. now right. }
  assert (X : forall (x : res (json * string) * list event),
             x = (fst x, snd x)) by now intros [? ?].
  intro H. right.
  destruct (negb (code =? 0)%Z).
  { rewrite !bind_ret in H. unfold ret, after in H. cbn in H. now inversion H. }
  destruct (json_loads out) as [[| | | | |data]| |];
    try (rewrite bind_raise in H; unfold after in H; cbn in H; now inversion H).
  - rewrite bind_ret in H.
    destruct (find_service _ _) as [name|]; [destruct (Py.truthy name)|];
      unfold ret, after in H; cbn in H; now inversion H.
  - rewrite bind_ret in H. unfold ret, after in H. cbn in H. now inversion H.
Qed.

Lemma derive_pubkeys_events u k t r e :
  derive_pubkeys u k t = (r, e) ->
  e = [Run KeysShow (pubkey_cmd u k)] \/
  exists raw_pubkey,
    e = [Run KeysShow (pubkey_cmd u k);
         Run PubkeyRaw [JStr "arkeod"; JStr "debug"; JStr "pubkey-raw"; JStr raw_pubkey]].
Proof.
  unfold derive_pubkeys. rewrite bind_run_list.
  destruct (oracle t (pubkey_cmd u k)) as [code out|].
  2:{ intro H. inversion H. now left. }
  destruct (negb (code =? 0)%Z).
  { unfold ret, after. cbn. intro H. inversion H. now left. }
  destruct (raw_pubkey_of out) as [raw|].
  2:{ unfold raise, after. cbn. intro H. inversion H. now left. }
  destruct (PyStr.is_empty raw).
  { unfold ret, after. cbn. intro H. inversion H. now left. }
  rewrite bind_run_list.
  destruct (oracle _ _) as [code2 out2|].
  2:{ unfold after. cbn. intro H. inversion H. right. now exists raw. }
  intro H. right. exists raw.
  destruct (negb (code2 =? 0)%Z); [|destruct (PyStr.is_empty _)];
    unfold ret, after in H; cbn in H; now inversion H.
Qed.

Lemma prelude_resolve svc t r e : resolve_service svc t = (r, e) -> prelude e.
Proof.
  intros H s H1 _ _. destruct (resolve_service_events _ _ _ _ H) as [-> | ->].
  - reflexivity.
  - rewrite count_site_cons. now destruct s.
Qed.

Lemma prelude_derive u k t r e : derive_pubkeys u k t = (r, e) -> prelude e.
Proof.
  intros H s _ H2 H3. destruct (derive_pubkeys_events _ _ _ _ _ H) as [-> | [raw ->]].
  - rewrite count_site_cons. now destruct s.
  - rewrite !count_site_cons. now destruct s.
Qed.

(** The identity was resolved: both keys are known and no error is set. *)
Lemma derive_pubkeys_success u k t raw bech err e :
  derive_pubkeys u k t = (Ret (raw, bech, err), e) ->
  err_truthy err = false -> err = None.
Proof.
  unfold derive_pubkeys. rewrite bind_run_list.
  destruct (oracle t (pubkey_cmd u k)) as [code out|]; [|discriminate].
  destruct (negb (code =? 0)%Z).
  { unfold ret, after. cbn. intro H. inversion H. discriminate. }
  destruct (raw_pubkey_of out) as [raw'|]; [|discriminate].
  destruct (PyStr.is_empty raw').
  { unfold ret, after. cbn. intro H. inversion H. discriminate. }
  rewrite bind_run_list.
  destruct (oracle _ _) as [code2 out2|]; [|discriminate].
  destruct (negb (code2 =? 0)%Z); [|destruct (PyStr.is_empty _)];
    unfold ret, after; cbn; intro H; inversion H; try discriminate; reflexivity.
Qed.

(** Every run of the handler either ends before the registration check, with
    an exception, the rejection of the request or the identity failure, or
    goes through lines 381-604 after a prelude. *)
Lemma handler_run body t0 r evs :
  bond_and_mod_provider body t0 = (r, evs) ->
  (prelude evs /\
   (r = Exn \/
    r = Ret (JObj [("error", JStr "service is required")], 400%Z) \/
    exists e raw bech, r = Ret (pubkey_failure e raw bech)))
  \/
  exists payload P rs note raw b S,
    Py.por body (JObj []) = JObj payload /\
    prelude P /\ evs = P ++ S /\
    bond_then_mod (read_inputs payload) rs note raw b (t0 ++ P) = (r, S).
Proof.
  unfold bond_and_mod_provider.
  destruct (Py.por body (JObj [])) as [| | | | |payload];
    try (intro H; inversion H; left; split; [apply prelude_nil | now left]).
  destruct (negb (Py.truthy (service (read_inputs payload)))).
  { intro H. inversion H. left. split; [apply prelude_nil | right; now left]. }
  intro H. apply bind_inv in H.
  destruct H as [([rs note] & e1 & e2 & H1 & H & ->) | [H1 ->]].
  2:{ left. split; [eapply prelude_resolve; eauto | now left]. }
  apply bind_inv in H.
  destruct H as [([[raw b] err] & e3 & e4 & H2 & H & ->) | [H2 ->]].
  2:{ left. split; [|now left].
      apply prelude_app; [eapply prelude_resolve | eapply prelude_derive]; eauto. }
  destruct (err_truthy err) eqn:Eerr.
  - inversion H; subst. left. split.
    + rewrite app_nil_r.
      apply prelude_app; [eapply prelude_resolve | eapply prelude_derive]; eauto.
    + right. right. eauto.
  - right. exists payload, (e1 ++ e3), rs, note, raw, b, e4.
    split; [reflexivity|]. split.
    { apply prelude_app; [eapply prelude_resolve | eapply prelude_derive]; eauto. }
    split; [now rewrite app_assoc|].
    now rewrite app_assoc.
Qed.

Lemma locate_unique s (A B pre post : list event) x c :
  A ++ Run s x :: B = pre ++ Run s c :: post ->
  count_site s A = 0 -> count_site s B = 0 ->
  pre = A /\ c = x /\ post = B.
Proof.
  intros E HA HB. apply (locate_first s A B pre post x c E HA).
  assert (C : count_site s (A ++ Run s x :: B) = count_site s (pre ++ Run s c :: post))
    by now rewrite E.
  rewrite !count_site_app, !count_site_cons, !is_site_refl in C. lia.
Qed.

(** The last part of the handler runs account queries and metadata updates
    only. *)
Lemma mod_provider_sites i rs note raw b bc bcode bout t r S s :
  mod_provider i rs note raw b bc bcode bout t = (r, S) ->
  s <> AccountQuery -> s <> ModTx -> count_site s S = 0.
Proof.
  intros H H1 H2. apply mod_provider_run in H.
  destruct H as (seq & F & HF & H).
  pose proof (fetched_other_sites _ _ _ _ _ s HF H1) as CF.
  destruct (oracle (t ++ F) _) as [code out|].
  - destruct H as (R & -> & HR). unfold recovery in HR.
    rewrite count_site_app, count_site_cons, CF.
    destruct (PyStr.contains _ out).
    + destruct HR as (seq2 & Q & HQ & -> & _).
      assert (CQ : count_site s Q = 0).
      { destruct (PyStr.re_search_expected out).
        - now destruct HQ as [_ ->].
        - eapply fetched_other_sites; eauto. }
      rewrite count_site_cons, count_site_app, CQ, count_site_cons.
      now destruct s.
    + destruct HR as [_ ->]. now destruct s.
  - destruct H as [_ ->]. rewrite count_site_app, CF, count_site_cons.
    now destruct s.
Qed.

(** ** Properties of the protocol *)

(** C7. A bond submission that exits non-zero ends the operation at once:
    the response is the HTTP 500 "failed to bond provider" carrying the
    output, nothing is run after the bond, the bond was submitted once and
    no metadata update is submitted. *)
Theorem bond_failure_is_terminal body t0 r evs pre c post code out :
  bond_and_mod_provider body t0 = (r, evs) ->
  evs = pre ++ Run BondTx c :: post ->
  oracle (t0 ++ pre) c = Exited code out ->
  code <> 0%Z ->
  post = [] /\
  count_site BondTx evs = 1 /\
  count_site ModTx evs = 0 /\
  exists resp,
    r = Ret resp /\ snd resp = 500%Z /\
    field resp "error" = JStr "failed to bond provider" /\
    field resp "detail" = JStr out.
Proof.
  intros H E A Hcode. apply handler_run in H.
  destruct H as [[HP _] | (payload & P & rs & note & raw & b & S & _ & HP & -> & H)].
  { exfalso. subst evs. now apply (count_zero_no_run BondTx pre post c), HP. }
  destruct (locate_after _ _ _ _ _ _ E (HP BondTx ltac:(discriminate)
              ltac:(discriminate) ltac:(discriminate))) as (pre' & -> & ES).
  apply bond_then_mod_run in H. cbv zeta in H.
  set (q := lookup_cmd b rs) in *. set (bcmd := bond_cmd_of (read_inputs payload) b rs) in *.
  destruct (registered (oracle (t0 ++ P) q)).
  { exfalso. destruct H as (S' & -> & H).
    apply (mod_provider_sites _ _ _ _ _ _ _ _ _ _ _ BondTx) in H; try discriminate.
    destruct pre' as [|e pre']; inversion ES; subst.
    now apply (count_zero_no_run BondTx pre' post c). }
  assert (L : forall rest, S = Run ProviderQuery q :: Run BondTx bcmd :: rest ->
                count_site BondTx rest = 0 ->
                pre' = [Run ProviderQuery q] /\ c = bcmd /\ post = rest).
  { intros rest -> Hrest.
    apply (locate_unique BondTx [Run ProviderQuery q] rest pre' post bcmd c);
      [exact ES | reflexivity | exact Hrest]. }
  destruct (oracle ((t0 ++ P) ++ [Run ProviderQuery q]) bcmd) as [code' out'|] eqn:O.
  - destruct (Z.eqb code' 0) eqn:E0.
    + exfalso. destruct H as (S' & HS & H).
      apply (mod_provider_sites _ _ _ _ _ _ _ _ _ _ _ BondTx) in H; try discriminate.
      destruct (L _ HS) as (-> & -> & _).
      { now rewrite count_site_cons. }
      rewrite <- app_assoc in O. rewrite O in A. inversion A; subst.
      apply Z.eqb_eq in E0. contradiction.
    + destruct H as [-> HS]. destruct (L _ HS eq_refl) as (-> & -> & ->).
      rewrite <- app_assoc in O. rewrite O in A. inversion A; subst.
      split; [reflexivity|].
      rewrite !count_site_app, (HP BondTx), (HP ModTx) by discriminate.
      repeat split. eexists. repeat split.
  - destruct H as [-> HS]. destruct (L _ HS eq_refl) as (-> & -> & ->).
    rewrite <- app_assoc in O. rewrite O in A. discriminate.
Qed.

(** Every run that goes as far as the sequence fetch: the events before it
    hold no account query and no metadata update, and the bond outcome handed
    to the last part has exit code 0. *)
Lemma handler_reaches_mod body t0 r evs s pre c post :
  bond_and_mod_provider body t0 = (r, evs) ->
  evs = pre ++ Run s c :: post ->
  s = AccountQuery \/ s = ModTx ->
  exists payload B rs note raw b bc bout S,
    Py.por body (JObj []) = JObj payload /\
    evs = B ++ S /\
    count_site AccountQuery B = 0 /\ count_site ModTx B = 0 /\
    mod_provider (read_inputs payload) rs note raw b bc 0%Z bout (t0 ++ B) = (r, S).
Proof.
  intros H E Hs. apply handler_run in H.
  assert (N : forall l, count_site AccountQuery l = 0 -> count_site ModTx l = 0 ->
                        l = pre ++ Run s c :: post -> False).
  { intros l H1 H2 ->. destruct Hs as [-> | ->]; eapply count_zero_no_run; eauto. }
  destruct H as [[HP _] | (payload & P & rs & note & raw & b & S & Hb & HP & -> & H)].
  { exfalso. apply (N evs); auto; apply HP; discriminate. }
  pose proof (HP AccountQuery ltac:(discriminate) ltac:(discriminate) ltac:(discriminate)) as PA.
  pose proof (HP ModTx ltac:(discriminate) ltac:(discriminate) ltac:(discriminate)) as PM.
  apply bond_then_mod_run in H. cbv zeta in H.
  set (q := lookup_cmd b rs) in *. set (bcmd := bond_cmd_of (read_inputs payload) b rs) in *.
  destruct (registered (oracle (t0 ++ P) q)).
  { destruct H as (S' & -> & H).
    exists payload, (P ++ [Run ProviderQuery q]), rs, note, raw, b, None,
      "skipped: provider already exists", S'.
    rewrite !count_site_app, PA, PM, <- !app_assoc. rewrite <- app_assoc in H.
    repeat split; assumption. }
  destruct (oracle ((t0 ++ P) ++ [Run ProviderQuery q]) bcmd) as [code out|].
  - destruct (Z.eqb code 0) eqn:E0.
    + destruct H as (S' & -> & H). apply Z.eqb_eq in E0. subst code.
      exists payload, (P ++ [Run ProviderQuery q; Run BondTx bcmd; Sleep 2]),
        rs, note, raw, b, (Some bcmd), out, S'.
      rewrite !count_site_app, PA, PM, <- !app_assoc. rewrite <- app_assoc in H.
      repeat split; assumption.
    + exfalso. destruct H as [_ ->].
      apply (N (P ++ [Run ProviderQuery q; Run BondTx bcmd])); auto;
        now rewrite count_site_app, ?PA, ?PM.
  - exfalso. destruct H as [_ ->].
    apply (N (P ++ [Run ProviderQuery q; Run BondTx bcmd])); auto;
      now rewrite count_site_app, ?PA, ?PM.
Qed.

Lemma index_of_none_app x pre post :
  Py.index_of x pre = None ->
  Py.index_of x (pre ++ JStr x :: post) = Some (List.length pre).
Proof.
  induction pre as [|a pre IH]; intro H; cbn.
  - now rewrite String.eqb_refl.
  - cbn in H. destruct a as [| | |s| |];
      try (destruct (Py.index_of x pre); [discriminate|]; now rewrite IH).
    destruct (String.eqb s x); [discriminate|].
    destruct (Py.index_of x pre); [discriminate|]. now rewrite IH.
Qed.

Lemma index_of_not_in x l : ~ In (JStr x) l -> Py.index_of x l = None.
Proof.
  induction l as [|a l IH]; intro H; [reflexivity|].
  assert (Hl : Py.index_of x l = None) by (apply IH; intro; apply H; now right).
  cbn. destruct a as [| | |s| |]; try (now rewrite Hl).
  destruct (String.eqb s x) eqn:E; [|now rewrite Hl].
  apply String.eqb_eq in E. subst s. exfalso. apply H. now left.
Qed.

Lemma index_of_split x l n :
  Py.index_of x l = Some n ->
  exists args rest, l = args ++ JStr x :: rest /\ ~ In (JStr x) args.
Proof.
  revert n. induction l as [|a l IH]; intros n H; [discriminate|].
  assert (K : forall m, Py.index_of x l = Some m -> a <> JStr x ->
                exists args rest, a :: l = args ++ JStr x :: rest /\ ~ In (JStr x) args).
  { intros m Hm Ha. destruct (IH m Hm) as (args & rest & -> & Hn).
    exists (a :: args), rest. split; [reflexivity|].
    intros [E | E]; [now apply Ha | now apply Hn]. }
  cbn in H. destruct a as [| | |s| |];
    try (destruct (Py.index_of x l) as [m|] eqn:El; [|discriminate];
         apply (K m eq_refl); discriminate).
  destruct (String.eqb s x) eqn:E.
  - apply String.eqb_eq in E. subst s. exists [], l. split; [reflexivity | intros []].
  - destruct (Py.index_of x l) as [m|] eqn:El; [|discriminate].
    apply (K m eq_refl). intro Hs. inversion Hs. subst s.
    now rewrite String.eqb_refl in E.
Qed.

(** The command of [run_mod_with_sequence] written out: the arguments of the
    base command up to its first "--from", the sequence arguments, the rest
    of the base command. *)
Lemma with_sequence_before_first_from base args rest seq :
  base = args ++ JStr "--from" :: rest ->
  ~ In (JStr "--from") args ->
  with_sequence base seq = args ++ seq ++ JStr "--from" :: rest.
Proof.
  intros -> H. unfold with_sequence, Py.insert_at.
  rewrite (index_of_none_app _ _ _ (index_of_not_in _ _ H)).
  rewrite firstn_app, firstn_all, Nat.sub_diag. cbn [firstn]. rewrite app_nil_r.
  rewrite skipn_app, skipn_all, Nat.sub_diag. cbn [skipn app]. reflexivity.
Qed.

(** The base command of the metadata update always holds a "--from". *)
Lemma mod_cmd_base_first_from i b rs :
  exists args rest,
    mod_cmd_base i b rs = args ++ JStr "--from" :: rest /\
    ~ In (JStr "--from") args.
Proof.
  destruct (Py.index_of "--from" (mod_cmd_base i b rs)) as [n|] eqn:E.
  - exact (index_of_split _ _ _ E).
  - exfalso. unfold mod_cmd_base in E.
    set (l1 := [JStr "arkeod"; _; _; _; _; _; _; _; _; _; _; _; _; _; _; _]) in E.
    set (l4 := [JStr "--from"; _; _; _; _; _; _]) in E.
    assert (X : forall l l', Py.index_of "--from" (l ++ l4 ++ l') <> None).
    { intros l l'. induction l as [|a l IH]; [discriminate|].
      cbn [app Py.index_of]. destruct a as [| | |s| |];
        try (destruct (Py.index_of "--from" (l ++ l4 ++ l')); [discriminate | contradiction]).
      destruct (String.eqb s "--from"); [discriminate|].
      destruct (Py.index_of "--from" (l ++ l4 ++ l')); [discriminate | contradiction]. }
    apply (X (l1 ++ NODE_ARGS ++ CHAIN_ARGS) []).
    rewrite app_nil_r, <- !app_assoc. exact E.
Qed.

Lemma with_sequence_nil base : with_sequence base [] = base.
Proof.
  unfold with_sequence, Py.insert_at. cbn [app]. apply firstn_skipn.
Qed.

(** The first metadata submission of the last part: it comes right after
    the fetch, carries the fetched sequence, and its answer decides the
    recovery. *)
Lemma first_submission i rs note raw b bc bcode bout t r S pre c post :
  mod_provider i rs note raw b bc bcode bout t = (r, S) ->
  S = pre ++ Run ModTx c :: post ->
  count_site ModTx pre = 0 ->
  exists seq,
    fetched b 3 t seq pre /\
    c = with_sequence (mod_cmd_base i b rs) seq /\
    match oracle (t ++ pre) c with
    | Exited code out =>
        recovery i rs note raw b bc bcode bout (t ++ pre ++ [Run ModTx c]) c code out r post
    | Raised => r = Exn /\ post = []
    end.
Proof.
  intros H E Hpre. apply mod_provider_run in H.
  destruct H as (seq & F & HF & H). exists seq.
  pose proof (fetched_other_sites _ _ _ _ _ ModTx HF ltac:(discriminate)) as CF.
  destruct (oracle (t ++ F) _) as [code out|] eqn:O.
  - destruct H as (R & -> & HR).
    destruct (locate_first _ _ _ _ _ _ _ E CF Hpre) as (-> & -> & ->).
    rewrite O. auto.
  - destruct H as [-> ->].
    destruct (locate_first _ _ _ _ _ _ _ E CF Hpre) as (-> & -> & ->).
    rewrite O. auto.
Qed.


(** The last part always submits the metadata update. *)
Lemma mod_provider_submits i rs note raw b bc bcode bout t r S :
  mod_provider i rs note raw b bc bcode bout t = (r, S) ->
  1 <= count_site ModTx S.
Proof.
  intro H. apply mod_provider_run in H. destruct H as (seq & F & _ & H).
  destruct (oracle (t ++ F) _) as [code out|].
  - destruct H as (R & -> & _). rewrite count_site_app, count_site_cons. cbn. lia.
  - destruct H as [_ ->]. rewrite count_site_app, count_site_cons. cbn. lia.
Qed.


(** C2. When the first metadata submission answers with an output that
    holds "account sequence mismatch" and in which [expected\s+(\d+)] finds
    the digits [d], what follows is one sleep and one resubmission; no
    account query is run. The command resubmitted is the base command with
    the two arguments "--sequence" and [d] put before its first "--from":
    with [args] the arguments of the base command before that "--from" and
    [rest] those after it, it is [args], "--sequence", [d], "--from",
    [rest]. *)
Theorem expected_sequence_resubmission body t0 r evs pre c post code out d :
  bond_and_mod_provider body t0 = (r, evs) ->
  evs = pre ++ Run ModTx c :: post ->
  count_site ModTx pre = 0 ->
  oracle (t0 ++ pre) c = Exited code out ->
  PyStr.contains "account sequence mismatch" out = true ->
  PyStr.re_search_expected out = Some d ->
  exists payload b rs args rest seq,
    Py.por body (JObj []) = JObj payload /\
    mod_cmd_base (read_inputs payload) b rs = args ++ JStr "--from" :: rest /\
    ~ In (JStr "--from") args /\
    c = args ++ seq ++ JStr "--from" :: rest /\
    post = [Sleep 1;
            Run ModTx (args ++ JStr "--sequence" :: JStr d :: JStr "--from" :: rest)] /\
    count_site ModTx evs = 2 /\
    count_site AccountQuery post = 0.
Proof.
  intros H E Hpre A Hm Hd.
  destruct (handler_reaches_mod _ _ _ _ _ _ _ _ H E (or_intror eq_refl))
    as (payload & B & rs & note & raw & b & bc & bout & S & Hb & -> & _ & BM & HM).
  destruct (locate_after _ _ _ _ _ _ E BM) as (pre' & -> & ES).
  rewrite count_site_app, BM in Hpre. cbn [Nat.add] in Hpre.
  destruct (first_submission _ _ _ _ _ _ _ _ _ _ _ _ _ _ HM ES Hpre) as (seq & HF & -> & HR).
  rewrite app_assoc in A. rewrite A in HR. unfold recovery in HR. rewrite Hm, Hd in HR.
  destruct HR as (seq2 & Q & [-> ->] & -> & _).
  destruct (mod_cmd_base_first_from (read_inputs payload) b rs) as (args & rest & HB & HN).
  rewrite !(with_sequence_before_first_from _ _ _ _ HB HN).
  exists payload, b, rs, args, rest, seq.
  split; [exact Hb|]. split; [exact HB|]. split; [exact HN|].
  split; [reflexivity|]. split; [reflexivity|]. split; [|reflexivity].
  rewrite ES, !count_site_app, BM, Hpre. reflexivity.
Qed.


(** The last metadata submission of the last part ends the log, and its
    answer decides the response. *)
Lemma last_submission i rs note raw b bc bcode bout t r S pre c post :
  mod_provider i rs note raw b bc bcode bout t = (r, S) ->
  S = pre ++ Run ModTx c :: post ->
  count_site ModTx post = 0 ->
  post = [] /\
  match oracle (t ++ pre) c with
  | Exited code out => r = Ret (final_response i rs note raw b bc bcode bout c code out)
  | Raised => r = Exn
  end.
Proof.
  intros H E Hpost. apply mod_provider_run in H.
  destruct H as (seq & F & HF & H).
  destruct (oracle (t ++ F) _) as [code out|] eqn:O.
  - destruct H as (R & -> & HR). unfold recovery in HR.
    destruct (PyStr.contains _ out).
    + destruct HR as (seq2 & Q & _ & -> & HR).
      change (F ++ Run ModTx (with_sequence (mod_cmd_base i b rs) seq)
                :: Sleep 1 :: Q ++ [Run ModTx (with_sequence (mod_cmd_base i b rs) seq2)])
        with (F ++ (Run ModTx (with_sequence (mod_cmd_base i b rs) seq) :: Sleep 1 :: Q)
                ++ [Run ModTx (with_sequence (mod_cmd_base i b rs) seq2)]) in E.
      rewrite app_assoc in E.
      destruct (locate_last _ _ _ _ _ _ _ E eq_refl Hpost) as (-> & -> & ->).
      split; [reflexivity|].
      rewrite <- !app_assoc in HR. exact HR.
    + destruct HR as [-> ->].
      destruct (locate_last _ _ _ _ _ _ _ E eq_refl Hpost) as (-> & -> & ->).
      now rewrite O.
  - destruct H as [-> ->].
    destruct (locate_last _ _ _ _ _ _ _ E eq_refl Hpost) as (-> & -> & ->).
    now rewrite O.
Qed.

Lemma mod_provider_response i rs note raw b bc bcode bout t resp S :
  mod_provider i rs note raw b bc bcode bout t = (Ret resp, S) ->
  exists c code out, resp = final_response i rs note raw b bc bcode bout c code out.
Proof.
  intro H. apply mod_provider_run in H. destruct H as (seq & F & _ & H).
  destruct (oracle (t ++ F) _) as [code out|]; [|now destruct H].
  destruct H as (R & _ & HR). unfold recovery in HR.
  destruct (PyStr.contains _ out).
  - destruct HR as (seq2 & Q & _ & _ & HR).
    destruct (oracle _ _) as [code2 out2|]; [|discriminate].
    inversion HR. eauto.
  - destruct HR as [HR _]. inversion HR. eauto.
Qed.

Lemma mod_provider_ends_with_submission i rs note raw b bc bcode bout t r S :
  mod_provider i rs note raw b bc bcode bout t = (r, S) ->
  exists S0 c, S = S0 ++ [Run ModTx c].
Proof.
  intro H. apply mod_provider_run in H. destruct H as (seq & F & _ & H).
  destruct (oracle (t ++ F) _) as [code out|].
  - destruct H as (R & -> & HR). unfold recovery in HR.
    destruct (PyStr.contains _ out).
    + destruct HR as (seq2 & Q & _ & -> & _).
      exists (F ++ Run ModTx (with_sequence (mod_cmd_base i b rs) seq) :: Sleep 1 :: Q),
        (with_sequence (mod_cmd_base i b rs) seq2).
      now rewrite <- app_assoc.
    + destruct HR as [_ ->]. eauto.
  - destruct H as [_ ->]. eauto.
Qed.

Lemma last_split {A} (l p p' : list A) x y :
  l ++ [x] = p ++ y :: p' -> x <> y -> exists p'', p' = p'' ++ [x].
Proof.
  intros E N. destruct p' as [|z p'] using rev_ind.
  - apply app_inj_tail in E. destruct E as [_ E]. contradiction.
  - clear IHp'. change (p ++ y :: p' ++ [z]) with (p ++ (y :: p') ++ [z]) in E.
    rewrite app_assoc in E. apply app_inj_tail in E. destruct E as [_ ->].
    now exists p'.
Qed.

(** C6. The fetch before the first metadata submission is best effort. At
    most three account queries precede the first submission; when none of
    them obtains a sequence the command submitted is the base command, with
    no sequence argument; and every account query, whatever its answer, is
    followed by a metadata submission. *)
Theorem sequence_fetch_is_best_effort body t0 r evs :
  bond_and_mod_provider body t0 = (r, evs) ->
  (forall p q p', evs = p ++ Run AccountQuery q :: p' -> 1 <= count_site ModTx p') /\
  (forall pre c post,
     evs = pre ++ Run ModTx c :: post ->
     count_site ModTx pre = 0 ->
     count_site AccountQuery pre <= 3 /\
     ((forall p q p', pre = p ++ Run AccountQuery q :: p' ->
                      obtained (oracle (t0 ++ p) q) = None) ->
      exists payload b rs,
        Py.por body (JObj []) = JObj payload /\
        c = mod_cmd_base (read_inputs payload) b rs)).
Proof.
  intro H. split.
  - intros p q p' E.
    destruct (handler_reaches_mod _ _ _ _ _ _ _ _ H E (or_introl eq_refl))
      as (payload & B & rs & note & raw & b & bc & bout & S & Hb & -> & _ & _ & HM).
    destruct (mod_provider_ends_with_submission _ _ _ _ _ _ _ _ _ _ _ HM) as (S0 & c & ->).
    rewrite app_assoc in E. apply last_split in E; [|discriminate].
    destruct E as (p'' & ->). rewrite count_site_app. cbn. lia.
  - intros pre c post E Hpre.
    destruct (handler_reaches_mod _ _ _ _ _ _ _ _ H E (or_intror eq_refl))
      as (payload & B & rs & note & raw & b & bc & bout & S & Hb & -> & BA & BM & HM).
    destruct (locate_after _ _ _ _ _ _ E BM) as (pre' & -> & ES).
    rewrite count_site_app, BM in Hpre. cbn [Nat.add] in Hpre.
    destruct (first_submission _ _ _ _ _ _ _ _ _ _ _ _ _ _ HM ES Hpre) as (seq & HF & -> & _).
    split.
    + rewrite count_site_app, BA. cbn [Nat.add]. eapply fetched_count; eauto.
    + intro Hall. exists payload, b, rs. split; [exact Hb|].
      rewrite (fetched_nothing _ _ _ _ _ HF); [apply with_sequence_nil|].
      intros p q p' ->. rewrite <- app_assoc.
      apply (Hall (B ++ p) q p'). now rewrite <- app_assoc.
Qed.

(** C10. A response with status "bond_and_mod_submitted" is an HTTP 200
    whose metadata and bond exit codes are both 0; and when the last metadata
    submission exits non-zero the response is the HTTP 500 "failed to mod
    provider", which has no status field. *)
Theorem success_reports_zero_exit_codes body t0 r evs :
  bond_and_mod_provider body t0 = (r, evs) ->
  (forall resp,
     r = Ret resp ->
     field resp "status" = JStr "bond_and_mod_submitted" ->
     snd resp = 200%Z /\
     (exists out,
        field resp "mod_tx" = JObj [("exit_code", JNum 0); ("output", JStr out)]) /\
     (exists out,
        field resp "bond_tx" = JObj [("exit_code", JNum 0); ("output", JStr out)])) /\
  (forall pre c post code out,
     evs = pre ++ Run ModTx c :: post ->
     count_site ModTx post = 0 ->
     oracle (t0 ++ pre) c = Exited code out ->
     code <> 0%Z ->
     exists resp,
       r = Ret resp /\ snd resp = 500%Z /\
       field resp "error" = JStr "failed to mod provider" /\
       field resp "status" = JNull).
Proof.
  intro H. split.
  - intros resp -> Hst.
    assert (X : forall i rs note raw b bc bout t S,
               mod_provider i rs note raw b bc 0%Z bout t = (Ret resp, S) ->
               snd resp = 200%Z /\
               (exists out,
                  field resp "mod_tx" = JObj [("exit_code", JNum 0); ("output", JStr out)]) /\
               (exists out,
                  field resp "bond_tx" = JObj [("exit_code", JNum 0); ("output", JStr out)])).
    { intros i rs note raw b bc bout t S HM.
      destruct (mod_provider_response _ _ _ _ _ _ _ _ _ _ _ HM) as (c & code & out & ->).
      unfold final_response in *.
      destruct (Z.eqb code 0) eqn:E0; cbn [negb] in *; [|discriminate].
      apply Z.eqb_eq in E0. subst code. cbn.
      split; [reflexivity|]. split; eexists; reflexivity. }
    apply handler_run in H.
    destruct H as [[_ [H | [H | (e & raw & bech & H)]]]
                  | (payload & P & rs & note & raw & b & S & _ & _ & _ & H)];
      try (inversion H; subst; discriminate).
    apply bond_then_mod_run in H. cbv zeta in H.
    destruct (registered _).
    + destruct H as (S' & _ & H). eauto.
    + destruct (oracle _ (bond_cmd_of _ _ _)) as [code out|]; [|now destruct H].
      destruct (Z.eqb code 0) eqn:E0.
      * apply Z.eqb_eq in E0. subst code. destruct H as (S' & _ & H). eauto.
      * destruct H as [H _]. inversion H; subst. discriminate.
  - intros pre c post code out E Hpost A Hcode.
    destruct (handler_reaches_mod _ _ _ _ _ _ _ _ H E (or_intror eq_refl))
      as (payload & B & rs & note & raw & b & bc & bout & S & Hb & -> & _ & BM & HM).
    destruct (locate_after _ _ _ _ _ _ E BM) as (pre' & -> & ES).
    destruct (last_submission _ _ _ _ _ _ _ _ _ _ _ _ _ _ HM ES Hpost) as [_ L].
    rewrite app_assoc in A. rewrite A in L.
    eexists. split; [exact L|]. unfold final_response.
    destruct (Z.eqb code 0) eqn:E0; [apply Z.eqb_eq in E0; contradiction|].
    cbn. repeat split.
Qed.






(** ** The steps of the handler, one by one *)

(** The handler on a request with a service: the service is resolved, the
    keys are derived, and unless one of the two raised or the derivation
    reported an error, lines 381-604 follow. *)
Lemma handler_steps body t0 r evs payload :
  bond_and_mod_provider body t0 = (r, evs) ->
  Py.por body (JObj []) = JObj payload ->
  Py.truthy (Py.get payload "service") = true ->
  exists rr e1,
    resolve_service (Py.get payload "service") t0 = (rr, e1) /\
    match rr with
    | Exn => r = Exn /\ evs = e1
    | Ret (rs, note) =>
        exists rd e2,
          derive_pubkeys (KEY_NAME cfg) (KEYRING cfg) (t0 ++ e1) = (rd, e2) /\
          match rd with
          | Exn => r = Exn /\ evs = e1 ++ e2
          | Ret (raw, b, err) =>
              if err_truthy err then
                r = Ret (pubkey_failure (match err with Some e => e | None => "" end) raw b) /\
                evs = e1 ++ e2
              else
                exists S,
                  evs = e1 ++ e2 ++ S /\
                  bond_then_mod (read_inputs payload) rs note raw b (t0 ++ e1 ++ e2) = (r, S)
          end
    end.
Proof.
  intros H Hb Hs. unfold bond_and_mod_provider in H. rewrite Hb in H.
  cbn [service read_inputs] in H. rewrite Hs in H. cbn [negb] in H.
  apply bind_inv in H.
  destruct H as [([rs note] & e1 & e2 & H1 & H & ->) | [H1 ->]].
  2:{ exists Exn, evs. now split. }
  exists (Ret (rs, note)), e1. split; [exact H1|].
  apply bind_inv in H.
  destruct H as [([[raw b] err] & e3 & e4 & H2 & H & ->) | [H2 ->]].
  2:{ exists Exn, e2. now split. }
  exists (Ret (raw, b, err)), e3. split; [exact H2|].
  destruct (err_truthy err).
  - inversion H; subst. now rewrite app_nil_r.
  - exists e4. split; [reflexivity|]. now rewrite <- app_assoc in H.
Qed.

(** ** Service resolution *)

Lemma is_empty_eq s : PyStr.is_empty s = true <-> s = "".
Proof. destruct s; cbn; split; congruence. Qed.

Lemma isdigit_nonempty s : PyStr.isdigit s = true -> s <> "".
Proof. now destruct s. Qed.

Lemma find_service_none sid items :
  find_service sid items = None <->
  forall item, In (JObj item) items -> sid_val_of item <> sid.
Proof.
  induction items as [|x items IH]; cbn [find_service].
  - split; [intros _ item [] | reflexivity].
  - destruct x as [| | | | |item];
      try (rewrite IH; split;
           [intros H it [E | Hin]; [discriminate | now apply H]
           | intros H it Hin; apply H; now right]).
    destruct (String.eqb (sid_val_of item) sid) eqn:E.
    + apply String.eqb_eq in E. split; [discriminate|].
      intro H. exfalso. apply (H item); [now left | exact E].
    + apply String.eqb_neq in E. rewrite IH. split.
      * intros H it [Hit | Hin]; [inversion Hit; now subst | now apply H].
      * intros H it Hin. apply H. now right.
Qed.

(** A reference that is not digits is not looked up. *)
Lemma resolve_service_passthrough s t :
  PyStr.isdigit (PyStr.strip s) = false ->
  resolve_service (JStr s) t = (Ret (JStr s, ""), []).
Proof.
  intro H. unfold resolve_service. now rewrite H.
Qed.

(** A reference of digits that the catalogue does not resolve stays as it
    is and gets the note. *)
Lemma resolve_service_unresolved s t :
  PyStr.isdigit (PyStr.strip s) = true ->
  catalogue_misses (PyStr.strip s) (oracle t all_services_cmd) ->
  resolve_service (JStr s) t =
  (Ret (JStr s, lookup_note_for (PyStr.strip s)), [Run AllServices all_services_cmd]).
Proof.
  intros Hd Hm. unfold resolve_service. rewrite Hd.
  unfold _lookup_service_name_by_id. rewrite bind_bind, bind_run_list.
  unfold catalogue_misses in Hm.
  destruct (oracle t all_services_cmd) as [code out|]; [|contradiction].
  destruct (Z.eqb code 0) eqn:E0; cbn [negb].
  - apply Z.eqb_eq in E0.
    destruct Hm as [Hm | [Hm | (data & Hm & Hf)]]; [contradiction | |]; rewrite Hm.
    + now rewrite !bind_ret.
    + now rewrite bind_ret, Hf.
  - now rewrite !bind_ret.
Qed.

(** A reference of digits that the catalogue resolves is replaced by the
    name found, with no note. *)
Lemma resolve_service_resolved s t out data name :
  PyStr.isdigit (PyStr.strip s) = true ->
  oracle t all_services_cmd = Exited 0 out ->
  json_loads out = Decoded (JObj data) ->
  find_service (PyStr.strip s) (services_of data) = Some name ->
  Py.truthy name = true ->
  resolve_service (JStr s) t = (Ret (name, ""), [Run AllServices all_services_cmd]).
Proof.
  intros Hd Ho Hj Hf Ht. unfold resolve_service. rewrite Hd.
  unfold _lookup_service_name_by_id. rewrite bind_bind, bind_run_list, Ho.
  cbn [Z.eqb negb]. now rewrite Hj, bind_ret, Hf, Ht.
Qed.

(** The responses of lines 381-604. *)
Lemma bond_then_mod_response i rs note raw b t resp S :
  bond_then_mod i rs note raw b t = (Ret resp, S) ->
  (exists bcmd out, resp = bond_failure i rs note raw b bcmd out) \/
  (exists bc bcode bout c code out,
     resp = final_response i rs note raw b bc bcode bout c code out).
Proof.
  intro H. apply bond_then_mod_run in H. cbv zeta in H.
  destruct (registered _).
  - destruct H as (S' & _ & H). right.
    destruct (mod_provider_response _ _ _ _ _ _ _ _ _ _ _ H) as (c & code & out & ->).
    now eexists _, _, _, _, _, _.
  - destruct (oracle _ (bond_cmd_of _ _ _)) as [code out|]; [|now destruct H].
    destruct (Z.eqb code 0).
    + destruct H as (S' & _ & H). right.
      destruct (mod_provider_response _ _ _ _ _ _ _ _ _ _ _ H) as (c & code' & out' & ->).
      now eexists _, _, _, _, _, _.
    + destruct H as [H _]. inversion H. left. eauto.
Qed.

(** The provider query of lines 381-604 is the one for the identity and the
    resolved service. *)
Lemma bond_then_mod_query i rs note raw b t r S pre c post :
  bond_then_mod i rs note raw b t = (r, S) ->
  S = pre ++ Run ProviderQuery c :: post ->
  c = lookup_cmd b rs.
Proof.
  intros H E. apply bond_then_mod_run in H. cbv zeta in H.
  assert (L : forall rest, S = Run ProviderQuery (lookup_cmd b rs) :: rest ->
                count_site ProviderQuery rest = 0 -> c = lookup_cmd b rs).
  { intros rest -> Hrest.
    now destruct (locate_unique ProviderQuery [] rest pre post _ c E eq_refl Hrest)
      as (_ & -> & _). }
  destruct (registered _).
  - destruct H as (S' & HS & H). apply (L _ HS).
    eapply mod_provider_sites; eauto; discriminate.
  - destruct (oracle _ (bond_cmd_of _ _ _)) as [code out|].
    + destruct (Z.eqb code 0).
      * destruct H as (S' & HS & H). apply (L _ HS).
        rewrite !count_site_cons. cbn.
        eapply mod_provider_sites; eauto; discriminate.
      * destruct H as [_ HS]. now apply (L _ HS).
    + destruct H as [_ HS]. now apply (L _ HS).
Qed.

(** Lines 381-604 run neither the catalogue query nor the key commands. *)
Lemma bond_then_mod_sites i rs note raw b t r S s :
  bond_then_mod i rs note raw b t = (r, S) ->
  s = AllServices \/ s = KeysShow \/ s = PubkeyRaw ->
  count_site s S = 0.
Proof.
  intros H Hs. apply bond_then_mod_run in H. cbv zeta in H.
  assert (M : forall bc bcode bout t' r' S',
             mod_provider i rs note raw b bc bcode bout t' = (r', S') ->
             count_site s S' = 0).
  { intros. eapply mod_provider_sites; eauto;
      destruct Hs as [-> | [-> | ->]]; discriminate. }
  destruct (registered _).
  - destruct H as (S' & -> & H). rewrite count_site_cons, (M _ _ _ _ _ _ H).
    now destruct Hs as [-> | [-> | ->]].
  - destruct (oracle _ (bond_cmd_of _ _ _)) as [code out|].
    + destruct (Z.eqb code 0).
      * destruct H as (S' & -> & H). rewrite !count_site_cons, (M _ _ _ _ _ _ H).
        now destruct Hs as [-> | [-> | ->]].
      * destruct H as [_ ->]. now destruct Hs as [-> | [-> | ->]].
    + destruct H as [_ ->]. now destruct Hs as [-> | [-> | ->]].
Qed.

(** What the rest of the handler does with a resolution [(rs, note)] that
    took the events [e1]: the provider query is for [rs], and a response with
    inputs reports [rs] as the resolved service and the note, unless it is
    the metadata failure, whose inputs have no note. *)
Lemma resolution_is_used body t0 r evs payload rs note e1 :
  bond_and_mod_provider body t0 = (r, evs) ->
  Py.por body (JObj []) = JObj payload ->
  Py.truthy (Py.get payload "service") = true ->
  resolve_service (Py.get payload "service") t0 = (Ret (rs, note), e1) ->
  (exists rest,
     evs = e1 ++ Run KeysShow (pubkey_cmd (KEY_NAME cfg) (KEYRING cfg)) :: rest /\
     count_site AllServices rest = 0) /\
  (forall pre c post, evs = pre ++ Run ProviderQuery c :: post ->
                      exists b, c = lookup_cmd b rs) /\
  (forall resp, r = Ret resp -> has_field resp "inputs" = true ->
     subfield (field resp "inputs") "resolved_service" = rs /\
     (field resp "error" <> JStr "failed to mod provider" ->
      subfield (field resp "inputs") "lookup_note" = JStr note) /\
     (field resp "error" = JStr "failed to mod provider" ->
      has_key (field resp "inputs") "lookup_note" = false)).
Proof.
  intros H Hb Hs Hr.
  destruct (handler_steps _ _ _ _ _ H Hb Hs) as (rr & e1' & Hr' & HX).
  rewrite Hr in Hr'. inversion Hr'; subst rr e1'. clear Hr'.
  destruct HX as (rd & e2 & Hd & HX).
  pose proof (prelude_resolve _ _ _ _ Hr) as P1.
  pose proof (prelude_derive _ _ _ _ _ Hd) as P2.
  assert (K : exists rest, e2 = Run KeysShow (pubkey_cmd (KEY_NAME cfg) (KEYRING cfg)) :: rest
                              /\ count_site AllServices rest = 0).
  { destruct (derive_pubkeys_events _ _ _ _ _ Hd) as [-> | [raw ->]]; eauto. }
  destruct K as (krest & -> & KA).
  assert (NQ : forall pre c post,
             e1 ++ Run KeysShow (pubkey_cmd (KEY_NAME cfg) (KEYRING cfg)) :: krest
             = pre ++ Run ProviderQuery c :: post -> False).
  { intros pre c post E.
    apply (count_zero_no_run ProviderQuery pre post c). rewrite <- E.
    apply (prelude_app _ _ P1 P2); discriminate. }
  destruct rd as [[[raw b] err]|].
  2:{ destruct HX as [-> ->]. split; [eauto|]. split; [|discriminate].
      intros pre c post E. exfalso. eapply NQ; eauto. }
  destruct (err_truthy err).
  { destruct HX as [-> ->]. split; [eauto|]. split.
    - intros pre c post E. exfalso. eapply NQ; eauto.
    - intros resp E. inversion E. discriminate. }
  destruct HX as (S & -> & HB). split.
  { exists (krest ++ S). split; [now rewrite <- app_comm_cons|].
    rewrite count_site_app, KA.
    now rewrite (bond_then_mod_sites _ _ _ _ _ _ _ _ AllServices HB) by auto. }
  split.
  - intros pre c post E. exists b. rewrite app_assoc in E.
    destruct (locate_after _ _ _ _ _ _ E) as (pre' & _ & ES).
    { apply (prelude_app _ _ P1 P2); discriminate. }
    rewrite app_assoc in HB. eapply bond_then_mod_query; eauto.
  - intros resp -> _.
    destruct (bond_then_mod_response _ _ _ _ _ _ _ _ HB)
      as [(bcmd & out & ->) | (bc & bcode & bout & c & code & out & ->)].
    + split; [reflexivity|]. split; [reflexivity | discriminate].
    + unfold final_response. destruct (negb (code =? 0)%Z).
      * split; [reflexivity|]. split; [intro N; now contradiction N | reflexivity].
      * split; [reflexivity|]. split; [reflexivity | discriminate].
Qed.

(** X1. A digit reference that the catalogue does not resolve (the query
    exits non-zero, prints no JSON, or prints an object with no entry of
    that id) is a soft failure: the catalogue is queried once, the key
    lookup comes next, the provider query uses the reference as given, and a
    response with inputs reports it as the resolved service together with the
    note "could not resolve service id <id> to name" (the metadata-failure
    response has no note). *)
Theorem unresolved_service_id_is_soft body t0 r evs payload s :
  bond_and_mod_provider body t0 = (r, evs) ->
  Py.por body (JObj []) = JObj payload ->
  Py.get payload "service" = JStr s ->
  PyStr.isdigit (PyStr.strip s) = true ->
  catalogue_misses (PyStr.strip s) (oracle t0 all_services_cmd) ->
  (exists rest,
     evs = Run AllServices all_services_cmd
           :: Run KeysShow (pubkey_cmd (KEY_NAME cfg) (KEYRING cfg)) :: rest /\
     count_site AllServices rest = 0) /\
  (forall pre c post, evs = pre ++ Run ProviderQuery c :: post ->
                      exists b, c = lookup_cmd b (JStr s)) /\
  (forall resp, r = Ret resp -> has_field resp "inputs" = true ->
     subfield (field resp "inputs") "resolved_service" = JStr s /\
     (subfield (field resp "inputs") "lookup_note"
        = JStr (lookup_note_for (PyStr.strip s)) \/
      field resp "error" = JStr "failed to mod provider")).
Proof.
  intros H Hb Hg Hd Hm.
  assert (Hs : Py.truthy (Py.get payload "service") = true).
  { rewrite Hg. cbn. destruct s; [discriminate | reflexivity]. }
  pose proof (resolve_service_unresolved s t0 Hd Hm) as Hr. rewrite <- Hg in Hr.
  destruct (resolution_is_used _ _ _ _ _ _ _ _ H Hb Hs Hr) as ((rest & HE & HA) & HQ & HR).
  rewrite Hg in HQ, HR. split; [|split; [assumption|]].
  - exists rest. now split.
  - intros resp Hresp Hin. destruct (HR resp Hresp Hin) as (R1 & R2 & _).
    split; [exact R1|].
    destruct (field resp "error") as [| | |e| |] eqn:Ee;
      try (left; apply R2; discriminate).
    destruct (string_dec e "failed to mod provider") as [-> | Ne]; [now right|].
    left. apply R2. intro X. inversion X. contradiction.
Qed.

(** X2. A non-empty reference that is not digits is never looked up: no
    catalogue query is run, the provider query uses it as given, and a
    response with inputs reports it as the resolved service. The note it
    reports is empty, except in the response "failed to mod provider", whose
    inputs have no "lookup_note" key. *)
Theorem named_service_passes_through body t0 r evs payload s :
  bond_and_mod_provider body t0 = (r, evs) ->
  Py.por body (JObj []) = JObj payload ->
  Py.get payload "service" = JStr s ->
  s <> "" ->
  PyStr.isdigit (PyStr.strip s) = false ->
  count_site AllServices evs = 0 /\
  (forall pre c post, evs = pre ++ Run ProviderQuery c :: post ->
                      exists b, c = lookup_cmd b (JStr s)) /\
  (forall resp, r = Ret resp -> has_field resp "inputs" = true ->
     subfield (field resp "inputs") "resolved_service" = JStr s /\
     (field resp "error" <> JStr "failed to mod provider" ->
      subfield (field resp "inputs") "lookup_note" = JStr "") /\
     (field resp "error" = JStr "failed to mod provider" ->
      has_key (field resp "inputs") "lookup_note" = false)).
Proof.
  intros H Hb Hg Hne Hd.
  assert (Hs : Py.truthy (Py.get payload "service") = true).
  { rewrite Hg. cbn. destruct s; [contradiction | reflexivity]. }
  pose proof (resolve_service_passthrough s t0 Hd) as Hr. rewrite <- Hg in Hr.
  destruct (resolution_is_used _ _ _ _ _ _ _ _ H Hb Hs Hr) as ((rest & HE & HA) & HQ & HR).
  rewrite Hg in HQ, HR. split; [|split; assumption].
  rewrite HE. cbn [app]. now rewrite count_site_cons.
Qed.

(** ** Identity resolution *)

Lemma derivation_failure_text u k t e raw D :
  derivation_failure u k t e raw D -> PyStr.is_empty e = false.
Proof. now destruct 1. Qed.

(** Each of the four failures is what [derive_pubkeys] returns. *)
Lemma derive_pubkeys_failure u k t e raw D :
  derivation_failure u k t e raw D ->
  derive_pubkeys u k t = (Ret (raw, "", Some e), D).
Proof.
  destruct 1 as [code out O Hc | out O Hr | out raw code2 out2 O Hr Hne O2 Hc
                 | out raw out2 O Hr Hne O2 Hf];
    unfold derive_pubkeys; rewrite bind_run_list, O.
  - destruct (Z.eqb code 0) eqn:E0; [apply Z.eqb_eq in E0; contradiction|].
    reflexivity.
  - cbn [Z.eqb negb]. rewrite Hr. reflexivity.
  - cbn [Z.eqb negb]. rewrite Hr.
    destruct raw as [|a raw]; [contradiction|]. cbn [PyStr.is_empty].
    rewrite bind_run_list, O2.
    destruct (Z.eqb code2 0) eqn:E0; [apply Z.eqb_eq in E0; contradiction|].
    reflexivity.
  - cbn [Z.eqb negb]. rewrite Hr.
    destruct raw as [|a raw]; [contradiction|]. cbn [PyStr.is_empty].
    rewrite bind_run_list, O2. cbn [Z.eqb negb]. rewrite Hf. reflexivity.
Qed.

(** An output with no line that starts with "Bech32 Acc:" yields no encoded
    key. *)
Lemma find_bech32_no_line lines :
  (forall l, In l lines -> PyStr.startswith "Bech32 Acc:" l = false) ->
  find_bech32 lines = "".
Proof.
  induction lines as [|l lines IH]; intro H; cbn [find_bech32].
  - reflexivity.
  - rewrite (H l) by now left. apply IH. intros l' Hl. apply H. now right.
Qed.

(** A run that executed a command started from a request with a service. *)
Lemma handler_started body t0 r evs :
  bond_and_mod_provider body t0 = (r, evs) ->
  evs <> [] ->
  exists payload,
    Py.por body (JObj []) = JObj payload /\
    Py.truthy (Py.get payload "service") = true.
Proof.
  unfold bond_and_mod_provider. intros H Hne.
  destruct (Py.por body (JObj [])) as [| | | | |payload];
    try (inversion H; subst; contradiction).
  exists payload. split; [reflexivity|].
  cbn [service read_inputs] in H.
  destruct (Py.truthy (Py.get payload "service")); [reflexivity|].
  inversion H; subst; contradiction.
Qed.

(** X3. When the key lookup or the conversion fails in one of the four
    reported ways, the response is the HTTP 500 of the identity failure with
    the error text that ends with the output of the failing command; the
    failing command is the last one run, each key command ran at most once,
    and no provider query, bond, account query or metadata update was
    run. *)
Theorem identity_failure_is_terminal body t0 r evs pre c post e raw D :
  bond_and_mod_provider body t0 = (r, evs) ->
  evs = pre ++ Run KeysShow c :: post ->
  derivation_failure (KEY_NAME cfg) (KEYRING cfg) (t0 ++ pre) e raw D ->
  r = Ret (pubkey_failure e raw "") /\
  Run KeysShow c :: post = D /\
  count_site KeysShow evs = 1 /\
  count_site PubkeyRaw evs <= 1 /\
  count_site ProviderQuery evs = 0 /\
  count_site BondTx evs = 0 /\
  count_site AccountQuery evs = 0 /\
  count_site ModTx evs = 0.
Proof.
  intros H E HD.
  destruct (handler_started _ _ _ _ H) as (payload & Hb & Hs).
  { rewrite E. now destruct pre. }
  destruct (handler_steps _ _ _ _ _ H Hb Hs) as (rr & e1 & Hr & HX).
  pose proof (prelude_resolve _ _ _ _ Hr) as P1.
  assert (K1 : count_site KeysShow e1 = 0).
  { destruct (resolve_service_events _ _ _ _ Hr) as [-> | ->]; reflexivity. }
  destruct rr as [[rs note]|].
  2:{ exfalso. destruct HX as [_ ->]. rewrite E in K1.
      now apply count_zero_no_run in K1. }
  destruct HX as (rd & e2 & Hd & HX).
  set (kc := pubkey_cmd (KEY_NAME cfg) (KEYRING cfg)) in *.
  assert (K : exists krest, e2 = Run KeysShow kc :: krest /\
                            count_site KeysShow krest = 0).
  { destruct (derive_pubkeys_events _ _ _ _ _ Hd) as [-> | [raw' ->]]; eauto. }
  destruct K as (krest & -> & K2).
  assert (L : forall S, evs = e1 ++ (Run KeysShow kc :: krest) ++ S ->
                count_site KeysShow S = 0 -> pre = e1).
  { intros S HS HK. rewrite HS in E. cbn [app] in E.
    apply (locate_unique KeysShow e1 (krest ++ S) pre post kc c E K1).
    now rewrite count_site_app, K2, HK. }
  assert (Hpre : pre = e1).
  { destruct rd as [[[raw' b] err]|].
    - destruct (err_truthy err).
      + destruct HX as [_ HE]. apply (L []); [now rewrite app_nil_r | reflexivity].
      + destruct HX as (S & HE & HB). apply (L S HE).
        apply (bond_then_mod_sites _ _ _ _ _ _ _ _ KeysShow HB). auto.
    - destruct HX as [_ HE]. apply (L []); [now rewrite app_nil_r | reflexivity]. }
  subst pre. rewrite (derive_pubkeys_failure _ _ _ _ _ _ HD) in Hd.
  inversion Hd; subst rd D. clear Hd.
  cbn [err_truthy] in HX. rewrite (derivation_failure_text _ _ _ _ _ _ HD) in HX.
  cbn [negb] in HX. destruct HX as [-> HE].
  split; [reflexivity|].
  rewrite HE in E. apply app_inv_head in E. split; [now symmetry|].
  assert (C : forall s, s <> AllServices -> s <> KeysShow -> s <> PubkeyRaw ->
                        count_site s evs = 0).
  { intros s H1 H2 H3. rewrite HE.
    apply prelude_app; [exact P1 | | exact H1 | exact H2 | exact H3].
    eapply prelude_derive. apply (derive_pubkeys_failure _ _ _ _ _ _ HD). }
  assert (CK : count_site KeysShow evs = 1).
  { rewrite HE, count_site_app, K1, count_site_cons, K2. reflexivity. }
  assert (CP : count_site PubkeyRaw evs <= 1).
  { rewrite HE, count_site_app.
    assert (X1 : count_site PubkeyRaw e1 = 0).
    { destruct (resolve_service_events _ _ _ _ Hr) as [-> | ->]; reflexivity. }
    rewrite X1.
    destruct (derive_pubkeys_events _ _ _ _ _ (derive_pubkeys_failure _ _ _ _ _ _ HD))
      as [X | [raw' X]]; rewrite X; cbn; lia. }
  repeat split; try assumption; apply C; discriminate.
Qed.

(** ** Failures after the identity is known *)

(** A response of the last part comes with the last submission: its
    command, its exit code and its output. *)
Lemma mod_provider_last i rs note raw b bc bcode bout t resp S :
  mod_provider i rs note raw b bc bcode bout t = (Ret resp, S) ->
  exists pre c code out,
    S = pre ++ [Run ModTx c] /\
    oracle (t ++ pre) c = Exited code out /\
    resp = final_response i rs note raw b bc bcode bout c code out.
Proof.
  intro H.
  destruct (mod_provider_ends_with_submission _ _ _ _ _ _ _ _ _ _ _ H) as (S0 & c & E).
  destruct (last_submission _ _ _ _ _ _ _ _ _ _ _ _ _ _ H E eq_refl) as [_ L].
  destruct (oracle (t ++ S0) c) as [code out|] eqn:O; [|discriminate].
  inversion L. exists S0, c, code, out. now repeat split.
Qed.

(** X4. A bond or metadata failure carries its context: an HTTP 500
    that is not the identity failure names the last command run as "cmd" and
    its output as "detail", and has the inputs (with the service as given),
    the public keys and the user. *)
Theorem later_failures_carry_context body t0 r evs resp :
  bond_and_mod_provider body t0 = (r, evs) ->
  r = Ret resp ->
  snd resp = 500%Z ->
  has_field resp "pubkey_error" = false ->
  (exists pre s c code out,
     evs = pre ++ [Run s c] /\
     oracle (t0 ++ pre) c = Exited code out /\
     code <> 0%Z /\
     field resp "cmd" = JArr c /\
     field resp "detail" = JStr out) /\
  (exists payload,
     Py.por body (JObj []) = JObj payload /\
     subfield (field resp "inputs") "service" = Py.get payload "service") /\
  has_key (field resp "inputs") "resolved_service" = true /\
  has_field resp "pubkey" = true /\
  has_field resp "user" = true.
Proof.
  intros H -> Hst Hpk. apply handler_run in H.
  destruct H as [[_ [H | [H | (e & raw & bech & H)]]]
                | (payload & P & rs & note & raw & b & S & Hb & _ & -> & H)];
    try (inversion H; subst; discriminate).
  assert (X : forall bc bcode bout t S',
             mod_provider (read_inputs payload) rs note raw b bc bcode bout t = (Ret resp, S') ->
             (exists pre c code out,
                S' = pre ++ [Run ModTx c] /\
                oracle (t ++ pre) c = Exited code out /\
                code <> 0%Z /\
                field resp "cmd" = JArr c /\
                field resp "detail" = JStr out) /\
             subfield (field resp "inputs") "service" = Py.get payload "service" /\
             has_key (field resp "inputs") "resolved_service" = true /\
             has_field resp "pubkey" = true /\
             has_field resp "user" = true).
  { intros bc bcode bout t S' HM.
    destruct (mod_provider_last _ _ _ _ _ _ _ _ _ _ _ HM)
      as (pre & c & code & out & -> & O & E).
    subst resp. unfold final_response in *.
    destruct (Z.eqb code 0) eqn:E0; cbn [negb] in *; [discriminate|].
    apply Z.eqb_neq in E0. split; [|now repeat split].
    exists pre, c, code, out. now repeat split. }
  apply bond_then_mod_run in H. cbv zeta in H.
  set (q := lookup_cmd b rs) in *.
  set (bcmd := bond_cmd_of (read_inputs payload) b rs) in *.
  destruct (registered _).
  - destruct H as (S' & -> & H).
    destruct (X _ _ _ _ _ H) as ((pre & c & code & out & -> & O & Hc & F1 & F2) & G).
    split; [|split; [exists payload; split; [exact Hb | apply G] | apply G]].
    exists (P ++ Run ProviderQuery q :: pre), ModTx, c, code, out.
    rewrite <- !app_assoc in *. cbn [app] in *. now repeat split.
  - destruct (oracle _ bcmd) as [code out|] eqn:O; [|now destruct H].
    destruct (Z.eqb code 0) eqn:E0.
    + destruct H as (S' & -> & H).
      destruct (X _ _ _ _ _ H) as ((pre & c & code' & out' & -> & O' & Hc & F1 & F2) & G).
      split; [|split; [exists payload; split; [exact Hb | apply G] | apply G]].
      exists (P ++ Run ProviderQuery q :: Run BondTx bcmd :: Sleep 2 :: pre), ModTx, c, code', out'.
      rewrite <- !app_assoc in *. cbn [app] in *. now repeat split.
    + destruct H as [H ->]. inversion H; subst resp. apply Z.eqb_neq in E0.
      split; [|split; [exists payload; now split | now repeat split]].
      exists (P ++ [Run ProviderQuery q]), BondTx, bcmd, code, out.
      rewrite <- !app_assoc in *. cbn [app] in *. now repeat split.
Qed.

(** X5. After a bond that exits 0 the handler sleeps two seconds and then
    goes on to the metadata update. *)
Theorem settle_delay_after_bond body t0 r evs pre c post out :
  bond_and_mod_provider body t0 = (r, evs) ->
  evs = pre ++ Run BondTx c :: post ->
  oracle (t0 ++ pre) c = Exited 0 out ->
  exists rest, post = Sleep 2 :: rest /\ 1 <= count_site ModTx rest.
Proof.
  intros H E A. apply handler_run in H.
  destruct H as [[HP _] | (payload & P & rs & note & raw & b & S & _ & HP & -> & H)].
  { exfalso. subst evs. now apply (count_zero_no_run BondTx pre post c), HP. }
  destruct (locate_after _ _ _ _ _ _ E (HP BondTx ltac:(discriminate)
              ltac:(discriminate) ltac:(discriminate))) as (pre' & -> & ES).
  apply bond_then_mod_run in H. cbv zeta in H.
  set (q := lookup_cmd b rs) in *.
  set (bcmd := bond_cmd_of (read_inputs payload) b rs) in *.
  destruct (registered (oracle (t0 ++ P) q)).
  { exfalso. destruct H as (S' & -> & H).
    apply (mod_provider_sites _ _ _ _ _ _ _ _ _ _ _ BondTx) in H; try discriminate.
    destruct pre' as [|e pre']; inversion ES; subst.
    now apply (count_zero_no_run BondTx pre' post c). }
  assert (L : forall rest, S = Run ProviderQuery q :: Run BondTx bcmd :: rest ->
                count_site BondTx rest = 0 ->
                pre' = [Run ProviderQuery q] /\ c = bcmd /\ post = rest).
  { intros rest -> Hrest.
    apply (locate_unique BondTx [Run ProviderQuery q] rest pre' post bcmd c);
      [exact ES | reflexivity | exact Hrest]. }
  destruct (oracle ((t0 ++ P) ++ [Run ProviderQuery q]) bcmd) as [code' out'|] eqn:O.
  - destruct (Z.eqb code' 0) eqn:E0.
    + destruct H as (S' & HS & H).
      destruct (L _ HS) as (-> & -> & ->).
      { rewrite count_site_cons. cbn.
        eapply mod_provider_sites; eauto; discriminate. }
      exists S'. split; [reflexivity|]. eapply mod_provider_submits; eauto.
    + exfalso. destruct H as [_ HS]. destruct (L _ HS eq_refl) as (-> & -> & ->).
      rewrite <- app_assoc in O. rewrite O in A. inversion A; subst. discriminate.
  - exfalso. destruct H as [_ HS]. destruct (L _ HS eq_refl) as (-> & -> & ->).
    rewrite <- app_assoc in O. rewrite O in A. discriminate.
Qed.

(** ** Order of the steps *)

(** A derivation without error ran both key commands, each answered with
    exit code 0, and its encoded key is the one read off the conversion
    output. *)
Lemma derive_pubkeys_ok u k t raw b D :
  derive_pubkeys u k t = (Ret (raw, b, None), D) ->
  exists out out2,
    oracle t (pubkey_cmd u k) = Exited 0 out /\
    raw_pubkey_of out = Ret raw /\
    D = [Run KeysShow (pubkey_cmd u k);
         Run PubkeyRaw [JStr "arkeod"; JStr "debug"; JStr "pubkey-raw"; JStr raw]] /\
    oracle (t ++ [Run KeysShow (pubkey_cmd u k)])
      [JStr "arkeod"; JStr "debug"; JStr "pubkey-raw"; JStr raw] = Exited 0 out2 /\
    b = find_bech32 (PyStr.splitlines out2) /\
    b <> "".
Proof.
  unfold derive_pubkeys. rewrite bind_run_list.
  destruct (oracle t (pubkey_cmd u k)) as [code out|]; [|discriminate].
  destruct (Z.eqb code 0) eqn:E0; cbn [negb].
  2:{ unfold ret, after. cbn. discriminate. }
  apply Z.eqb_eq in E0. subst code.
  destruct (raw_pubkey_of out) as [raw'|] eqn:ER; [|discriminate].
  destruct (PyStr.is_empty raw') eqn:EE.
  { unfold ret, after. cbn. discriminate. }
  rewrite bind_run_list.
  destruct (oracle _ _) as [code2 out2|] eqn:O2; [|discriminate].
  destruct (Z.eqb code2 0) eqn:E2; cbn [negb].
  2:{ unfold ret, after. cbn. discriminate. }
  apply Z.eqb_eq in E2. subst code2.
  destruct (PyStr.is_empty (find_bech32 (PyStr.splitlines out2))) eqn:EB.
  { unfold ret, after. cbn. discriminate. }
  unfold ret, after. cbn. intro H. inversion H; subst.
  exists out, out2. repeat split; try assumption.
  intro X. rewrite X in EB. discriminate.
Qed.

(** X6. A metadata update is submitted only after the identity was
    derived and the registration checked: before any metadata update the
    log holds exactly one key lookup, one conversion and one provider query,
    all three answered without exception, the key commands with exit
    code 0. *)
Theorem metadata_update_follows_identity body t0 r evs pre c post :
  bond_and_mod_provider body t0 = (r, evs) ->
  evs = pre ++ Run ModTx c :: post ->
  count_site KeysShow pre = 1 /\
  count_site PubkeyRaw pre = 1 /\
  count_site ProviderQuery pre = 1 /\
  count_site AllServices pre <= 1 /\
  exists p1 kc p2 out,
    pre = p1 ++ Run PubkeyRaw kc :: p2 /\
    oracle (t0 ++ p1) kc = Exited 0 out /\
    find_bech32 (PyStr.splitlines out) <> "".
Proof.
  intros H E.
  destruct (handler_started _ _ _ _ H) as (payload & Hb & Hs).
  { rewrite E. now destruct pre. }
  destruct (handler_steps _ _ _ _ _ H Hb Hs) as (rr & e1 & Hr & HX).
  pose proof (prelude_resolve _ _ _ _ Hr) as P1.
  assert (N : forall l, count_site ModTx l = 0 -> l = pre ++ Run ModTx c :: post -> False).
  { intros l Hl ->. eapply count_zero_no_run; eauto. }
  destruct rr as [[rs note]|].
  2:{ exfalso. destruct HX as [_ HE]. apply (N e1); [apply P1; discriminate|].
      now rewrite <- HE. }
  destruct HX as (rd & e2 & Hd & HX).
  pose proof (prelude_derive _ _ _ _ _ Hd) as P2.
  pose proof (prelude_app _ _ P1 P2) as P12.
  destruct rd as [[[raw b] err]|].
  2:{ exfalso. destruct HX as [_ HE]. apply (N (e1 ++ e2)); [apply P12; discriminate|].
      now rewrite <- HE. }
  destruct (err_truthy err) eqn:Eerr.
  { exfalso. destruct HX as [_ HE]. apply (N (e1 ++ e2)); [apply P12; discriminate|].
    now rewrite <- HE. }
  destruct HX as (S & HE & HB).
  pose proof (derive_pubkeys_success _ _ _ _ _ _ _ Hd Eerr) as ->.
  destruct (derive_pubkeys_ok _ _ _ _ _ _ Hd) as (out & out2 & O1 & _ & -> & O2 & -> & Hbne).
  set (kc := pubkey_cmd (KEY_NAME cfg) (KEYRING cfg)) in *.
  set (rc := [JStr "arkeod"; JStr "debug"; JStr "pubkey-raw"; JStr raw]) in *.
  (* the metadata update lies in the last part *)
  rewrite HE, app_assoc in E.
  destruct (locate_after _ _ _ _ _ _ E (P12 ModTx ltac:(discriminate) ltac:(discriminate)
              ltac:(discriminate))) as (pre' & -> & ES).
  (* what the last part contributes before it *)
  assert (C : count_site KeysShow pre' = 0 /\ count_site PubkeyRaw pre' = 0 /\
              count_site AllServices pre' = 0 /\ count_site ProviderQuery pre' = 1).
  { assert (Z3 : forall s, s = AllServices \/ s = KeysShow \/ s = PubkeyRaw ->
                           count_site s pre' = 0).
    { intros s Hs3.
      pose proof (bond_then_mod_sites _ _ _ _ _ _ _ _ s HB Hs3) as Z.
      rewrite ES, count_site_app in Z. lia. }
    repeat split; try (apply Z3; auto).
    apply bond_then_mod_run in HB. cbv zeta in HB.
    assert (M : forall bc bcode bout t' r' S' B,
               mod_provider (read_inputs payload) rs note raw
                 (find_bech32 (PyStr.splitlines out2)) bc bcode bout t' = (r', S') ->
               S = B ++ S' -> count_site ModTx B = 0 -> count_site ProviderQuery B = 1 ->
               count_site ProviderQuery pre' = 1).
    { intros bc bcode bout t' r' S' B HM HS HB0 HB1.
      rewrite HS in ES.
      destruct (locate_after _ _ _ _ _ _ ES HB0) as (p'' & -> & ES').
      rewrite count_site_app, HB1.
      pose proof (mod_provider_sites _ _ _ _ _ _ _ _ _ _ _ ProviderQuery HM
                    ltac:(discriminate) ltac:(discriminate)) as Z.
      rewrite ES', count_site_app in Z. lia. }
    destruct (registered _).
    - destruct HB as (S' & HS & HM).
      apply (M _ _ _ _ _ _ [Run ProviderQuery (lookup_cmd (find_bech32 (PyStr.splitlines out2)) rs)] HM);
        [exact HS | reflexivity | reflexivity].
    - destruct (oracle _ (bond_cmd_of _ _ _)) as [code out'|].
      + destruct (Z.eqb code 0).
        * destruct HB as (S' & HS & HM).
          apply (M _ _ _ _ _ _
                   [Run ProviderQuery (lookup_cmd (find_bech32 (PyStr.splitlines out2)) rs);
                    Run BondTx (bond_cmd_of (read_inputs payload)
                                  (find_bech32 (PyStr.splitlines out2)) rs);
                    Sleep 2] HM); [exact HS | reflexivity | reflexivity].
        * exfalso. destruct HB as [_ HS]. rewrite HS in ES.
          assert (Z : count_site ModTx
                        [Run ProviderQuery (lookup_cmd (find_bech32 (PyStr.splitlines out2)) rs);
                         Run BondTx (bond_cmd_of (read_inputs payload)
                                       (find_bech32 (PyStr.splitlines out2)) rs)] = 0)
            by reflexivity.
          rewrite ES in Z. now apply count_zero_no_run in Z.
      + exfalso. destruct HB as [_ HS]. rewrite HS in ES.
        assert (Z : count_site ModTx
                      [Run ProviderQuery (lookup_cmd (find_bech32 (PyStr.splitlines out2)) rs);
                       Run BondTx (bond_cmd_of (read_inputs payload)
                                     (find_bech32 (PyStr.splitlines out2)) rs)] = 0)
          by reflexivity.
        rewrite ES in Z. now apply count_zero_no_run in Z. }
  destruct C as (C1 & C2 & C3 & C4).
  assert (A1 : count_site AllServices e1 <= 1 /\ count_site KeysShow e1 = 0 /\
               count_site PubkeyRaw e1 = 0 /\ count_site ProviderQuery e1 = 0).
  { destruct (resolve_service_events _ _ _ _ Hr) as [-> | ->]; cbn; repeat split; lia. }
  destruct A1 as (A1 & A2 & A3 & A4).
  rewrite !count_site_app, C1, C2, C3, C4, A2, A3, A4.
  cbn [count_site filter is_site List.length].
  split; [reflexivity|]. split; [reflexivity|]. split; [reflexivity|].
  split; [cbn; lia|].
  exists (e1 ++ [Run KeysShow kc]), rc, pre', out2.
  split; [now rewrite <- !app_assoc|].
  split; [now rewrite app_assoc|exact Hbne].
Qed.

(** ** The two text contracts of the recovery *)

Lemma startswith_split p : forall s,
  PyStr.startswith p s = true -> exists r, s = (p ++ r)%string.
Proof.
  induction p as [|a p IH]; intros s H.
  - now exists s.
  - destruct s as [|b s]; [discriminate|]. cbn in H.
    apply andb_true_iff in H. destruct H as [Hab H].
    apply Ascii.eqb_eq in Hab. subst b.
    destruct (IH s H) as (r & ->). now exists r.
Qed.

Lemma span_split p : forall s a b,
  PyStr.span p s = (a, b) ->
  s = (a ++ b)%string /\ PyStr.all_chars p a = true /\
  match b with String c _ => p c = false | EmptyString => True end.
Proof.
  induction s as [|c s IH]; intros a b H; cbn in H.
  - inversion H. now repeat split.
  - destruct (p c) eqn:Ec.
    + destruct (PyStr.span p s) as [a' b'] eqn:E. inversion H; subst.
      destruct (IH a' b eq_refl) as (-> & Ha & Hb). cbn. rewrite Ec, Ha. now repeat split.
    + inversion H; subst. cbn. now repeat split.
Qed.

(** X7. What [re.search(r"expected\s+(\d+)", out)] returns is a run of
    decimal digits of the output that stands right after the word
    "expected" and one or more white-space characters, and is not followed
    by a digit. *)
Theorem re_search_expected_sound out d :
  PyStr.re_search_expected out = Some d ->
  exists before ws rest,
    out = (before ++ "expected" ++ ws ++ d ++ rest)%string /\
    ws <> "" /\ PyStr.all_chars PyStr.isspace ws = true /\
    d <> "" /\ PyStr.all_chars PyStr.isdecimal_char d = true /\
    match rest with
    | String c _ => PyStr.isdecimal_char c = false
    | EmptyString => True
    end.
Proof.
  induction out as [|c out IH]; intro H.
  - cbn in H. discriminate.
  - cbn [PyStr.re_search_expected] in H.
    destruct (PyStr.match_expected_here (String c out)) as [d'|] eqn:E.
    + inversion H; subst d'. clear H IH. unfold PyStr.match_expected_here in E.
      destruct (PyStr.startswith "expected" (String c out)) eqn:Es; [|discriminate].
      destruct (startswith_split _ _ Es) as (r & Hr). rewrite Hr in E.
      change (PyStr.drop 8 ("expected" ++ r)%string) with r in E.
      destruct (PyStr.span PyStr.isspace r) as [ws rest] eqn:E1.
      destruct (PyStr.span PyStr.isdecimal_char rest) as [ds rest'] eqn:E2.
      destruct (span_split _ _ _ _ E1) as (-> & Hws & _).
      destruct (span_split _ _ _ _ E2) as (-> & Hds & Hrest).
      destruct ws as [|w ws]; [discriminate|].
      destruct ds as [|x ds]; [discriminate|].
      cbn in E. inversion E; subst d.
      exists "", (String w ws), rest'. rewrite Hr.
      repeat split; try assumption; try discriminate.
    + destruct (IH H) as (before & ws & rest & -> & Hx).
      exists (String c before), ws, rest. split; [reflexivity | exact Hx].
Qed.

(** X8. The sequence arguments go right before the first "--from" of
    the base command. *)
Theorem sequence_goes_before_from base pre post seq :
  base = pre ++ JStr "--from" :: post ->
  Py.index_of "--from" pre = None ->
  with_sequence base seq = pre ++ seq ++ JStr "--from" :: post.
Proof.
  intros -> H. unfold with_sequence, Py.insert_at.
  rewrite (index_of_none_app _ _ _ H).
  rewrite firstn_app, firstn_all, Nat.sub_diag. cbn [firstn]. rewrite app_nil_r.
  rewrite skipn_app, skipn_all, Nat.sub_diag. cbn [skipn app]. reflexivity.
Qed.

(** ** The labels of the log *)



(** ** Strings: stripping *)

Lemma sapp_nil_r s : (s ++ "")%string = s.
Proof. induction s as [|c s IH]; cbn; [reflexivity | now rewrite IH]. Qed.

Lemma sapp_assoc a b c : ((a ++ b) ++ c)%string = (a ++ (b ++ c))%string.
Proof. induction a as [|x a IH]; cbn; [reflexivity | now rewrite IH]. Qed.

Lemma slength_app a b : String.length (a ++ b) = String.length a + String.length b.
Proof. induction a as [|x a IH]; cbn; [reflexivity | now rewrite IH]. Qed.

(** A string that is empty or starts with a character that is not white
    space. *)
Definition head_ok (s : string) : bool :=
  match s with
  | EmptyString => true
  | String c _ => negb (PyStr.isspace c)
  end.

Lemma lstrip_head_ok s : head_ok s = true -> PyStr.lstrip s = s.
Proof.
  destruct s as [|c s]; cbn; [reflexivity|].
  now destruct (PyStr.isspace c).
Qed.

Lemma head_ok_lstrip s : head_ok (PyStr.lstrip s) = true.
Proof.
  induction s as [|c s IH]; cbn; [reflexivity|].
  destruct (PyStr.isspace c) eqn:E; [exact IH|]. cbn. now rewrite E.
Qed.

Lemma rstrip_idem s : PyStr.rstrip (PyStr.rstrip s) = PyStr.rstrip s.
Proof.
  induction s as [|c s IH]; cbn; [reflexivity|].
  destruct (PyStr.isspace c && PyStr.is_empty (PyStr.rstrip s))%bool eqn:E.
  - reflexivity.
  - cbn. rewrite IH, E. reflexivity.
Qed.

Lemma head_ok_rstrip s : head_ok s = true -> head_ok (PyStr.rstrip s) = true.
Proof.
  destruct s as [|c s]; cbn; [reflexivity|]. intro H.
  apply negb_true_iff in H. rewrite H. cbn. now rewrite H.
Qed.

Lemma head_ok_strip s : head_ok (PyStr.strip s) = true.
Proof. apply head_ok_rstrip, head_ok_lstrip. Qed.

(** Stripping twice is stripping once. *)
Lemma strip_idem s : PyStr.strip (PyStr.strip s) = PyStr.strip s.
Proof.
  unfold PyStr.strip at 1.
  rewrite (lstrip_head_ok (PyStr.strip s)) by apply head_ok_strip.
  unfold PyStr.strip. apply rstrip_idem.
Qed.

Lemma strip_fixed s :
  head_ok s = true -> PyStr.rstrip s = s -> PyStr.strip s = s.
Proof.
  intros H1 H2. unfold PyStr.strip. now rewrite lstrip_head_ok.
Qed.

Lemma rstrip_spaces b : PyStr.all_chars PyStr.isspace b = true -> PyStr.rstrip b = "".
Proof.
  induction b as [|c b IH]; cbn; [reflexivity|].
  intro H. apply andb_true_iff in H. destruct H as [Hc Hb].
  now rewrite Hc, (IH Hb).
Qed.

Lemma lstrip_spaces b : PyStr.all_chars PyStr.isspace b = true -> PyStr.lstrip b = "".
Proof.
  induction b as [|c b IH]; cbn; [reflexivity|].
  intro H. apply andb_true_iff in H. destruct H as [Hc Hb].
  now rewrite Hc, (IH Hb).
Qed.

Lemma lstrip_app_spaces a s :
  PyStr.all_chars PyStr.isspace a = true -> PyStr.lstrip (a ++ s) = PyStr.lstrip s.
Proof.
  induction a as [|c a IH]; cbn; [reflexivity|].
  intro H. apply andb_true_iff in H. destruct H as [Hc Ha].
  now rewrite Hc, (IH Ha).
Qed.

Lemma rstrip_app_spaces s b :
  PyStr.all_chars PyStr.isspace b = true -> PyStr.rstrip (s ++ b) = PyStr.rstrip s.
Proof.
  intro H. induction s as [|c s IH]; cbn.
  - now apply rstrip_spaces.
  - now rewrite IH.
Qed.

(** White space around a string that has none at its ends is all that
    stripping removes. *)
Lemma strip_core a x b :
  PyStr.all_chars PyStr.isspace a = true ->
  PyStr.all_chars PyStr.isspace b = true ->
  head_ok x = true -> PyStr.rstrip x = x ->
  PyStr.strip (a ++ x ++ b) = x.
Proof.
  intros Ha Hb Hx Hr. unfold PyStr.strip.
  rewrite lstrip_app_spaces by exact Ha.
  destruct x as [|c x].
  - cbn [append]. rewrite lstrip_spaces by exact Hb. reflexivity.
  - rewrite lstrip_head_ok by exact Hx.
    rewrite rstrip_app_spaces by exact Hb. exact Hr.
Qed.

Lemma rstrip_app_tight x y :
  PyStr.rstrip y = y -> y <> "" -> PyStr.rstrip (x ++ y) = (x ++ y)%string.
Proof.
  intros Hy Hne. induction x as [|c x IH]; cbn; [exact Hy|].
  rewrite IH. destruct (x ++ y)%string eqn:E.
  - destruct x; cbn in E; [contradiction | discriminate].
  - cbn. now rewrite andb_false_r.
Qed.

(** A string of characters none of which is white space is its own
    strip. *)
Lemma strip_no_space s :
  PyStr.all_chars (fun c => negb (PyStr.isspace c)) s = true -> PyStr.strip s = s.
Proof.
  intro H. apply strip_fixed.
  - destruct s as [|c s]; [reflexivity|]. cbn in H |- *.
    now apply andb_true_iff in H.
  - induction s as [|c s IH]; [reflexivity|]. cbn in H |- *.
    apply andb_true_iff in H. destruct H as [Hc Hs].
    rewrite (IH Hs). apply negb_true_iff in Hc. now rewrite Hc.
Qed.

(** ** Identity resolution: what every caller can rely on *)

Lemma raw_pubkey_of_stripped out raw :
  raw_pubkey_of out = Ret raw -> PyStr.strip raw = raw.
Proof.
  unfold raw_pubkey_of.
  destruct (json_loads out) as [[| | | | |d]| |]; try discriminate.
  - destruct (Py.lookup d "key") as [[| | |k| |]|]; try discriminate;
      intro H; inversion H; subst.
    + apply strip_idem.
    + reflexivity.
  - intro H. inversion H. reflexivity.
Qed.

Lemma find_bech32_stripped lines :
  PyStr.strip (find_bech32 lines) = find_bech32 lines.
Proof.
  induction lines as [|l lines IH]; cbn [find_bech32]; [reflexivity|].
  destruct (PyStr.startswith "Bech32 Acc:" l); [apply strip_idem | exact IH].
Qed.

(** X10. Whatever [derive_pubkeys] returns, it reports no error exactly
    when the encoded key is not empty; without error both keys are not
    empty and have no white space at their ends; an error text is never
    empty, so that the test [if pubkey_err] of the callers misses no error;
    and the raw key is empty exactly when the key lookup was the only
    command run. *)
Theorem derive_pubkeys_result_shape u k t raw b err D :
  derive_pubkeys u k t = (Ret (raw, b, err), D) ->
  (err = None <-> b <> "") /\
  (err = None -> raw <> "" /\ PyStr.strip raw = raw /\ PyStr.strip b = b) /\
  (forall e, err = Some e -> e <> "") /\
  (raw = "" <-> D = [Run KeysShow (pubkey_cmd u k)]).
Proof.
  unfold derive_pubkeys. rewrite bind_run_list.
  destruct (oracle t (pubkey_cmd u k)) as [code out|]; [|discriminate].
  destruct (negb (code =? 0)%Z).
  { unfold ret, after. cbn. intro H. inversion H; subst.
    repeat split; intros; try discriminate; try congruence. }
  destruct (raw_pubkey_of out) as [raw'|] eqn:ER; [|discriminate].
  destruct (PyStr.is_empty raw') eqn:EE.
  { unfold ret, after. cbn. intro H. inversion H; subst.
    repeat split; intros; try discriminate; try congruence. }
  assert (Hraw : raw' <> "") by (intro X; rewrite X in EE; discriminate).
  rewrite bind_run_list.
  destruct (oracle _ _) as [code2 out2|]; [|discriminate].
  destruct (negb (code2 =? 0)%Z).
  { unfold ret, after. cbn. intro H. inversion H; subst.
    repeat split; intros; try discriminate; try congruence. }
  destruct (PyStr.is_empty (find_bech32 (PyStr.splitlines out2))) eqn:EB.
  { unfold ret, after. cbn. intro H. inversion H; subst.
    repeat split; intros; try discriminate; try congruence. }
  unfold ret, after. cbn. intro H. inversion H; subst.
  repeat split; intros; try discriminate; try congruence.
  - intro X. rewrite X in EB. discriminate.
  - now apply raw_pubkey_of_stripped with out.
  - apply find_bech32_stripped.
Qed.

(** ** The bond endpoint *)

(** The amount of the bond as the endpoint reads it (line 234). *)
Definition bond_of (payload : list (string * json)) : string :=
  py_str (Py.por (Py.get payload "bond") (JStr (BOND_DEFAULT cfg))).

(** Every run of [bond_provider]. *)
Lemma bond_provider_run body t0 r evs :
  bond_provider body t0 = (r, evs) ->
  (evs = [] /\
   (r = Exn \/ r = Ret (JObj [("error", JStr "service is required")], 400%Z))) \/
  exists payload dr D,
    Py.por body (JObj []) = JObj payload /\
    Py.truthy (Py.get payload "service") = true /\
    derive_pubkeys (KEY_NAME cfg) (KEYRING cfg) t0 = (dr, D) /\
    match dr with
    | Exn => r = Exn /\ evs = D
    | Ret (raw, b, Some e) =>
        r = Ret (bond_identity_failure e raw b (Py.get payload "service") (bond_of payload))
        /\ evs = D
    | Ret (raw, b, None) =>
        let c := bond_only_cmd b (Py.get payload "service") (bond_of payload) in
        evs = D ++ [Run BondTx c] /\
        match oracle (t0 ++ D) c with
        | Raised => r = Exn
        | Exited code out =>
            r = Ret (if Z.eqb code 0
                     then bond_submitted raw b None (Py.get payload "service")
                            (bond_of payload) out
                     else bond_refused raw b (Py.get payload "service")
                            (bond_of payload) out)
        end
    end.
Proof.
  unfold bond_provider. intro H.
  destruct (Py.por body (JObj [])) as [| | | | |payload];
    try (left; inversion H; split; [reflexivity | now left]).
  destruct (Py.truthy (Py.get payload "service")) eqn:ES; cbn [negb] in H.
  2:{ left. inversion H. split; [reflexivity | now right]. }
  right. exists payload.
  destruct (derive_pubkeys (KEY_NAME cfg) (KEYRING cfg) t0) as [dr D] eqn:ED.
  exists dr, D. split; [reflexivity|]. split; [exact ES|]. split; [reflexivity|].
  destruct dr as [[[raw b] err]|].
  2:{ unfold bind in H. rewrite ED in H. inversion H. now split. }
  rewrite (bind_value _ _ _ _ _ ED) in H.
  destruct (err_truthy err) eqn:ET.
  - destruct err as [e|]; [|discriminate].
    unfold ret, after in H. cbn in H. rewrite app_nil_r in H. inversion H.
    now split.
  - rewrite (derive_pubkeys_success _ _ _ _ _ _ _ ED ET) in *.
    rewrite bind_run_list in H. fold (bond_of payload) in H.
    destruct (oracle (t0 ++ D) _) as [code out|].
    + destruct (Z.eqb code 0); cbn [negb] in H; unfold ret, after in H; cbn in H;
        inversion H; now split.
    + unfold after in H. cbn in H. inversion H. now split.
Qed.

(** X11. When the identity cannot be derived in one of the four reported
    ways, [bond_provider] answers HTTP 500 with the error text under
    "error" and "pubkey_error" and with the inputs of the request, service
    and bond amount among them, and it runs nothing but the key commands:
    no bond is submitted. *)
Theorem bond_identity_failure_keeps_inputs body t0 payload e raw D :
  Py.por body (JObj []) = JObj payload ->
  Py.truthy (Py.get payload "service") = true ->
  derivation_failure (KEY_NAME cfg) (KEYRING cfg) t0 e raw D ->
  exists resp,
    bond_provider body t0 = (Ret resp, D) /\
    snd resp = 500%Z /\
    field resp "error" = JStr e /\
    field resp "pubkey_error" = JStr e /\
    subfield (field resp "inputs") "service" = Py.get payload "service" /\
    subfield (field resp "inputs") "bond" = JStr (bond_of payload) /\
    count_site BondTx D = 0.
Proof.
  intros HB HS HF.
  pose proof (derive_pubkeys_failure _ _ _ _ _ _ HF) as ED.
  pose proof (derivation_failure_text _ _ _ _ _ _ HF) as HE.
  exists (bond_identity_failure e raw "" (Py.get payload "service") (bond_of payload)).
  split.
  - unfold bond_provider. rewrite HB, HS. cbn [negb].
    rewrite (bind_value _ _ _ _ _ ED). cbn [err_truthy]. rewrite HE. cbn [negb].
    unfold ret, after. cbn. now rewrite app_nil_r.
  - repeat split.
    eapply prelude_derive; [exact ED | discriminate..].
Qed.

(** X12. A bond submitted by [bond_provider] is the last command of the
    request and the only bond; before it the two key commands ran and gave
    the identity without error; its command is built from the encoded key,
    the service and the bond amount of the request; and the response is
    HTTP 200 exactly when the bond exits with code 0, HTTP 500 otherwise. *)
Theorem bond_tx_ends_bond_provider body t0 r evs pre c post :
  bond_provider body t0 = (r, evs) ->
  evs = pre ++ Run BondTx c :: post ->
  post = [] /\ count_site BondTx pre = 0 /\
  exists payload raw b,
    Py.por body (JObj []) = JObj payload /\
    Py.truthy (Py.get payload "service") = true /\
    derive_pubkeys (KEY_NAME cfg) (KEYRING cfg) t0 = (Ret (raw, b, None), pre) /\
    c = bond_only_cmd b (Py.get payload "service") (bond_of payload) /\
    match oracle (t0 ++ pre) c with
    | Raised => r = Exn
    | Exited code out =>
        exists resp, r = Ret resp /\
          (snd resp = 200%Z <-> code = 0%Z) /\ (snd resp = 500%Z <-> code <> 0%Z)
    end.
Proof.
  intros H E.
  destruct (bond_provider_run _ _ _ _ H) as [[-> _] | (payload & dr & D & HB & HS & ED & HR)].
  { destruct pre; discriminate. }
  assert (HD : count_site BondTx D = 0).
  { eapply prelude_derive; [exact ED | discriminate..]. }
  destruct dr as [[[raw b] [e|]]|].
  - destruct HR as [_ ->]. rewrite E in HD. now apply count_zero_no_run in HD.
  - cbv zeta in HR. destruct HR as [-> HR].
    destruct (locate_unique BondTx D [] pre post _ c E HD eq_refl) as (-> & -> & ->).
    split; [reflexivity|]. split; [exact HD|].
    exists payload, raw, b. repeat split; try assumption.
    destruct (oracle (t0 ++ D) _) as [code out|]; [|exact HR].
    eexists. split; [exact HR|].
    destruct (Z.eqb code 0) eqn:E0.
    + apply Z.eqb_eq in E0. subst code. cbn. split; split; intro X; try reflexivity;
        try discriminate; contradiction.
    + apply Z.eqb_neq in E0. cbn. split; split; intro X; try reflexivity;
        try discriminate; try contradiction; assumption.
  - destruct HR as [_ ->]. rewrite E in HD. now apply count_zero_no_run in HD.
Qed.

(** ** The services of the node *)

Definition identity_error (e raw b : string) : http :=
  (JObj [("error", JStr e);
         ("user", JStr (KEY_NAME cfg));
         ("keyring_backend", JStr (KEYRING cfg));
         ("pubkey", pubkey_json raw b)], 500%Z).

Definition listing_error (raw b out : string) : http :=
  (JObj [("error", JStr "failed to list providers");
         ("detail", JStr out);
         ("cmd", JArr list_providers_cmd);
         ("pubkey", pubkey_json raw b)], 500%Z).

(** Every run of [provider_services]. *)
Lemma provider_services_run t0 r evs :
  provider_services t0 = (r, evs) ->
  exists dr D,
    derive_pubkeys (KEY_NAME cfg) (KEYRING cfg) t0 = (dr, D) /\
    match dr with
    | Exn => r = Exn /\ evs = D
    | Ret (raw, b, Some e) => r = Ret (identity_error e raw b) /\ evs = D
    | Ret (raw, b, None) =>
        evs = D ++ [Run ProviderQuery list_providers_cmd] /\
        match oracle (t0 ++ D) list_providers_cmd with
        | Raised => r = Exn
        | Exited code out =>
            if Z.eqb code 0 then
              match providers_of out with
              | Exn => r = Exn
              | Ret providers => r = Ret (services_listed raw b providers)
              end
            else r = Ret (listing_error raw b out)
        end
    end.
Proof.
  unfold provider_services. intro H.
  destruct (derive_pubkeys (KEY_NAME cfg) (KEYRING cfg) t0) as [dr D] eqn:ED.
  exists dr, D. split; [reflexivity|].
  destruct dr as [[[raw b] err]|].
  2:{ unfold bind in H. rewrite ED in H. inversion H. now split. }
  rewrite (bind_value _ _ _ _ _ ED) in H.
  destruct (err_truthy err) eqn:ET.
  - destruct err as [e|]; [|discriminate].
    unfold ret, after in H. cbn in H. rewrite app_nil_r in H. inversion H.
    now split.
  - rewrite (derive_pubkeys_success _ _ _ _ _ _ _ ED ET) in *.
    rewrite bind_run_list in H.
    destruct (oracle (t0 ++ D) _) as [code out|].
    + destruct (Z.eqb code 0); cbn [negb] in H.
      * destruct (providers_of out) as [providers|];
          unfold ret, raise, after in H; cbn in H; inversion H; now split.
      * unfold ret, after in H; cbn in H; inversion H; now split.
    + unfold after in H. cbn in H. inversion H. now split.
Qed.




(** An item of a list of rates that counts: an object with an amount
    (lines 753-758). *)
Definition priced (r : json) : bool :=
  match r with
  | JObj d => negb (Py.is_none (Py.get d "amount"))
  | _ => false
  end.

Lemma rate_part_priced r : priced r = false -> rate_part r = None.
Proof.
  destruct r as [| | | | |d]; try reflexivity.
  cbn. now destruct (Py.is_none (Py.get d "amount")).
Qed.

Lemma rate_part_of_priced d :
  priced (JObj d) = true ->
  rate_part (JObj d) = Some (_rate_to_string (JObj d)).
Proof.
  cbn. now destruct (Py.is_none (Py.get d "amount")).
Qed.

Lemma rate_parts_app l l' : rate_parts (l ++ l') = rate_parts l ++ rate_parts l'.
Proof.
  induction l as [|x l IH]; [reflexivity|].
  cbn. destruct (rate_part x); [cbn; now rewrite IH | exact IH].
Qed.

Lemma rate_parts_some l : existsb priced l = true -> rate_parts l <> [].
Proof.
  induction l as [|x l IH]; [discriminate|].
  cbn [existsb rate_parts]. destruct x as [| | | | |d]; try exact IH.
  cbn [orb]. destruct (priced (JObj d)) eqn:E.
  - intros _. rewrite (rate_part_of_priced _ E). discriminate.
  - cbn [orb]. rewrite (rate_part_priced _ E). exact IH.
Qed.

(** X14. How [_rate_to_string] renders what the chain printed for a rate.
    One coin reads the same alone and as a list of one coin. In a list the
    items that are no objects, or have no amount, are left out, wherever
    they stand. The coins that remain are rendered one by one, in order,
    with a comma between two of them. A coin whose amount and denomination
    are strings reads as the one followed by the other, and a coin with an
    amount and no (or an empty or null) denomination as the amount alone. *)
Theorem rates_are_rendered_coin_by_coin :
  (forall d, _rate_to_string (JArr [JObj d]) = _rate_to_string (JObj d)) /\
  (forall l x l',
     priced x = false ->
     _rate_to_string (JArr (l ++ x :: l')) = _rate_to_string (JArr (l ++ l'))) /\
  (forall d l,
     priced (JObj d) = true ->
     existsb priced l = true ->
     _rate_to_string (JArr (JObj d :: l))
     = (_rate_to_string (JObj d) ++ "," ++ _rate_to_string (JArr l))%string) /\
  (forall d a dn,
     Py.get d "amount" = JStr a ->
     Py.get d "denom" = JStr dn ->
     _rate_to_string (JObj d) = (a ++ dn)%string) /\
  (forall d a,
     Py.get d "amount" = JStr a ->
     Py.truthy (Py.get d "denom") = false ->
     _rate_to_string (JObj d) = a).
Proof.
  split; [|split; [|split; [|split]]].
  - intro d. cbn. destruct (Py.is_none (Py.get d "amount")); reflexivity.
  - intros l x l' Hx. unfold _rate_to_string.
    rewrite !rate_parts_app. cbn [rate_parts]. now rewrite (rate_part_priced _ Hx).
  - intros d l Hd Hl. unfold _rate_to_string at 1 3.
    cbn [rate_parts]. rewrite (rate_part_of_priced _ Hd).
    pose proof (rate_parts_some _ Hl) as N.
    destruct (rate_parts l) as [|q qs]; [contradiction|]. reflexivity.
  - intros d a dn Ha Hn. cbn. rewrite Ha, Hn. cbn.
    destruct dn; cbn; reflexivity.
  - intros d a Ha Hn. cbn. rewrite Ha. cbn.
    unfold Py.por. rewrite Hn. cbn. apply sapp_nil_r.
Qed.

(** X15. The providers are queried only once the identity is known: the
    query is the last command of the request and the only one of its kind,
    everything before it is the derivation of the identity, which ended
    without error, and an identity failure ends the request with HTTP 500
    before any query. *)
Theorem providers_query_follows_identity t0 r evs :
  provider_services t0 = (r, evs) ->
  (forall pre c post,
     evs = pre ++ Run ProviderQuery c :: post ->
     post = [] /\ c = list_providers_cmd /\
     exists raw b,
       derive_pubkeys (KEY_NAME cfg) (KEYRING cfg) t0 = (Ret (raw, b, None), pre)) /\
  (forall e raw D,
     derivation_failure (KEY_NAME cfg) (KEYRING cfg) t0 e raw D ->
     r = Ret (identity_error e raw "") /\ evs = D /\ count_site ProviderQuery evs = 0).
Proof.
  intro H.
  destruct (provider_services_run _ _ _ H) as (dr & D & ED & HR).
  assert (HD : count_site ProviderQuery D = 0).
  { eapply prelude_derive; [exact ED | discriminate..]. }
  split.
  - intros pre c post E.
    destruct dr as [[[raw b] [e|]]|].
    + destruct HR as [_ ->]. rewrite E in HD. now apply count_zero_no_run in HD.
    + destruct HR as [-> _].
      destruct (locate_unique ProviderQuery D [] pre post _ c E HD eq_refl)
        as (-> & -> & ->).
      split; [reflexivity|]. split; [reflexivity|]. now exists raw, b.
    + destruct HR as [_ ->]. rewrite E in HD. now apply count_zero_no_run in HD.
  - intros e raw D' HF.
    pose proof (derive_pubkeys_failure _ _ _ _ _ _ HF) as ED'.
    rewrite ED in ED'. inversion ED'; subst.
    destruct HR as [-> ->]. now repeat split.
Qed.

(** ** The catalogue of services *)

(** An entry with an id and a name of which one at least is known. *)
Definition identified (e : json) : Prop :=
  exists sid name rest,
    e = JObj (("id", sid) :: ("name", name) :: rest) /\ (sid <> JNull \/ name <> JNull).

Lemma is_none_false v : Py.is_none v = false -> v <> JNull.
Proof. destruct v; cbn; congruence. Qed.

Lemma catalogue_entries_identified items e :
  In e (catalogue_entries items) -> identified e.
Proof.
  induction items as [|x items IH]; cbn [catalogue_entries]; [intros []|].
  destruct x as [| | | | |item]; try exact IH.
  match goal with
  | |- In e (if (Py.is_none ?a && Py.is_none ?b)%bool then _ else _) -> _ =>
      destruct (Py.is_none a) eqn:Ea; [destruct (Py.is_none b) eqn:Eb|]; cbn [andb]
  end; try exact IH.
  - intros [<- | Hin]; [|now apply IH].
    eexists _, _, []. split; [reflexivity|]. right. now apply is_none_false.
  - intros [<- | Hin]; [|now apply IH].
    eexists _, _, []. split; [reflexivity|]. left. now apply is_none_false.
Qed.

Lemma text_entries_identified lines e :
  In e (text_entries lines) -> identified e.
Proof.
  induction lines as [|l lines IH]; cbn [text_entries]; [intros []|].
  destruct (PyStr.match_service_line l) as [[[svc sid] desc]|]; [|exact IH].
  intros [<- | Hin]; [|now apply IH].
  eexists _, _, [_]. split; [reflexivity|]. left. discriminate.
Qed.

Lemma services_of_parsed_identified parsed e :
  In e (services_of_parsed parsed) -> identified e.
Proof.
  unfold services_of_parsed.
  destruct (catalogue_entries (candidates_of parsed)) as [|x l] eqn:E.
  - destruct parsed; try (intros []). apply text_entries_identified.
  - intro Hin. apply catalogue_entries_identified with (candidates_of parsed).
    rewrite E. now destruct parsed.
Qed.

(** What [parse_json] gives when the decoder raises nothing but
    [JSONDecodeError] on the text and on what follows any place of it. *)
Lemma parse_json_returns out :
  (forall n, json_loads (PyStr.drop n out) <> OtherError) ->
  exists p,
    parse_json out = Ret p /\
    (forall v, json_loads out = Decoded v -> p = v) /\
    ((forall n, json_loads (PyStr.drop n out) = JSONDecodeError) -> p = JNull).
Proof.
  intro H. unfold parse_json.
  destruct (json_loads out) as [v| |] eqn:E0.
  - exists v. split; [reflexivity|]. split.
    + intros v' Hv. now inversion Hv.
    + intro HA. specialize (HA 0). cbn [PyStr.drop] in HA. congruence.
  - match goal with
    | |- context [match ?st with Some _ => _ | None => Ret JNull end] =>
        destruct st as [start|]
    end.
    + destruct (json_loads (PyStr.drop start out)) as [v| |] eqn:E1.
      * exists v. split; [reflexivity|]. split; [discriminate|].
        intro HA. specialize (HA start). congruence.
      * exists JNull. split; [reflexivity|]. split; [discriminate | reflexivity].
      * exfalso. now apply (H start).
    + exists JNull. split; [reflexivity|]. split; [discriminate | reflexivity].
  - exfalso. apply (H 0). exact E0.
Qed.

(** X16. [list_services] takes whatever the catalogue command prints, of
    any shape: as long as the decoder raises nothing but [JSONDecodeError]
    on the output and on what follows any place of it, the endpoint raises
    nothing, runs that one command and answers HTTP 200 exactly when the
    exit code is 0; then "raw" is the decoded output when there is one
    that is not null, and the text of the output when it decodes to null or
    nothing of it decodes, and every entry of "services" has an "id" and a "name" of which
    one at least is not null. Another exception of the decoder on the output
    is not handled: the endpoint raises. *)
Theorem list_services_takes_any_shape world t code out :
  world t (Argv all_services_cmd) = Exited code out ->
  ((forall n, json_loads (PyStr.drop n out) <> OtherError) ->
   exists resp,
     list_services world t = (Ret resp, [Argv all_services_cmd]) /\
     (snd resp = 200%Z <-> code = 0%Z) /\
     (code = 0%Z ->
      (forall v, json_loads out = Decoded v -> v <> JNull -> field resp "raw" = v) /\
      (json_loads out = Decoded JNull -> field resp "raw" = JStr out) /\
      ((forall n, json_loads (PyStr.drop n out) = JSONDecodeError) ->
       field resp "raw" = JStr out) /\
      exists entries,
        field resp "services" = JArr entries /\
        forall e, In e entries -> identified e)) /\
  (code = 0%Z -> json_loads out = OtherError ->
   list_services world t = (Exn, [Argv all_services_cmd])).
Proof.
  intro W. unfold list_services. rewrite W. split.
  - intro H. destruct (Z.eqb code 0) eqn:E0; cbn [negb].
    + apply Z.eqb_eq in E0. subst code.
      destruct (parse_json_returns out H) as (p & EP & HV & HN). rewrite EP.
      eexists. split; [reflexivity|]. split; [now split|]. intros _.
      cbn [field fst Py.get Py.lookup String.eqb Ascii.eqb Bool.eqb].
      split; [|split; [|split]].
      * intros v Hv Hne. rewrite (HV v Hv). now destruct v.
      * intro Hv. now rewrite (HV JNull Hv).
      * intro HA. now rewrite (HN HA).
      * eexists. split; [reflexivity|]. apply services_of_parsed_identified.
    + apply Z.eqb_neq in E0. eexists. split; [reflexivity|].
      split; [split; [discriminate | contradiction] | contradiction].
  - intros -> E. cbn [Z.eqb negb]. unfold parse_json. now rewrite E.
Qed.

Lemma contains_char_cons c a s :
  PyStr.contains (String c "") (String a s) =
  (Ascii.eqb a c || PyStr.contains (String c "") s)%bool.
Proof.
  cbn [PyStr.contains PyStr.startswith].
  rewrite (eqb_sym c a). destruct (Ascii.eqb a c); cbn; [reflexivity|].
  now destruct s.
Qed.

Lemma find_char_app c a r :
  PyStr.contains (String c "") a = false ->
  PyStr.find_char c (a ++ r) =
  option_map (fun n => String.length a + n) (PyStr.find_char c r).
Proof.
  induction a as [|x a IH]; intro H.
  - cbn. destruct (PyStr.find_char c r); reflexivity.
  - rewrite contains_char_cons in H. apply orb_false_iff in H. destruct H as [Hx Ha].
    cbn [append PyStr.find_char]. rewrite Hx, (IH Ha).
    destruct (PyStr.find_char c r); reflexivity.
Qed.

Lemma drop_app a r : PyStr.drop (String.length a) (a ++ r) = r.
Proof. induction a as [|x a IH]; [now destruct r | exact IH]. Qed.

Lemma take_app a r : PyStr.take (String.length a) (a ++ r) = a.
Proof. induction a as [|x a IH]; cbn; [reflexivity | now rewrite IH]. Qed.

Lemma find_char_head c r : PyStr.find_char c (String c r) = Some 0.
Proof. cbn. now rewrite Ascii.eqb_refl. Qed.

(** X17. Text printed before a JSON document does not hide it: when the
    decoder raises [JSONDecodeError] on the output as a whole, and what
    comes before the document holds neither brace nor bracket, [parse_json]
    decodes the document: it gives the value the document stands for, [None]
    when the decoder raises [JSONDecodeError] on the document too, and it
    raises when the decoder raises anything else on it. *)
Theorem parse_json_skips_prefix prefix c doc :
  PyStr.contains "{" prefix = false ->
  PyStr.contains "[" prefix = false ->
  c = "{"%char \/ c = "["%char ->
  json_loads (prefix ++ String c doc) = JSONDecodeError ->
  parse_json (prefix ++ String c doc) =
  match json_loads (String c doc) with
  | Decoded v => Ret v
  | JSONDecodeError => Ret JNull
  | OtherError => Exn
  end.
Proof.
  intros H1 H2 Hc HL. unfold parse_json. rewrite HL.
  rewrite (find_char_app _ _ _ H1), (find_char_app _ _ _ H2).
  assert (E : exists o,
             (match option_map (fun n => String.length prefix + n)
                      (PyStr.find_char "{" (String c doc)),
                    option_map (fun n => String.length prefix + n)
                      (PyStr.find_char "[" (String c doc)) with
              | None, None => None
              | Some i, None => Some i
              | None, Some j => Some j
              | Some i, Some j => Some (Nat.min i j)
              end) = Some (String.length prefix + o) /\ o = 0).
  { destruct Hc as [-> | ->].
    - rewrite find_char_head. cbn [option_map].
      destruct (option_map _ (PyStr.find_char "[" _)) as [j|] eqn:EJ.
      + exists 0. split; [|reflexivity].
        destruct (PyStr.find_char "[" (String "{" doc)) as [j'|]; [|discriminate].
        cbn in EJ. inversion EJ. f_equal. lia.
      + now exists 0.
    - rewrite find_char_head. cbn [option_map].
      destruct (option_map _ (PyStr.find_char "{" _)) as [i|] eqn:EI.
      + exists 0. split; [|reflexivity].
        destruct (PyStr.find_char "{" (String "[" doc)) as [i'|]; [|discriminate].
        cbn in EI. inversion EI. f_equal. lia.
      + now exists 0. }
  destruct E as (o & -> & ->). rewrite Nat.add_0_r, drop_app. reflexivity.
Qed.

Lemma strip_fixed_inv s : PyStr.strip s = s -> head_ok s = true /\ PyStr.rstrip s = s.
Proof.
  intro H. split.
  - rewrite <- H. apply head_ok_strip.
  - rewrite <- H at 1. unfold PyStr.strip. rewrite rstrip_idem. exact H.
Qed.

Lemma span_app p a r :
  PyStr.all_chars p a = true ->
  match r with String c _ => p c = false | EmptyString => True end ->
  PyStr.span p (a ++ r) = (a, r).
Proof.
  intros Ha Hr. induction a as [|x a IH].
  - destruct r as [|c r]; cbn; [reflexivity | now rewrite Hr].
  - cbn in Ha |- *. apply andb_true_iff in Ha. destruct Ha as [Hx Ha].
    now rewrite Hx, (IH Ha).
Qed.

Lemma digit_not_space c : PyStr.isdecimal_char c = true -> PyStr.isspace c = false.
Proof.
  destruct c as [b0 b1 b2 b3 b4 b5 b6 b7].
  destruct b0, b1, b2, b3, b4, b5, b6, b7; vm_compute; congruence.
Qed.

Lemma rfind_char_last c a : PyStr.rfind_char c (a ++ String c "") = Some (String.length a).
Proof.
  induction a as [|x a IH]; cbn.
  - now rewrite Ascii.eqb_refl.
  - now rewrite IH.
Qed.

Lemma all_chars_head p s :
  s <> "" -> PyStr.all_chars p s = true ->
  exists c r, s = String c r /\ p c = true.
Proof.
  destruct s as [|c r]; [contradiction|]. cbn. intros _ H.
  apply andb_true_iff in H. now exists c, r.
Qed.

Lemma span_head_false p c r : p c = false -> PyStr.span p (String c r) = ("", String c r).
Proof. intro H. cbn. now rewrite H. Qed.

Lemma drop_app_cons a c r : PyStr.drop (S (String.length a)) (a ++ String c r) = r.
Proof. induction a as [|x a IH]; [now destruct r | exact IH]. Qed.

Lemma strip_lead a x :
  PyStr.all_chars PyStr.isspace a = true ->
  head_ok x = true -> PyStr.rstrip x = x ->
  PyStr.strip (a ++ x) = x.
Proof.
  intros Ha Hx Hr. rewrite <- (sapp_nil_r x) at 1. now apply strip_core.
Qed.

(** The text of a catalogue line: a dash, the name, a colon, the id and the
    description between parentheses. *)
Definition catalogue_line (name sid desc : string) : string :=
  "- " ++ name ++ ": " ++ sid ++ " (" ++ desc ++ ")".

Lemma catalogue_line_matches name sid desc :
  name <> "" -> PyStr.strip name = name -> PyStr.contains ":" name = false ->
  sid <> "" -> PyStr.all_chars PyStr.isdecimal_char sid = true ->
  PyStr.contains (String "010" "") desc = false ->
  PyStr.match_service_line (catalogue_line name sid desc) = Some (name, sid, desc).
Proof.
  intros Hn Hsn Hcn Hs Hds Hd.
  destruct (strip_fixed_inv _ Hsn) as [Hh Hr].
  destruct (all_chars_head _ _ Hs Hds) as (d0 & ds & Es & Hd0).
  unfold catalogue_line, PyStr.match_service_line.
  change ("- " ++ name ++ ": " ++ sid ++ " (" ++ desc ++ ")")%string
    with (String "-" ((" " ++ name) ++ String ":" (" " ++ sid ++ " (" ++ desc ++ ")")))%string.
  rewrite span_head_false by reflexivity. cbv beta iota.
  rewrite find_char_app.
  2:{ change (" " ++ name)%string with (String " " name).
      rewrite contains_char_cons. exact Hcn. }
  rewrite find_char_head. cbn [option_map]. rewrite Nat.add_0_r.
  rewrite take_app, drop_app_cons.
  change (PyStr.is_empty (" " ++ name)) with false. cbv beta iota.
  rewrite (span_app PyStr.isspace " " (sid ++ " (" ++ desc ++ ")")).
  2:{ reflexivity. }
  2:{ rewrite Es. cbn [append]. now apply digit_not_space. }
  rewrite (span_app PyStr.isdecimal_char sid (" (" ++ desc ++ ")")).
  2:{ exact Hds. }
  2:{ reflexivity. }
  replace (PyStr.is_empty sid) with false by (rewrite Es; reflexivity).
  change (" (" ++ desc ++ ")")%string with (" " ++ ("(" ++ desc ++ ")"))%string.
  rewrite (span_app PyStr.isspace " " ("(" ++ desc ++ ")")).
  2:{ reflexivity. }
  2:{ reflexivity. }
  cbv beta iota. change ("(" ++ desc ++ ")")%string with (String "(" (desc ++ ")")%string).
  cbv beta iota.
  rewrite rfind_char_last, drop_app_cons, take_app, Hd.
  cbn [PyStr.all_chars andb negb].
  rewrite strip_lead by (try reflexivity; assumption).
  destruct name as [|n0 name']; [contradiction|]. reflexivity.
Qed.

Lemma all_chars_impl (p q : ascii -> bool) s :
  (forall c, p c = true -> q c = true) ->
  PyStr.all_chars p s = true -> PyStr.all_chars q s = true.
Proof.
  intro Hpq. induction s as [|c s IH]; cbn; [reflexivity|].
  intro H. apply andb_true_iff in H. destruct H as [Hc Hs].
  now rewrite (Hpq c Hc), (IH Hs).
Qed.

Lemma strip_digits s :
  PyStr.all_chars PyStr.isdecimal_char s = true -> PyStr.strip s = s.
Proof.
  intro H. apply strip_no_space.
  apply all_chars_impl with PyStr.isdecimal_char; [|exact H].
  intros c Hc. now rewrite (digit_not_space c Hc).
Qed.

(** A name, an id and a description that a catalogue line can carry: the
    name is not empty, has no colon and no white space at its ends, the id
    is made of decimal digits, the description has no line feed and no
    white space at its ends. *)
Definition line_item (it : string * string * string) : Prop :=
  let '(name, sid, desc) := it in
  name <> "" /\ PyStr.strip name = name /\ PyStr.contains ":" name = false /\
  sid <> "" /\ PyStr.all_chars PyStr.isdecimal_char sid = true /\
  PyStr.strip desc = desc /\ PyStr.contains (String "010" "") desc = false.

Definition line_of (it : string * string * string) : string :=
  let '(name, sid, desc) := it in catalogue_line name sid desc.

Definition entry_of (it : string * string * string) : json :=
  let '(name, sid, desc) := it in
  JObj [("id", JStr sid); ("name", JStr name); ("description", JStr desc)].

(** X18. The text form of the catalogue is read back in full: from lines
    written as a dash, a name, a colon, an id and a description between
    parentheses, the fallback of [list_services] builds one entry for each
    line, in order, with that id, that name and that description. *)
Theorem catalogue_lines_are_read_back items :
  Forall line_item items ->
  text_entries (map line_of items) = map entry_of items.
Proof.
  induction 1 as [|[[name sid] desc] items Hit _ IH]; [reflexivity|].
  destruct Hit as (Hn & Hsn & Hcn & Hs & Hds & Hsd & Hd).
  cbn [map text_entries line_of entry_of].
  rewrite (catalogue_line_matches _ _ _ Hn Hsn Hcn Hs Hds Hd).
  rewrite IH, Hsn, Hsd, (strip_digits _ Hds). reflexivity.
Qed.

(** ** The environment file *)

Lemma all_chars_app p a b :
  PyStr.all_chars p (a ++ b) = (PyStr.all_chars p a && PyStr.all_chars p b)%bool.
Proof.
  induction a as [|c a IH]; cbn; [reflexivity|]. now rewrite IH, andb_assoc.
Qed.

(** A string without line feed and without carriage return. *)
Definition no_newline (s : string) : bool :=
  PyStr.all_chars (fun c => negb (Ascii.eqb c "010" || Ascii.eqb c "013")) s.

Lemma file_lines_from_line body : forall cur rest,
  no_newline body = true ->
  PyStr.file_lines_from false cur (body ++ String "010" rest) =
  (cur ++ body ++ String "010" "")%string :: PyStr.file_lines_from false "" rest.
Proof.
  induction body as [|c body IH]; intros cur rest H.
  - reflexivity.
  - unfold no_newline in H. cbn [PyStr.all_chars] in H.
    apply andb_true_iff in H. destruct H as [Hc Hb].
    apply negb_true_iff in Hc.
    cbn [append PyStr.file_lines_from andb]. rewrite Hc.
    rewrite (IH _ _ Hb). now rewrite sapp_assoc.
Qed.

Lemma concat_cons x xs : String.concat "" (x :: xs) = (x ++ String.concat "" xs)%string.
Proof. destruct xs; cbn; [now rewrite sapp_nil_r | reflexivity]. Qed.

(** The line written for one variable (line 1044). *)
Definition env_line (kv : string * json) : string :=
  fst kv ++ "=" ++ PyStr.shlex_quote (py_str (snd kv)) ++ String "010" "".

Lemma env_text_lines d : env_text d = String.concat "" (map env_line d).
Proof. reflexivity. Qed.

Lemma file_lines_env_text d :
  (forall kv, In kv d ->
     no_newline (fst kv) = true /\
     no_newline (PyStr.shlex_quote (py_str (snd kv))) = true) ->
  PyStr.file_lines (env_text d) = map env_line d.
Proof.
  rewrite env_text_lines. unfold PyStr.file_lines.
  induction d as [|kv d IH]; intro H; [reflexivity|].
  cbn [map]. rewrite concat_cons.
  destruct (H kv (or_introl eq_refl)) as [Hk Hq].
  unfold env_line at 1.
  replace ((fst kv ++ "=" ++ PyStr.shlex_quote (py_str (snd kv)) ++ String "010" "")
             ++ String.concat "" (map env_line d))%string
    with ((fst kv ++ "=" ++ PyStr.shlex_quote (py_str (snd kv)))
            ++ String "010" (String.concat "" (map env_line d)))%string.
  2:{ rewrite !sapp_assoc. reflexivity. }
  rewrite file_lines_from_line.
  - rewrite IH by (intros kv' Hin; apply H; now right).
    cbn [append]. unfold env_line at 2. now rewrite !sapp_assoc.
  - unfold no_newline in *. rewrite !all_chars_app, Hk, Hq. reflexivity.
Qed.

(** *** Replacing a character *)

Lemma replace_char_cons c new a r :
  PyStr.replace (String c "") new (String a r) =
  if Ascii.eqb c a then (new ++ PyStr.replace (String c "") new r)%string
  else String a (PyStr.replace (String c "") new r).
Proof.
  unfold PyStr.replace. cbn [PyStr.replace_from PyStr.startswith String.length pred].
  destruct (Ascii.eqb c a); reflexivity.
Qed.

Lemma all_chars_replace p c new s :
  PyStr.all_chars p new = true -> PyStr.all_chars p s = true ->
  PyStr.all_chars p (PyStr.replace (String c "") new s) = true.
Proof.
  intro Hn. induction s as [|a s IH]; [reflexivity|].
  cbn [PyStr.all_chars]. intro H. apply andb_true_iff in H. destruct H as [Ha Hs].
  rewrite replace_char_cons. destruct (Ascii.eqb c a).
  - now rewrite all_chars_app, Hn, (IH Hs).
  - cbn [PyStr.all_chars]. now rewrite Ha, (IH Hs).
Qed.

Lemma replace_absent c new s :
  PyStr.contains (String c "") s = false -> PyStr.replace (String c "") new s = s.
Proof.
  induction s as [|a s IH]; [reflexivity|].
  rewrite contains_char_cons. intro H. apply orb_false_iff in H. destruct H as [Ha Hs].
  rewrite replace_char_cons, (eqb_sym c a), Ha, (IH Hs). reflexivity.
Qed.

Lemma replace_length c new s :
  1 <= String.length new ->
  String.length s <= String.length (PyStr.replace (String c "") new s).
Proof.
  intro Hn. induction s as [|a s IH]; [reflexivity|].
  rewrite replace_char_cons. destruct (Ascii.eqb c a).
  - rewrite slength_app. cbn [String.length]. lia.
  - cbn [String.length]. lia.
Qed.

Lemma replace_longer c new s :
  2 <= String.length new ->
  PyStr.contains (String c "") s = true ->
  String.length s < String.length (PyStr.replace (String c "") new s).
Proof.
  intro Hn. induction s as [|a s IH]; [discriminate|].
  rewrite contains_char_cons, replace_char_cons, (eqb_sym c a).
  destruct (Ascii.eqb a c); cbn [orb].
  - intros _. rewrite slength_app. cbn [String.length].
    pose proof (replace_length c new s). lia.
  - intro H. cbn [String.length]. specialize (IH H). lia.
Qed.

(** *** Quoting for the shell *)

(** The sequence that stands for a single quote inside single quotes. *)
Definition quoted_quote : string :=
  (PyStr.squote ++ PyStr.dquote ++ PyStr.squote ++ PyStr.dquote ++ PyStr.squote)%string.

Lemma safe_char c :
  PyStr.is_shell_safe c = true ->
  PyStr.isspace c = false /\ Ascii.eqb c "'" = false /\ Ascii.eqb c "034" = false.
Proof.
  destruct c as [b0 b1 b2 b3 b4 b5 b6 b7].
  destruct b0, b1, b2, b3, b4, b5, b6, b7; vm_compute; intro H;
    repeat split; congruence.
Qed.

Lemma drop_last_app a c : PyStr.drop_last (a ++ String c "") = a.
Proof.
  induction a as [|x a IH]; [reflexivity|].
  cbn [append PyStr.drop_last]. rewrite IH.
  destruct (a ++ String c "")%string eqn:E; [|reflexivity].
  destruct a; discriminate.
Qed.

Lemma endswith_last a c : PyStr.endswith (String c "") (a ++ String c "") = true.
Proof.
  unfold PyStr.endswith. rewrite slength_app. cbn [String.length].
  replace (String.length a + 1 - 1) with (String.length a) by lia.
  rewrite drop_app. apply String.eqb_refl.
Qed.

(** What comes back for a value that was written quoted: the value itself,
    or the value with each single quote replaced by the sequence that stood
    for it. *)
Definition reread (v : string) : string :=
  if (PyStr.is_empty v || PyStr.all_chars PyStr.is_shell_safe v)%bool then v
  else PyStr.replace PyStr.squote quoted_quote v.

Lemma unquote_shlex_quote v : unquote_value (PyStr.shlex_quote v) = reread v.
Proof.
  unfold PyStr.shlex_quote, reread.
  destruct v as [|c v]; [reflexivity|]. cbn [PyStr.is_empty orb].
  destruct (PyStr.all_chars PyStr.is_shell_safe (String c v)) eqn:ES.
  - cbn [PyStr.all_chars] in ES. apply andb_true_iff in ES. destruct ES as [Hc _].
    destruct (safe_char c Hc) as (_ & H1 & H2).
    unfold unquote_value. cbn [PyStr.startswith PyStr.squote PyStr.dquote].
    rewrite (eqb_sym "'" c), H1, (eqb_sym "034" c), H2. reflexivity.
  - fold quoted_quote. set (R := PyStr.replace PyStr.squote quoted_quote (String c v)).
    unfold unquote_value.
    replace (PyStr.endswith PyStr.squote (PyStr.squote ++ R ++ PyStr.squote))
      with true.
    2:{ symmetry. rewrite <- sapp_assoc. apply endswith_last. }
    change (PyStr.startswith PyStr.squote (PyStr.squote ++ R ++ PyStr.squote)) with true.
    cbn [andb orb]. unfold PyStr.inner. cbn [PyStr.squote append PyStr.drop].
    apply drop_last_app.
Qed.

Lemma shlex_quote_tight v :
  PyStr.strip (PyStr.shlex_quote v) = PyStr.shlex_quote v /\ PyStr.shlex_quote v <> "".
Proof.
  unfold PyStr.shlex_quote.
  destruct v as [|c v]; [split; [reflexivity | discriminate]|]. cbn [PyStr.is_empty].
  destruct (PyStr.all_chars PyStr.is_shell_safe (String c v)) eqn:ES.
  - split; [|discriminate]. apply strip_no_space.
    apply all_chars_impl with PyStr.is_shell_safe; [|exact ES].
    intros x Hx. destruct (safe_char x Hx) as (-> & _). reflexivity.
  - set (R := PyStr.replace _ _ _). split; [|discriminate].
    apply strip_fixed; [reflexivity|].
    rewrite <- sapp_assoc. apply rstrip_app_tight; [reflexivity | discriminate].
Qed.

Lemma shlex_quote_no_newline v :
  no_newline v = true -> no_newline (PyStr.shlex_quote v) = true.
Proof.
  intro H. unfold PyStr.shlex_quote.
  destruct (PyStr.is_empty v); [reflexivity|].
  destruct (PyStr.all_chars PyStr.is_shell_safe v); [exact H|].
  unfold no_newline, PyStr.squote. rewrite !all_chars_app.
  rewrite all_chars_replace; [reflexivity | reflexivity | exact H].
Qed.

(** *** Reading a line back *)

(** A key that a line of the file can carry: no white space at its ends, no
    equals sign, no hash sign in front, no line break. *)
Definition clean_key (k : string) : Prop :=
  PyStr.strip k = k /\ PyStr.contains "=" k = false /\
  PyStr.startswith "#" k = false /\ no_newline k = true.

Lemma contains_char_hit c a r : PyStr.contains (String c "") (a ++ String c r) = true.
Proof.
  induction a as [|x a IH].
  - cbn [append]. rewrite contains_char_cons, Ascii.eqb_refl. reflexivity.
  - cbn [append]. rewrite contains_char_cons, IH. apply orb_true_r.
Qed.

Lemma contains_char_none c s :
  PyStr.contains (String c "") s = false ->
  PyStr.all_chars (fun x => negb (Ascii.eqb x c)) s = true.
Proof.
  induction s as [|a s IH]; [reflexivity|].
  rewrite contains_char_cons. intro H. apply orb_false_iff in H. destruct H as [Ha Hs].
  cbn [PyStr.all_chars]. now rewrite Ha, (IH Hs).
Qed.

Lemma env_entry_line data k q :
  clean_key k -> PyStr.strip q = q -> q <> "" ->
  env_entry data (k ++ "=" ++ q ++ String "010" "") = Py.set data k (JStr (unquote_value q)).
Proof.
  intros (Hk & Heq & Hhash & _) Hq Hne.
  destruct (strip_fixed_inv _ Hk) as [Hkh Hkr].
  destruct (strip_fixed_inv _ Hq) as [Hqh Hqr].
  set (X := (k ++ "=" ++ q)%string).
  assert (EX : PyStr.strip (k ++ "=" ++ q ++ String "010" "") = X).
  { replace (k ++ "=" ++ q ++ String "010" "")%string
      with ("" ++ X ++ String "010" "")%string
      by (unfold X; cbn [append]; now rewrite !sapp_assoc).
    apply strip_core; try reflexivity.
    - unfold X. destruct k as [|a k]; [reflexivity | exact Hkh].
    - unfold X. replace (k ++ "=" ++ q)%string with ((k ++ "=") ++ q)%string
        by now rewrite sapp_assoc.
      now apply rstrip_app_tight. }
  unfold env_entry. rewrite EX.
  assert (E1 : PyStr.is_empty X = false) by (unfold X; now destruct k).
  assert (E2 : PyStr.startswith "#" X = false).
  { unfold X. destruct k as [|a k]; [reflexivity|]. exact Hhash. }
  assert (E3 : PyStr.contains "=" X = true) by apply contains_char_hit.
  rewrite E1, E2, E3. cbn [orb negb].
  unfold PyStr.split_once, X. change ("=" ++ q)%string with (String "=" q).
  rewrite span_app; [| now apply contains_char_none | reflexivity].
  cbn [PyStr.drop]. now rewrite Hq, Hk.
Qed.

(** *** Writing and reading the whole file *)

Lemma lookup_app_none d k v :
  Py.lookup d k = None -> Py.set d k v = d ++ [(k, v)].
Proof.
  induction d as [|[k' v'] d IH]; cbn; [reflexivity|].
  destruct (String.eqb k' k); [discriminate|]. intro H. now rewrite IH.
Qed.

Lemma lookup_app d e k :
  Py.lookup (d ++ e) k = match Py.lookup d k with Some v => Some v | None => Py.lookup e k end.
Proof.
  induction d as [|[k' v'] d IH]; cbn; [reflexivity|].
  now destruct (String.eqb k' k).
Qed.

Lemma fold_set_fresh (f : json -> json) d : forall acc,
  NoDup (map fst d) ->
  (forall k, In k (map fst d) -> Py.lookup acc k = None) ->
  fold_left (fun a kv => Py.set a (fst kv) (f (snd kv))) d acc =
  acc ++ map (fun kv => (fst kv, f (snd kv))) d.
Proof.
  induction d as [|[k v] d IH]; intros acc Hnd Hfresh; cbn [fold_left map fst snd].
  - now rewrite app_nil_r.
  - inversion Hnd as [|? ? Hk Hnd']; subst.
    rewrite lookup_app_none by (apply Hfresh; now left).
    rewrite IH; [now rewrite <- app_assoc | exact Hnd'|].
    intros k' Hin. rewrite lookup_app, Hfresh by now right.
    cbn. destruct (String.eqb k k') eqn:E; [|reflexivity].
    apply String.eqb_eq in E. subst k'. contradiction.
Qed.

Lemma fold_left_ext_in {A B} (f g : A -> B -> A) l : forall a,
  (forall a b, In b l -> f a b = g a b) -> fold_left f l a = fold_left g l a.
Proof.
  induction l as [|b l IH]; intros a H; [reflexivity|].
  cbn. rewrite H by now left. apply IH. intros a' b' Hin. apply H. now right.
Qed.

Lemma fold_left_over_map {A B C} (f : A -> B -> A) (g : C -> B) l : forall a,
  fold_left f (map g l) a = fold_left (fun a x => f a (g x)) l a.
Proof. induction l as [|x l IH]; intro a; [reflexivity | apply IH]. Qed.

(** The file written for a set of variables, read back. *)
Lemma env_round_trip d :
  NoDup (map fst d) ->
  (forall kv, In kv d -> clean_key (fst kv) /\ no_newline (py_str (snd kv)) = true) ->
  env_of_text (env_text d) = map (fun kv => (fst kv, JStr (reread (py_str (snd kv))))) d.
Proof.
  intros Hnd H. unfold env_of_text.
  rewrite file_lines_env_text.
  2:{ intros kv Hin. destruct (H kv Hin) as ((_ & _ & _ & Hk) & Hv).
      split; [exact Hk | now apply shlex_quote_no_newline]. }
  rewrite fold_left_over_map.
  rewrite (fold_left_ext_in _
             (fun a kv => Py.set a (fst kv) ((fun v => JStr (reread (py_str v))) (snd kv)))).
  - exact (fold_set_fresh (fun v => JStr (reread (py_str v))) d [] Hnd
             (fun _ _ => eq_refl)).
  - intros a kv Hin. destruct (H kv Hin) as (Hk & _).
    destruct (shlex_quote_tight (py_str (snd kv))) as [Ht Hne].
    unfold env_line. rewrite (env_entry_line _ _ _ Hk Ht Hne).
    now rewrite unquote_shlex_quote.
Qed.

Lemma safe_no_quote v :
  PyStr.all_chars PyStr.is_shell_safe v = true -> PyStr.contains "'" v = false.
Proof.
  induction v as [|c v IH]; [reflexivity|]. cbn [PyStr.all_chars]. intro H.
  apply andb_true_iff in H. destruct H as [Hc Hv].
  rewrite contains_char_cons, (IH Hv).
  destruct (safe_char c Hc) as (_ & -> & _). reflexivity.
Qed.

Lemma reread_plain v : PyStr.contains "'" v = false -> reread v = v.
Proof.
  intro H. unfold reread.
  destruct (PyStr.is_empty v || PyStr.all_chars PyStr.is_shell_safe v)%bool;
    [reflexivity|].
  now apply replace_absent.
Qed.

Lemma reread_quoted v :
  PyStr.contains "'" v = true -> reread v = PyStr.replace "'" quoted_quote v.
Proof.
  intro H. unfold reread.
  destruct v as [|c v]; [discriminate|]. cbn [PyStr.is_empty orb].
  destruct (PyStr.all_chars PyStr.is_shell_safe (String c v)) eqn:ES; [|reflexivity].
  rewrite (safe_no_quote _ ES) in H. discriminate.
Qed.

(** X19. What [update_sentinel_config] writes to the environment file is
    what [_load_env_file] reads from it, as long as the keys are distinct,
    have no white space at their ends, no equals sign, no hash sign in front
    and no line break, and the values, as text, have no line break and no
    single quote: every variable comes back with its value, in the same
    order. *)
Theorem written_env_file_is_read_back look path d :
  path <> "" ->
  look path = Text (env_text d) ->
  NoDup (map fst d) ->
  (forall kv, In kv d ->
     clean_key (fst kv) /\ no_newline (py_str (snd kv)) = true /\
     PyStr.contains "'" (py_str (snd kv)) = false) ->
  _load_env_file look path
    = Ret (map (fun kv => (fst kv, JStr (py_str (snd kv)))) d).
Proof.
  intros Hp Hl Hnd H. unfold _load_env_file.
  destruct path as [|c path]; [contradiction|]. cbn [PyStr.is_empty]. rewrite Hl.
  rewrite env_round_trip; [|exact Hnd|].
  - f_equal. apply map_ext_in. intros kv Hin. destruct (H kv Hin) as (_ & _ & Hq).
    now rewrite reread_plain.
  - intros kv Hin. destruct (H kv Hin) as (Hk & Hv & _). now split.
Qed.

(** X20. A value with a single quote does not survive the file: what is
    read back for it is the value with each single quote replaced by the
    five characters that stood for it between the quotes, a longer
    string. *)
Theorem single_quote_is_not_read_back look path k v :
  path <> "" ->
  look path = Text (env_text [(k, JStr v)]) ->
  clean_key k -> no_newline v = true ->
  PyStr.contains "'" v = true ->
  _load_env_file look path = Ret [(k, JStr (PyStr.replace "'" quoted_quote v))] /\
  String.length v < String.length (PyStr.replace "'" quoted_quote v).
Proof.
  intros Hp Hl Hk Hv Hq. split.
  - unfold _load_env_file.
    destruct path as [|c path]; [contradiction|]. cbn [PyStr.is_empty]. rewrite Hl.
    rewrite env_round_trip.
    + cbn [map fst snd py_str]. now rewrite reread_quoted.
    + cbn. constructor; [intros [] | constructor].
    + intros kv [<- | []]. now split.
  - apply replace_longer; [cbn; lia | exact Hq].
Qed.

(** *** Updating the variables *)

Lemma lookup_set d k v k' :
  Py.lookup (Py.set d k v) k' = if String.eqb k k' then Some v else Py.lookup d k'.
Proof.
  induction d as [|[k0 v0] d IH]; cbn [Py.set Py.lookup]; [reflexivity|].
  destruct (String.eqb k0 k) eqn:E0; cbn [Py.lookup].
  - apply String.eqb_eq in E0. subst k0. now destruct (String.eqb k k').
  - rewrite IH. destruct (String.eqb k0 k') eqn:E1; [|reflexivity].
    apply String.eqb_eq in E1. subst k'. rewrite String.eqb_sym, E0. reflexivity.
Qed.

Lemma lookup_set_env e key value k :
  Py.lookup (_set_env e key value) k =
  if Py.is_none value then Py.lookup e k
  else if String.eqb key k then Some value else Py.lookup e k.
Proof.
  unfold _set_env. destruct (Py.is_none value); [reflexivity | apply lookup_set].
Qed.

(** The variables the update can write, each with the field of the request
    it is read from. *)
Definition managed : list (string * string) :=
  [("MONIKER", "moniker"); ("WEBSITE", "website"); ("DESCRIPTION", "description");
   ("LOCATION", "location"); ("FREE_RATE_LIMIT", "free_rate_limit");
   ("FREE_RATE_LIMIT_DURATION", "free_rate_limit_duration")].

Lemma truthy_not_none v : Py.truthy v = true -> Py.is_none v = false.
Proof. now destruct v. Qed.

(** X21. The update of the environment variables is local: no variable of
    the file is ever removed; a variable that is not one of the eight the
    update manages keeps its value; a managed variable keeps its value when
    its field is absent from the request or null, and takes the value of
    the field otherwise, the empty string included; and a hub URI that is
    true is written to both PROVIDER_HUB_URI and ARKEO_REST_API_PORT, while
    one that is not leaves both alone. *)
Theorem env_update_is_local payload e :
  (forall k, Py.lookup e k <> None -> Py.lookup (updated_env payload e) k <> None) /\
  (forall k, ~ In k (map fst managed) ->
             k <> "PROVIDER_HUB_URI" -> k <> "ARKEO_REST_API_PORT" ->
             Py.lookup (updated_env payload e) k = Py.lookup e k) /\
  (forall key field, In (key, field) managed ->
     Py.lookup (updated_env payload e) key =
     if Py.is_none (Py.get payload field) then Py.lookup e key
     else Some (Py.get payload field)) /\
  (forall key, key = "PROVIDER_HUB_URI" \/ key = "ARKEO_REST_API_PORT" ->
     Py.lookup (updated_env payload e) key =
     if Py.truthy (Py.get payload "provider_hub_uri")
     then Some (Py.get payload "provider_hub_uri")
     else Py.lookup e key).
Proof.
  assert (L : forall k,
    Py.lookup (updated_env payload e) k =
    let base :=
      if (negb (Py.is_none (Py.get payload "free_rate_limit_duration"))
          && String.eqb "FREE_RATE_LIMIT_DURATION" k)%bool
      then Some (Py.get payload "free_rate_limit_duration")
      else if (negb (Py.is_none (Py.get payload "free_rate_limit"))
               && String.eqb "FREE_RATE_LIMIT" k)%bool
      then Some (Py.get payload "free_rate_limit")
      else if (negb (Py.is_none (Py.get payload "location"))
               && String.eqb "LOCATION" k)%bool
      then Some (Py.get payload "location")
      else if (negb (Py.is_none (Py.get payload "description"))
               && String.eqb "DESCRIPTION" k)%bool
      then Some (Py.get payload "description")
      else if (negb (Py.is_none (Py.get payload "website"))
               && String.eqb "WEBSITE" k)%bool
      then Some (Py.get payload "website")
      else if (negb (Py.is_none (Py.get payload "moniker"))
               && String.eqb "MONIKER" k)%bool
      then Some (Py.get payload "moniker")
      else Py.lookup e k in
    if Py.truthy (Py.get payload "provider_hub_uri") then
      if (String.eqb "ARKEO_REST_API_PORT" k || String.eqb "PROVIDER_HUB_URI" k)%bool
      then Some (Py.get payload "provider_hub_uri") else base
    else base).
  { intro k. unfold updated_env. cbv zeta.
    destruct (Py.truthy (Py.get payload "provider_hub_uri")) eqn:ET.
    - rewrite !lookup_set_env, (truthy_not_none _ ET).
      destruct (String.eqb "ARKEO_REST_API_PORT" k); cbn [orb]; [reflexivity|].
      destruct (String.eqb "PROVIDER_HUB_URI" k); [reflexivity|].
      repeat match goal with
             | |- context [Py.is_none ?v] => destruct (Py.is_none v); cbn [negb andb]
             end; reflexivity.
    - rewrite !lookup_set_env.
      repeat match goal with
             | |- context [Py.is_none ?v] => destruct (Py.is_none v); cbn [negb andb]
             end; reflexivity. }
  repeat split.
  - intros k Hk. rewrite L. cbv zeta.
    repeat match goal with
           | |- context [if ?c then _ else _] => destruct c
           end; try discriminate; exact Hk.
  - intros k Hm H1 H2. rewrite L. cbv zeta.
    assert (E : forall s, In s (map fst managed) -> String.eqb s k = false).
    { intros s Hs. apply String.eqb_neq. intro X. subst s. contradiction. }
    rewrite (E "MONIKER"), (E "WEBSITE"), (E "DESCRIPTION"), (E "LOCATION"),
      (E "FREE_RATE_LIMIT"), (E "FREE_RATE_LIMIT_DURATION") by (cbn; auto 10).
    apply not_eq_sym, String.eqb_neq in H1. apply not_eq_sym, String.eqb_neq in H2.
    rewrite H1, H2, !andb_false_r. cbn [orb]. now destruct (Py.truthy _).
  - intros key field Hin. rewrite L. cbv zeta.
    cbn in Hin.
    repeat (destruct Hin as [Hin | Hin];
            [inversion Hin; subst key field; cbn [String.eqb Ascii.eqb Bool.eqb andb orb];
             rewrite ?andb_true_r, ?andb_false_r;
             destruct (Py.truthy _);
             repeat match goal with
                    | |- context [Py.is_none ?v] => destruct (Py.is_none v); cbn [negb andb]
                    end; reflexivity|]).
    destruct Hin.
  - intros key [-> | ->]; rewrite L; cbv zeta;
      cbn [String.eqb Ascii.eqb Bool.eqb andb orb];
      rewrite ?andb_false_r; now destruct (Py.truthy _).
Qed.

(** *** Updating the configuration *)

(** The value under a key of a mapping: [None] when the key is absent or
    the value is not a mapping. *)
Definition entry (v : json) (k : string) : option json :=
  match v with
  | JObj d => Py.lookup d k
  | _ => None
  end.

(** The provider section of a configuration. *)
Definition provider_section (config : json) : json :=
  match entry config "provider" with
  | Some p => p
  | None => JNull
  end.

Lemma set_provider_field_local config k v config' :
  set_provider_field config k v = Ret config' ->
  (forall k', k' <> "provider" -> entry config' k' = entry config k') /\
  (forall k', k' <> k ->
     entry (provider_section config') k' = entry (provider_section config) k') /\
  entry (provider_section config') k = Some v.
Proof.
  unfold set_provider_field.
  destruct config as [| | | | |c]; try discriminate.
  destruct (Py.lookup c "provider") as [[| | | | |p]|] eqn:EP; try discriminate;
    intro H; inversion H; subst config'; unfold provider_section;
    cbn [entry]; rewrite ?EP.
  - repeat split.
    + intros k' Hk. rewrite lookup_set.
      destruct (String.eqb "provider" k') eqn:E; [|reflexivity].
      apply String.eqb_eq in E. now subst k'.
    + intros k' Hk. rewrite lookup_set. cbn [String.eqb Ascii.eqb Bool.eqb andb entry].
      rewrite lookup_set. apply not_eq_sym, String.eqb_neq in Hk. now rewrite Hk.
    + rewrite lookup_set. cbn [String.eqb Ascii.eqb Bool.eqb andb entry].
      rewrite lookup_set. now rewrite String.eqb_refl.
  - repeat split.
    + intros k' Hk. rewrite lookup_set.
      destruct (String.eqb "provider" k') eqn:E; [|reflexivity].
      apply String.eqb_eq in E. now subst k'.
    + intros k' Hk. rewrite lookup_set. cbn [String.eqb Ascii.eqb Bool.eqb andb entry Py.lookup].
      apply not_eq_sym, String.eqb_neq in Hk. now rewrite Hk.
    + rewrite lookup_set. cbn [String.eqb Ascii.eqb Bool.eqb andb entry Py.lookup].
      now rewrite String.eqb_refl.
Qed.

(** X22. The update of the configuration is local: whenever it goes
    through, every top-level entry other than the provider section, the
    services among them, is what it was, and so is every entry of the
    provider section other than "pubkey" and "name"; a provider key that is
    true is written under "pubkey", and the provider name, or the moniker
    when there is no name, under "name". *)
Theorem config_update_is_local payload config config' :
  updated_config payload config = Ret config' ->
  (forall k, k <> "provider" -> entry config' k = entry config k) /\
  (forall k, k <> "pubkey" -> k <> "name" ->
     entry (provider_section config') k = entry (provider_section config) k) /\
  (Py.truthy (Py.get payload "provider_pubkey") = true ->
     entry (provider_section config') "pubkey" = Some (Py.get payload "provider_pubkey")) /\
  (Py.truthy (Py.por (Py.get payload "provider_name") (Py.get payload "moniker")) = true ->
     entry (provider_section config') "name" =
     Some (Py.por (Py.get payload "provider_name") (Py.get payload "moniker"))).
Proof.
  unfold updated_config.
  destruct (Py.truthy (Py.get payload "provider_pubkey")) eqn:EK.
  - destruct (set_provider_field config "pubkey" _) as [c1|] eqn:E1; [|discriminate].
    destruct (set_provider_field_local _ _ _ _ E1) as (A1 & B1 & C1).
    destruct (Py.truthy (Py.por _ _)) eqn:EN.
    + intro E2. destruct (set_provider_field_local _ _ _ _ E2) as (A2 & B2 & C2).
      repeat split.
      * intros k Hk. now rewrite A2, A1.
      * intros k Hk1 Hk2. now rewrite B2, B1.
      * intros _. rewrite B2 by discriminate. exact C1.
      * intros _. exact C2.
    + intro E2. inversion E2; subst config'. repeat split.
      * exact A1.
      * intros k Hk1 Hk2. now apply B1.
      * intros _. exact C1.
      * discriminate.
  - destruct (Py.truthy (Py.por _ _)) eqn:EN.
    + intro E2. destruct (set_provider_field_local _ _ _ _ E2) as (A2 & B2 & C2).
      repeat split.
      * exact A2.
      * intros k Hk1 Hk2. now apply B2.
      * discriminate.
      * intros _. exact C2.
    + intro E2. inversion E2; subst config'. repeat split; discriminate.
Qed.

(** ** Quotes around a setting *)

Lemma last_char_app a c : PyStr.last_char (a ++ String c "") = Some c.
Proof.
  induction a as [|x a IH]; [reflexivity|].
  cbn [append PyStr.last_char]. rewrite IH.
  destruct (a ++ String c "")%string eqn:E; [|reflexivity].
  destruct a; discriminate.
Qed.

(** X23. [_strip_quotes] takes one pair of quotes off a setting: a value
    written between two single quotes or two double quotes, with any white
    space around them, comes out as what is between the quotes, unchanged,
    white space and further quotes included. *)
Theorem strip_quotes_unquotes a q s b :
  PyStr.all_chars PyStr.isspace a = true ->
  PyStr.all_chars PyStr.isspace b = true ->
  q = "'"%char \/ q = "034"%char ->
  _strip_quotes (Some (a ++ String q (s ++ String q b))%string) = s.
Proof.
  intros Ha Hb Hq. unfold _strip_quotes.
  replace (PyStr.is_empty (a ++ String q (s ++ String q b))) with false
    by now destruct a.
  set (X := String q (s ++ String q "")).
  assert (EX : PyStr.strip (a ++ String q (s ++ String q b)) = X).
  { replace (a ++ String q (s ++ String q b))%string with (a ++ X ++ b)%string.
    2:{ unfold X. cbn [append]. now rewrite sapp_assoc. }
    apply strip_core; try assumption.
    - destruct Hq as [-> | ->]; reflexivity.
    - unfold X. change (String q (s ++ String q ""))%string
        with ((String q s) ++ String q "")%string.
      apply rstrip_app_tight; [|discriminate].
      destruct Hq as [-> | ->]; reflexivity. }
  rewrite EX. cbv zeta. unfold X at 1 2.
  change (String q (s ++ String q ""))%string with ((String q s) ++ String q "")%string.
  rewrite last_char_app. cbn [append]. fold X.
  rewrite Ascii.eqb_refl.
  replace (Nat.leb 2 (String.length X)) with true.
  2:{ unfold X. cbn [String.length]. rewrite slength_app. cbn. 
      destruct (String.length s); reflexivity. }
  replace (Ascii.eqb q "'" || Ascii.eqb q "034")%bool with true
    by (destruct Hq as [-> | ->]; reflexivity).
  cbn [andb]. unfold PyStr.inner, X. cbn [PyStr.drop]. apply drop_last_app.
Qed.

(** ** The sentinel process *)

Lemma is_action_spec a :
  is_action a = true <-> a = "start" \/ a = "stop" \/ a = "restart".
Proof.
  unfold is_action. rewrite !orb_true_iff, !String.eqb_eq.
  split; [intros [[H | H] | H]; auto | intros [H | [H | H]]; auto].
Qed.

(** X24. [sentinel_control] runs nothing unless the action of the request,
    in lower case, is start, stop or restart. With such an action it runs
    [supervisorctl] with the packaged configuration, the action and
    "sentinel"; the same without the configuration is run only when the
    first attempt raised; a command that exits, with whatever code, gives
    HTTP 200 with status "ok" and that exit code; HTTP 500 is answered
    only when both attempts raised. *)
Theorem control_runs_allowed_actions settings world exn_text body t r l :
  sentinel_control settings world exn_text body t = (r, l) ->
  (l = [] /\ (r = Exn \/ exists resp, r = Ret resp /\ snd resp = 400%Z)) \/
  exists payload s,
    Py.por body (JObj []) = JObj payload /\
    Py.por (Py.get payload "action") (JStr "") = JStr s /\
    let a := PyStr.lower s in
    let c1 := Argv (SUPERVISORCTL settings ++ [JStr a; JStr "sentinel"]) in
    let c2 := Argv (SUPERVISORCTL_FALLBACK ++ [JStr a; JStr "sentinel"]) in
    (a = "start" \/ a = "stop" \/ a = "restart") /\
    match world t c1 with
    | Exited code out => l = [c1] /\ r = Ret (control_done a code out)
    | Raised =>
        l = [c1; c2] /\
        match world (t ++ [c1]) c2 with
        | Exited code out => r = Ret (control_done a code out)
        | Raised => exists resp, r = Ret resp /\ snd resp = 500%Z
        end
    end.
Proof.
  unfold sentinel_control. intro H.
  destruct (Py.por body (JObj [])) as [| | | | |payload];
    try (left; inversion H; split; [reflexivity | now left]).
  destruct (Py.por (Py.get payload "action") (JStr "")) as [| | |s| |] eqn:ES;
    try (left; inversion H; split; [reflexivity | now left]).
  destruct (is_action (PyStr.lower s)) eqn:EA; cbn [negb] in H.
  2:{ left. inversion H. split; [reflexivity|]. right. eexists. now split. }
  right. exists payload, s. split; [reflexivity|]. split; [exact ES|].
  cbv zeta. split; [now apply is_action_spec|].
  destruct (world t _) as [code out|].
  - inversion H. now split.
  - destruct (world (t ++ _) _) as [code out|]; inversion H; split; try reflexivity.
    eexists. now split.
Qed.

(** X25. [sentinel_status] never raises and always answers HTTP 200 with
    three strings, whatever the commands do. Its commands are, in order:
    [supervisorctl] with the packaged configuration, "status" and
    "sentinel"; the same without the configuration, only when the first
    raised; the two reads of the last 80 lines of the log files. "status" is
    the stripped output of the status command that exited, whatever its exit
    code, or "status error: " and the text of the exception when both
    raised; "log" and "err_log" are the outputs of the two reads, whatever
    their exit codes, or "log error: " and "errlog error: " with the text of
    the exception. *)
Theorem status_always_answers settings world exn_text t r l :
  sentinel_status settings world exn_text t = (r, l) ->
  let c1 := Argv [JStr "supervisorctl"; JStr "-c"; JStr (SUPERVISOR_CONF settings);
                  JStr "status"; JStr "sentinel"] in
  let c2 := Argv [JStr "supervisorctl"; JStr "status"; JStr "sentinel"] in
  let c3 := Argv [JStr "tail"; JStr "-n"; JStr "80"; JStr "/var/log/provider-sentinel.log"] in
  let c4 := Argv [JStr "tail"; JStr "-n"; JStr "80";
                  JStr "/var/log/provider-sentinel.err.log"] in
  exists status log err e1,
    r = Ret (JObj [("status", JStr status); ("log", JStr log); ("err_log", JStr err)],
             200%Z) /\
    l = e1 ++ [c3; c4] /\
    match world t c1 with
    | Exited _ out => e1 = [c1] /\ status = PyStr.strip out
    | Raised =>
        e1 = [c1; c2] /\
        match world (t ++ [c1]) c2 with
        | Exited _ out => status = PyStr.strip out
        | Raised => status = ("status error: " ++ exn_text (t ++ [c1])%list c2)%string
        end
    end /\
    match world (t ++ e1) c3 with
    | Exited _ out => log = out
    | Raised => log = ("log error: " ++ exn_text (t ++ e1)%list c3)%string
    end /\
    match world (t ++ e1 ++ [c3]) c4 with
    | Exited _ out => err = out
    | Raised => err = ("errlog error: " ++ exn_text (t ++ e1 ++ [c3])%list c4)%string
    end.
Proof.
  unfold sentinel_status, SUPERVISORCTL, SUPERVISORCTL_FALLBACK. cbn [app]. cbv zeta.
  set (c1 := Argv [JStr "supervisorctl"; JStr "-c"; JStr (SUPERVISOR_CONF settings);
                   JStr "status"; JStr "sentinel"]).
  set (c2 := Argv [JStr "supervisorctl"; JStr "status"; JStr "sentinel"]).
  intro H.
  assert (T : forall (a : response) (g : string),
             match a with
             | Exited _ out => match a with Exited _ out' => out' | Raised => g end = out
             | Raised => match a with Exited _ out' => out' | Raised => g end = g
             end).
  { intros [code out|] g; reflexivity. }
  destruct (world t c1) as [code out|] eqn:W1.
  - inversion H; subst r l. clear H.
    eexists _, _, _, [c1]. split; [reflexivity|]. split; [reflexivity|].
    split; [split; reflexivity|].
    split; apply T.
  - destruct (world (t ++ [c1]) c2) as [code out|] eqn:W2;
      inversion H; subst r l; clear H;
      eexists _, _, _, [c1; c2]; (split; [reflexivity|]); (split; [reflexivity|]);
      (split; [split; reflexivity|]);
      split; apply T.
Qed.

(** ** The endpoints of the chain client *)

(** X26. [block_height] runs the status command and nothing else, and the
    height it answers with HTTP 200 is a string or null, never a number: the
    exit code was 0 then, the output decoded, "status" is the decoded
    document and "height" the text of the first true value among
    latest_block_height and latest_block of its sync info. Every other
    answer is an HTTP 500 that names the command. *)
Theorem height_is_text_or_null world t resp l :
  block_height world t = (Ret resp, l) ->
  l = [Argv status_cmd] /\
  ((snd resp = 200%Z /\
    exists out data,
      world t (Argv status_cmd) = Exited 0 out /\
      json_loads out = Decoded data /\
      field resp "status" = data /\
      height_of data = Ret (field resp "height") /\
      (field resp "height" = JNull \/ exists s, field resp "height" = JStr s))
   \/ (snd resp = 500%Z /\ field resp "cmd" = JArr status_cmd)).
Proof.
  unfold block_height. intro H. inversion H as [[Hr Hl]]. split; [reflexivity|].
  clear H Hl.
  destruct (world t (Argv status_cmd)) as [code out|]; [|discriminate].
  destruct (Z.eqb code 0) eqn:E0; cbn [negb] in Hr.
  2:{ inversion Hr. right. now split. }
  apply Z.eqb_eq in E0. subst code.
  destruct (json_loads out) as [data| |] eqn:EL; [| |discriminate].
  2:{ inversion Hr. right. now split. }
  destruct (height_of data) as [h|] eqn:EH; [|discriminate].
  inversion Hr. left. split; [reflexivity|].
  exists out, data. repeat split; try assumption.
  cbn. unfold height_of in EH.
  destruct data as [| | | | |d]; try discriminate.
  destruct (Py.por (Py.get d "SyncInfo") _) as [| | | | |si]; try discriminate.
  inversion EH. destruct (Py.is_none _); [now left | right; now eexists].
Qed.

(** X27. [get_balance] asks for the balance only once it has the address:
    the balance command is run exactly when the key command exits with
    code 0, and it names the stripped output of that command. When the
    balance command exits with code 0 the answer is HTTP 200 with this
    address and the decoded balance, or the output under "raw" when the
    decoder raises [JSONDecodeError]; any other exception of the decoder is
    not handled and the endpoint raises. When it exits with another code the
    answer is HTTP 500 with the address and the output. *)
Theorem balance_follows_address world t r l :
  get_balance world t = (r, l) ->
  match world t (Shell key_address_cmd) with
  | Raised => l = [Shell key_address_cmd] /\ r = Exn
  | Exited code addr_out =>
      if Z.eqb code 0 then
        let address := PyStr.strip addr_out in
        l = [Shell key_address_cmd; Shell (balance_cmd address)] /\
        match world (t ++ [Shell key_address_cmd]) (Shell (balance_cmd address)) with
        | Raised => r = Exn
        | Exited code bal_out =>
            if Z.eqb code 0 then
              match json_loads bal_out with
              | Decoded data =>
                  exists resp,
                    r = Ret resp /\ snd resp = 200%Z /\
                    field resp "address" = JStr address /\
                    field resp "balance" = data
              | JSONDecodeError =>
                  exists resp,
                    r = Ret resp /\ snd resp = 200%Z /\
                    field resp "address" = JStr address /\
                    field resp "balance" = JObj [("raw", JStr bal_out)]
              | OtherError => r = Exn
              end
            else
              exists resp,
                r = Ret resp /\ snd resp = 500%Z /\
                field resp "address" = JStr address /\
                field resp "detail" = JStr bal_out
        end
      else
        l = [Shell key_address_cmd] /\
        exists resp, r = Ret resp /\ snd resp = 500%Z
  end.
Proof.
  unfold get_balance. intro H.
  destruct (world t (Shell key_address_cmd)) as [code addr_out|].
  2:{ inversion H. now split. }
  destruct (Z.eqb code 0); cbn [negb] in H.
  2:{ inversion H. split; [reflexivity|]. eexists. now split. }
  cbv zeta. inversion H as [[Hr Hl]]. split; [reflexivity|].
  destruct (world (t ++ _) _) as [code2 bal_out|]; [|reflexivity].
  destruct (Z.eqb code2 0); cbn [negb].
  - destruct (json_loads bal_out); try reflexivity; eexists; repeat split.
  - eexists; repeat split.
Qed.

(** X28. The version [version] answers with HTTP 200 is never empty and has
    no white space at its ends: it is the stripped output of the command,
    or "unknown" when nothing but white space was printed. *)
Theorem version_is_never_empty world t resp l :
  version world t = (Ret resp, l) ->
  snd resp = 200%Z ->
  exists out v,
    world t (Shell "arkeod version") = Exited 0 out /\
    field resp "arkeod_version" = JStr v /\
    v <> "" /\ PyStr.strip v = v /\
    (PyStr.strip out <> "" -> v = PyStr.strip out) /\
    (PyStr.strip out = "" -> v = "unknown").
Proof.
  unfold version. intros H H200. inversion H as [[Hr Hl]]. clear H Hl.
  destruct (world t (Shell "arkeod version")) as [code out|]; [|discriminate].
  destruct (Z.eqb code 0) eqn:E0; cbn [negb] in Hr.
  2:{ inversion Hr; subst resp. discriminate. }
  apply Z.eqb_eq in E0. subst code. inversion Hr; subst resp.
  exists out. destruct (PyStr.strip out) as [|c s] eqn:ES; cbn [PyStr.is_empty].
  - exists "unknown". repeat split; try discriminate. intro X. contradiction.
  - exists (String c s). repeat split; try discriminate.
    rewrite <- ES. apply strip_idem.
Qed.

(** ** The description of the provider *)

Lemma provider_pubkeys_response_run u k t raw b err D :
  derive_pubkeys u k t = (Ret (raw, b, err), D) ->
  provider_pubkeys_response u k t =
  (Ret ([("user", JStr u); ("keyring_backend", JStr k); ("pubkey", pubkey_json raw b)]
        ++ match err with
           | Some e => [("pubkey_error", JStr e)]
           | None => []
           end), D).
Proof.
  intro ED. unfold provider_pubkeys_response. rewrite (bind_value _ _ _ _ _ ED).
  destruct (err_truthy err) eqn:ET.
  - destruct err as [e|]; [|discriminate]. unfold ret, after. cbn. now rewrite app_nil_r.
  - rewrite (derive_pubkeys_success _ _ _ _ _ _ _ ED ET).
    unfold ret, after. cbn. now rewrite app_nil_r.
Qed.

(** X29. [provider_info] answers even when the identity cannot be derived:
    as soon as the key commands raise nothing and the environment file,
    read after them, can be decoded, it gives HTTP 200 with the keys known
    so far under "pubkey", the defaults of the node, and the variables of
    the file; the field "pubkey_error" is there exactly when the derivation
    reported an error, and then holds its text. *)
Theorem provider_info_reports_identity settings fs t raw b err D vars :
  derive_pubkeys (KEY_NAME cfg) (KEYRING cfg) t = (Ret (raw, b, err), D) ->
  _load_env_file (fs (t ++ D)) (SENTINEL_ENV_PATH settings) = Ret vars ->
  exists resp,
    provider_info settings fs t = (Ret resp, D) /\
    snd resp = 200%Z /\
    field resp "user" = JStr (KEY_NAME cfg) /\
    field resp "pubkey" = pubkey_json raw b /\
    field resp "fees" = JStr (FEES_DEFAULT cfg) /\
    field resp "bond" = JStr (BOND_DEFAULT cfg) /\
    field resp "provider_metadata" = JObj vars /\
    match err with
    | Some e => field resp "pubkey_error" = JStr e
    | None => has_field resp "pubkey_error" = false
    end.
Proof.
  intros ED EV. unfold provider_info.
  rewrite (bind_value _ _ _ _ _ (provider_pubkeys_response_run _ _ _ _ _ _ _ ED)).
  rewrite EV. unfold after. cbn [fst snd]. rewrite app_nil_r.
  eexists. split; [reflexivity|].
  destruct err as [e|]; cbn; repeat split.
Qed.

(** X30. A listing of the providers that decodes to something other than
    an object is not handled: once the identity is derived and the query has
    exited with code 0, an output that is a JSON array, string, number,
    boolean or null makes [provider_services] raise, after the query, with
    no response of its own. *)
Theorem listing_of_other_shape_raises t0 raw b D out v :
  derive_pubkeys (KEY_NAME cfg) (KEYRING cfg) t0 = (Ret (raw, b, None), D) ->
  oracle (t0 ++ D) list_providers_cmd = Exited 0 out ->
  json_loads out = Decoded v ->
  Py.is_dict v = false ->
  provider_services t0 = (Exn, D ++ [Run ProviderQuery list_providers_cmd]).
Proof.
  intros ED EO EL Hv. unfold provider_services.
  rewrite (bind_value _ _ _ _ _ ED). cbn [err_truthy].
  rewrite bind_run_list, EO. cbn [Z.eqb negb].
  unfold providers_of. rewrite EL.
  destruct v as [| | | | |d]; try discriminate; reflexivity.
Qed.

End Orchestrator.

(** ** The properties on scripted runs *)

(** C7 on the run where the bond is refused with "insufficient funds". *)
Lemma bond_failure_is_terminal_witness :
  let world := Fixture.scripted Fixture.bond_refused in
  let run := bond_and_mod_provider Fixture.loads Fixture.repr Fixture.cfg world
               Fixture.request_by_id [] in
  let pre := firstn 4 (snd run) in
  let c := Fixture.command_at 4 (snd run) in
  snd run = pre ++ [Run BondTx c] /\
  world pre c = Exited 1 "insufficient funds" /\
  count_site BondTx (snd run) = 1 /\
  count_site ModTx (snd run) = 0 /\
  exists resp,
    fst run = Ret resp /\ snd resp = 500%Z /\
    field resp "error" = JStr "failed to bond provider" /\
    field resp "detail" = JStr "insufficient funds".
Proof.
  cbv zeta.
  set (world := Fixture.scripted Fixture.bond_refused).
  set (run := bond_and_mod_provider Fixture.loads Fixture.repr Fixture.cfg world
                Fixture.request_by_id []).
  assert (H1 : run = (fst run, snd run)) by (vm_compute; reflexivity).
  assert (H2 : snd run = firstn 4 (snd run) ++ [Run BondTx (Fixture.command_at 4 (snd run))])
    by (vm_compute; reflexivity).
  assert (H3 : world ([] ++ firstn 4 (snd run)) (Fixture.command_at 4 (snd run))
               = Exited 1 "insufficient funds") by (vm_compute; reflexivity).
  split; [exact H2|]. split; [exact H3|].
  exact (proj2 (bond_failure_is_terminal Fixture.loads Fixture.repr Fixture.cfg world
                  Fixture.request_by_id [] (fst run) (snd run) _ _ [] 1%Z
                  "insufficient funds" H1 H2 H3 ltac:(discriminate))).
Defined.


(** C2 on the run whose first metadata update answers "account sequence
    mismatch, expected 6, got 5: incorrect account sequence". *)
Lemma expected_sequence_resubmission_witness :
  let world := Fixture.scripted Fixture.mismatch_then_accepted in
  let run := bond_and_mod_provider Fixture.loads Fixture.repr Fixture.cfg world
               Fixture.request_by_id [] in
  let pre := firstn 5 (snd run) in
  let c := Fixture.command_at 5 (snd run) in
  let out := "account sequence mismatch, expected 6, got 5: incorrect account sequence" in
  count_site ModTx pre = 0 /\
  world pre c = Exited 1 out /\
  PyStr.contains "account sequence mismatch" out = true /\
  PyStr.re_search_expected out = Some "6" /\
  exists payload b rs args rest seq,
    Py.por Fixture.request_by_id (JObj []) = JObj payload /\
    mod_cmd_base Fixture.cfg (read_inputs Fixture.repr Fixture.cfg payload) b rs
      = args ++ JStr "--from" :: rest /\
    ~ In (JStr "--from") args /\
    c = args ++ seq ++ JStr "--from" :: rest /\
    skipn 6 (snd run) =
      [Sleep 1;
       Run ModTx (args ++ JStr "--sequence" :: JStr "6" :: JStr "--from" :: rest)] /\
    count_site ModTx (snd run) = 2 /\
    count_site AccountQuery (skipn 6 (snd run)) = 0.
Proof.
  cbv zeta.
  set (world := Fixture.scripted Fixture.mismatch_then_accepted).
  set (run := bond_and_mod_provider Fixture.loads Fixture.repr Fixture.cfg world
                Fixture.request_by_id []).
  set (out := "account sequence mismatch, expected 6, got 5: incorrect account sequence").
  assert (H1 : run = (fst run, snd run)) by (vm_compute; reflexivity).
  assert (H2 : snd run = firstn 5 (snd run)
                 ++ Run ModTx (Fixture.command_at 5 (snd run)) :: skipn 6 (snd run))
    by (vm_compute; reflexivity).
  assert (H0 : count_site ModTx (firstn 5 (snd run)) = 0) by (vm_compute; reflexivity).
  assert (H3 : world ([] ++ firstn 5 (snd run)) (Fixture.command_at 5 (snd run))
               = Exited 1 out) by (vm_compute; reflexivity).
  assert (H4 : PyStr.contains "account sequence mismatch" out = true)
    by (vm_compute; reflexivity).
  assert (H5 : PyStr.re_search_expected out = Some "6") by (vm_compute; reflexivity).
  split; [exact H0|]. split; [exact H3|]. split; [exact H4|]. split; [exact H5|].
  exact (expected_sequence_resubmission Fixture.loads Fixture.repr Fixture.cfg world
           Fixture.request_by_id [] (fst run) (snd run) _ _ _ 1%Z out "6"
           H1 H2 H0 H3 H4 H5).
Defined.


(** C6 on the run where the three account queries before the first
    metadata update are refused. *)
Lemma sequence_fetch_is_best_effort_witness :
  let world := Fixture.scripted Fixture.mismatch_twice in
  let run := bond_and_mod_provider Fixture.loads Fixture.repr Fixture.cfg world
               Fixture.request_by_id [] in
  let pre := firstn 10 (snd run) in
  let c := Fixture.command_at 10 (snd run) in
  count_site AccountQuery pre = 3 /\
  no_sequence_obtained Fixture.loads Fixture.repr world [] pre = true /\
  1 <= count_site ModTx (skipn 5 (snd run)) /\
  exists payload b rs,
    Py.por Fixture.request_by_id (JObj []) = JObj payload /\
    c = mod_cmd_base Fixture.cfg (read_inputs Fixture.repr Fixture.cfg payload) b rs.
Proof.
  cbv zeta.
  set (world := Fixture.scripted Fixture.mismatch_twice).
  set (run := bond_and_mod_provider Fixture.loads Fixture.repr Fixture.cfg world
                Fixture.request_by_id []).
  assert (H1 : run = (fst run, snd run)) by (vm_compute; reflexivity).
  assert (H2 : snd run = firstn 10 (snd run)
                 ++ Run ModTx (Fixture.command_at 10 (snd run)) :: skipn 11 (snd run))
    by (vm_compute; reflexivity).
  assert (H0 : count_site ModTx (firstn 10 (snd run)) = 0) by (vm_compute; reflexivity).
  assert (H3 : snd run = firstn 4 (snd run)
                 ++ Run AccountQuery (Fixture.command_at 4 (snd run)) :: skipn 5 (snd run))
    by (vm_compute; reflexivity).
  assert (H4 : no_sequence_obtained Fixture.loads Fixture.repr world [] (firstn 10 (snd run))
               = true) by (vm_compute; reflexivity).
  split; [vm_compute; reflexivity|]. split; [exact H4|].
  destruct (sequence_fetch_is_best_effort Fixture.loads Fixture.repr Fixture.cfg world
              Fixture.request_by_id [] (fst run) (snd run) H1) as [HA HB].
  split; [exact (HA _ _ _ H3)|].
  destruct (HB _ _ _ H2 H0) as [_ HC].
  apply HC. exact (no_sequence_obtained_spec Fixture.loads Fixture.repr world [] _ H4).
Defined.

(** C10 on a run that ends with the success response and on one whose last
    metadata update exits 1. *)
Lemma success_reports_zero_exit_codes_witness :
  let fresh := bond_and_mod_provider Fixture.loads Fixture.repr Fixture.cfg
                 (Fixture.scripted Fixture.fresh_registration) Fixture.request_by_id [] in
  let failed := bond_and_mod_provider Fixture.loads Fixture.repr Fixture.cfg
                  (Fixture.scripted Fixture.mismatch_twice) Fixture.request_by_id [] in
  (exists resp,
     fst fresh = Ret resp /\
     field resp "status" = JStr "bond_and_mod_submitted" /\
     snd resp = 200%Z /\
     (exists out,
        field resp "mod_tx" = JObj [("exit_code", JNum 0); ("output", JStr out)]) /\
     (exists out,
        field resp "bond_tx" = JObj [("exit_code", JNum 0); ("output", JStr out)])) /\
  (Fixture.scripted Fixture.mismatch_twice (firstn 16 (snd failed))
     (Fixture.command_at 16 (snd failed)) = Exited 1 "account sequence mismatch" /\
   exists resp,
     fst failed = Ret resp /\ snd resp = 500%Z /\
     field resp "error" = JStr "failed to mod provider" /\
     field resp "status" = JNull).
Proof.
  cbv zeta. split.
  - set (world := Fixture.scripted Fixture.fresh_registration).
    set (run := bond_and_mod_provider Fixture.loads Fixture.repr Fixture.cfg world
                  Fixture.request_by_id []).
    assert (H1 : run = (fst run, snd run)) by (vm_compute; reflexivity).
    destruct (fst run) as [resp|] eqn:E; [|vm_compute in E; discriminate].
    exists resp. split; [reflexivity|].
    assert (HS : field resp "status" = JStr "bond_and_mod_submitted").
    { assert (X : Ret resp = fst run) by (symmetry; exact E).
      vm_compute in X. inversion X. vm_compute. reflexivity. }
    split; [exact HS|].
    exact (proj1 (success_reports_zero_exit_codes Fixture.loads Fixture.repr Fixture.cfg
                    world Fixture.request_by_id [] (Ret resp) (snd run) H1)
             resp eq_refl HS).
  - set (world := Fixture.scripted Fixture.mismatch_twice).
    set (run := bond_and_mod_provider Fixture.loads Fixture.repr Fixture.cfg world
                  Fixture.request_by_id []).
    assert (H1 : run = (fst run, snd run)) by (vm_compute; reflexivity).
    assert (H2 : snd run = firstn 16 (snd run)
                   ++ Run ModTx (Fixture.command_at 16 (snd run)) :: [])
      by (vm_compute; reflexivity).
    assert (H3 : world ([] ++ firstn 16 (snd run)) (Fixture.command_at 16 (snd run))
                 = Exited 1 "account sequence mismatch") by (vm_compute; reflexivity).
    split; [exact H3|].
    exact (proj2 (success_reports_zero_exit_codes Fixture.loads Fixture.repr Fixture.cfg
                    world Fixture.request_by_id [] (fst run) (snd run) H1)
             _ _ _ 1%Z "account sequence mismatch" H2 eq_refl H3 ltac:(discriminate)).
Defined.



(** C4 at its failing input: the key command exits 0 and prints
    [{"key": null}]. The handler ends with an exception after the key
    command, with no response of its own. *)
Lemma null_key_raises :
  Fixture.loads Fixture.key_null_text = Decoded (JObj [("key", JNull)]) /\
  bond_and_mod_provider Fixture.loads Fixture.repr Fixture.cfg
    (Fixture.scripted Fixture.key_is_null) Fixture.request_by_id []
  = (Exn,
     [Run AllServices (all_services_cmd Fixture.cfg);
      Run KeysShow (pubkey_cmd Fixture.cfg "provider" "test")]).
Proof.
  split; vm_compute; reflexivity.
Qed.

(** C5 at its failing input: the reference is "7" and the catalogue command
    exits 0 and prints [[]]. The handler ends with an exception right after
    the catalogue query: no key is looked up and nothing is submitted. *)
Lemma array_catalogue_raises :
  Fixture.loads Fixture.empty_array_text = Decoded (JArr []) /\
  bond_and_mod_provider Fixture.loads Fixture.repr Fixture.cfg
    (Fixture.scripted Fixture.catalogue_is_array) Fixture.request_by_id []
  = (Exn, [Run AllServices (all_services_cmd Fixture.cfg)]).
Proof.
  split; vm_compute; reflexivity.
Qed.

(** C8 at its failing input: the key command exits 1. The response is the
    HTTP 500 of the identity failure, and it has neither the inputs nor the
    resolved service. *)
Lemma identity_failure_lacks_context :
  let run := bond_and_mod_provider Fixture.loads Fixture.repr Fixture.cfg
               (Fixture.scripted Fixture.key_missing) Fixture.request_by_id [] in
  exists resp,
    fst run = Ret resp /\
    resp = pubkey_failure Fixture.cfg
             "failed to fetch raw pubkey: provider is not a valid name or address" "" "" /\
    snd resp = 500%Z /\
    has_field resp "pubkey" = true /\
    has_field resp "inputs" = false /\
    has_field resp "resolved_service" = false /\
    has_field resp "detail" = false.
Proof.
  cbv zeta. eexists. split; [vm_compute; reflexivity|].
  repeat split.
Qed.

(** X1 on the run where the catalogue has no service 7. *)
Lemma unresolved_service_id_is_soft_witness :
  let world := Fixture.scripted Fixture.fresh_registration in
  let run := bond_and_mod_provider Fixture.loads Fixture.repr Fixture.cfg world
               Fixture.request_by_id [] in
  PyStr.isdigit (PyStr.strip "7") = true /\
  catalogue_misses Fixture.loads Fixture.repr (PyStr.strip "7")
    (world [] (all_services_cmd Fixture.cfg)) /\
  (exists rest,
     snd run = Run AllServices (all_services_cmd Fixture.cfg)
               :: Run KeysShow (pubkey_cmd Fixture.cfg "provider" "test") :: rest /\
     count_site AllServices rest = 0) /\
  forall resp, fst run = Ret resp -> has_field resp "inputs" = true ->
    subfield (field resp "inputs") "resolved_service" = JStr "7" /\
    (subfield (field resp "inputs") "lookup_note"
       = JStr "could not resolve service id 7 to name" \/
     field resp "error" = JStr "failed to mod provider").
Proof.
  cbv zeta.
  set (world := Fixture.scripted Fixture.fresh_registration).
  set (run := bond_and_mod_provider Fixture.loads Fixture.repr Fixture.cfg world
                Fixture.request_by_id []).
  assert (H1 : run = (fst run, snd run)) by (vm_compute; reflexivity).
  assert (H2 : PyStr.isdigit (PyStr.strip "7") = true) by (vm_compute; reflexivity).
  assert (H3 : catalogue_misses Fixture.loads Fixture.repr (PyStr.strip "7")
                 (world [] (all_services_cmd Fixture.cfg))).
  { right. right. exists [("services", JArr [])]. split; vm_compute; reflexivity. }
  split; [exact H2|]. split; [exact H3|].
  destruct (unresolved_service_id_is_soft Fixture.loads Fixture.repr Fixture.cfg world
              Fixture.request_by_id [] (fst run) (snd run) _ "7" H1 eq_refl eq_refl H2 H3)
    as (HA & _ & HC).
  split; [exact HA | exact HC].
Defined.

(** X2 on a run for the service "swapi". *)
Lemma named_service_passes_through_witness :
  let world := Fixture.scripted Fixture.named_service in
  let run := bond_and_mod_provider Fixture.loads Fixture.repr Fixture.cfg world
               Fixture.request_full [] in
  PyStr.isdigit (PyStr.strip "swapi") = false /\
  count_site AllServices (snd run) = 0 /\
  forall pre c post, snd run = pre ++ Run ProviderQuery c :: post ->
    exists b, c = lookup_cmd Fixture.cfg b (JStr "swapi").
Proof.
  cbv zeta.
  set (world := Fixture.scripted Fixture.named_service).
  set (run := bond_and_mod_provider Fixture.loads Fixture.repr Fixture.cfg world
                Fixture.request_full []).
  assert (H1 : run = (fst run, snd run)) by (vm_compute; reflexivity).
  assert (H2 : PyStr.isdigit (PyStr.strip "swapi") = false) by (vm_compute; reflexivity).
  split; [exact H2|].
  destruct (named_service_passes_through Fixture.loads Fixture.repr Fixture.cfg world
              Fixture.request_full [] (fst run) (snd run) _ "swapi" H1 eq_refl eq_refl
              ltac:(discriminate) H2)
    as (HA & HB & _).
  split; [exact HA | exact HB].
Defined.

(** X3 on the run where the key is missing from the keyring. *)
Lemma identity_failure_is_terminal_witness :
  let world := Fixture.scripted Fixture.key_missing in
  let run := bond_and_mod_provider Fixture.loads Fixture.repr Fixture.cfg world
               Fixture.request_by_id [] in
  let pre := firstn 1 (snd run) in
  let c := Fixture.command_at 1 (snd run) in
  let e := "failed to fetch raw pubkey: provider is not a valid name or address" in
  derivation_failure Fixture.loads Fixture.cfg world "provider" "test" pre e "" [Run KeysShow c] /\
  fst run = Ret (pubkey_failure Fixture.cfg e "" "") /\
  count_site KeysShow (snd run) = 1 /\
  count_site PubkeyRaw (snd run) <= 1 /\
  count_site ProviderQuery (snd run) = 0 /\
  count_site BondTx (snd run) = 0 /\
  count_site AccountQuery (snd run) = 0 /\
  count_site ModTx (snd run) = 0.
Proof.
  cbv zeta.
  set (world := Fixture.scripted Fixture.key_missing).
  set (run := bond_and_mod_provider Fixture.loads Fixture.repr Fixture.cfg world
                Fixture.request_by_id []).
  assert (H1 : run = (fst run, snd run)) by (vm_compute; reflexivity).
  assert (H2 : snd run = firstn 1 (snd run)
                 ++ Run KeysShow (Fixture.command_at 1 (snd run)) :: [])
    by (vm_compute; reflexivity).
  assert (H3 : derivation_failure Fixture.loads Fixture.cfg world "provider" "test"
                 ([] ++ firstn 1 (snd run))
                 "failed to fetch raw pubkey: provider is not a valid name or address" ""
                 [Run KeysShow (Fixture.command_at 1 (snd run))]).
  { apply (key_lookup_failed Fixture.loads Fixture.cfg world "provider" "test"
             ([] ++ firstn 1 (snd run)) 1%Z "provider is not a valid name or address");
      [vm_compute; reflexivity | discriminate]. }
  split; [exact H3|].
  destruct (identity_failure_is_terminal Fixture.loads Fixture.repr Fixture.cfg world
              Fixture.request_by_id [] (fst run) (snd run) _ _ _ _ _ _ H1 H2 H3)
    as (HA & _ & HB).
  split; [exact HA | exact HB].
Defined.

(** X4 on the run where the bond is refused. *)
Lemma later_failures_carry_context_witness :
  let world := Fixture.scripted Fixture.bond_refused in
  let run := bond_and_mod_provider Fixture.loads Fixture.repr Fixture.cfg world
               Fixture.request_by_id [] in
  let resp := match fst run with Ret x => x | Exn => (JNull, 0%Z) end in
  fst run = Ret resp /\ snd resp = 500%Z /\
  has_field resp "pubkey_error" = false /\
  field resp "cmd" = JArr (Fixture.command_at 4 (snd run)) /\
  field resp "detail" = JStr "insufficient funds" /\
  subfield (field resp "inputs") "service" = JStr "7" /\
  has_key (field resp "inputs") "resolved_service" = true /\
  has_field resp "pubkey" = true /\
  has_field resp "user" = true.
Proof.
  cbv zeta.
  set (world := Fixture.scripted Fixture.bond_refused).
  set (run := bond_and_mod_provider Fixture.loads Fixture.repr Fixture.cfg world
                Fixture.request_by_id []).
  set (resp := match fst run with Ret x => x | Exn => (JNull, 0%Z) end).
  assert (H0 : fst run = Ret resp) by (vm_compute; reflexivity).
  assert (H1 : run = (fst run, snd run)) by (vm_compute; reflexivity).
  assert (H2 : snd resp = 500%Z) by (vm_compute; reflexivity).
  assert (H3 : has_field resp "pubkey_error" = false) by (vm_compute; reflexivity).
  split; [exact H0|]. split; [exact H2|]. split; [exact H3|].
  destruct (later_failures_carry_context Fixture.loads Fixture.repr Fixture.cfg world
              Fixture.request_by_id [] (fst run) (snd run) resp H1 H0 H2 H3)
    as (_ & _ & HC).
  split; [vm_compute; reflexivity|].
  split; [vm_compute; reflexivity|].
  split; [vm_compute; reflexivity|].
  exact HC.
Defined.

(** X5 and X6 on the run of a fresh registration. *)
Lemma settle_delay_after_bond_witness :
  let world := Fixture.scripted Fixture.fresh_registration in
  let run := bond_and_mod_provider Fixture.loads Fixture.repr Fixture.cfg world
               Fixture.request_by_id [] in
  world (firstn 4 (snd run)) (Fixture.command_at 4 (snd run)) = Exited 0 "bond accepted" /\
  exists rest, skipn 5 (snd run) = Sleep 2 :: rest /\ 1 <= count_site ModTx rest.
Proof.
  cbv zeta.
  set (world := Fixture.scripted Fixture.fresh_registration).
  set (run := bond_and_mod_provider Fixture.loads Fixture.repr Fixture.cfg world
                Fixture.request_by_id []).
  assert (H1 : run = (fst run, snd run)) by (vm_compute; reflexivity).
  assert (H2 : snd run = firstn 4 (snd run)
                 ++ Run BondTx (Fixture.command_at 4 (snd run)) :: skipn 5 (snd run))
    by (vm_compute; reflexivity).
  assert (H3 : world ([] ++ firstn 4 (snd run)) (Fixture.command_at 4 (snd run))
               = Exited 0 "bond accepted") by (vm_compute; reflexivity).
  split; [exact H3|].
  exact (settle_delay_after_bond Fixture.loads Fixture.repr Fixture.cfg world
           Fixture.request_by_id [] (fst run) (snd run) _ _ _ _ H1 H2 H3).
Defined.

Lemma metadata_update_follows_identity_witness :
  let world := Fixture.scripted Fixture.fresh_registration in
  let run := bond_and_mod_provider Fixture.loads Fixture.repr Fixture.cfg world
               Fixture.request_by_id [] in
  let pre := firstn 7 (snd run) in
  nth 7 (snd run) (Sleep 0) = Run ModTx (Fixture.command_at 7 (snd run)) /\
  count_site KeysShow pre = 1 /\
  count_site PubkeyRaw pre = 1 /\
  count_site ProviderQuery pre = 1 /\
  count_site AllServices pre <= 1.
Proof.
  cbv zeta.
  set (world := Fixture.scripted Fixture.fresh_registration).
  set (run := bond_and_mod_provider Fixture.loads Fixture.repr Fixture.cfg world
                Fixture.request_by_id []).
  assert (H1 : run = (fst run, snd run)) by (vm_compute; reflexivity).
  assert (H2 : snd run = firstn 7 (snd run)
                 ++ Run ModTx (Fixture.command_at 7 (snd run)) :: skipn 8 (snd run))
    by (vm_compute; reflexivity).
  split; [vm_compute; reflexivity|].
  destruct (metadata_update_follows_identity Fixture.loads Fixture.repr Fixture.cfg world
              Fixture.request_by_id [] (fst run) (snd run) _ _ _ H1 H2)
    as (HA & HB & HC & HD & _).
  repeat split; assumption.
Defined.

(** X7 on the text of a real mismatch. *)
Lemma re_search_expected_sound_witness :
  PyStr.re_search_expected "account sequence mismatch, expected 6, got 5" = Some "6" /\
  exists before ws rest,
    "account sequence mismatch, expected 6, got 5"
      = (before ++ "expected" ++ ws ++ "6" ++ rest)%string /\
    ws <> "" /\ PyStr.all_chars PyStr.isspace ws = true.
Proof.
  assert (H : PyStr.re_search_expected "account sequence mismatch, expected 6, got 5"
              = Some "6") by (vm_compute; reflexivity).
  split; [exact H|].
  destruct (re_search_expected_sound _ _ H) as (before & ws & rest & HA & HB & HC & _).
  exists before, ws, rest. repeat split; assumption.
Defined.

(** X8 on a short command. *)
Lemma sequence_goes_before_from_witness :
  with_sequence [JStr "tx"; JStr "--node"; JStr "n"; JStr "--from"; JStr "provider"; JStr "-y"]
    [JStr "--sequence"; JStr "6"]
  = [JStr "tx"; JStr "--node"; JStr "n"; JStr "--sequence"; JStr "6";
     JStr "--from"; JStr "provider"; JStr "-y"].
Proof.
  exact (sequence_goes_before_from _ [JStr "tx"; JStr "--node"; JStr "n"]
           [JStr "provider"; JStr "-y"] [JStr "--sequence"; JStr "6"] eq_refl eq_refl).
Defined.


(** ** The other endpoints on scripted runs *)

(** X10 on a derivation that succeeds. *)
Lemma derive_pubkeys_result_shape_witness :
  let world := Fixture.scripted Fixture.bond_accepted in
  let run := derive_pubkeys Fixture.loads Fixture.cfg world "provider" "test" [] in
  run = (Ret ("pk1", "addr1", None), snd run) /\
  (@None string = None <-> "addr1" <> "") /\
  (@None string = None ->
   "pk1" <> "" /\ PyStr.strip "pk1" = "pk1" /\ PyStr.strip "addr1" = "addr1") /\
  (forall e, @None string = Some e -> e <> "") /\
  ("pk1" = "" <-> snd run = [Run KeysShow (pubkey_cmd Fixture.cfg "provider" "test")]).
Proof.
  cbv zeta.
  set (world := Fixture.scripted Fixture.bond_accepted).
  set (run := derive_pubkeys Fixture.loads Fixture.cfg world "provider" "test" []).
  assert (H : run = (Ret ("pk1", "addr1", None), snd run)) by (vm_compute; reflexivity).
  split; [exact H|].
  exact (derive_pubkeys_result_shape Fixture.loads Fixture.cfg world "provider" "test" []
           "pk1" "addr1" None (snd run) H).
Defined.

(** X11 on the request for service "7" when the key is not in the
    keyring. *)
Lemma bond_identity_failure_keeps_inputs_witness :
  let world := Fixture.scripted [Exited 1 "provider is not a valid name or address"] in
  let e := "failed to fetch raw pubkey: provider is not a valid name or address" in
  let D := [Run KeysShow (pubkey_cmd Fixture.cfg "provider" "test")] in
  derivation_failure Fixture.loads Fixture.cfg world "provider" "test" [] e "" D /\
  exists resp,
    bond_provider Fixture.loads Fixture.repr Fixture.cfg world Fixture.request_by_id []
      = (Ret resp, D) /\
    snd resp = 500%Z /\
    field resp "error" = JStr e /\
    field resp "pubkey_error" = JStr e /\
    subfield (field resp "inputs") "service" = JStr "7" /\
    subfield (field resp "inputs") "bond" = JStr "1" /\
    count_site BondTx D = 0.
Proof.
  cbv zeta.
  set (world := Fixture.scripted [Exited 1 "provider is not a valid name or address"]).
  assert (HF : derivation_failure Fixture.loads Fixture.cfg world "provider" "test" []
                 "failed to fetch raw pubkey: provider is not a valid name or address" ""
                 [Run KeysShow (pubkey_cmd Fixture.cfg "provider" "test")]).
  { apply (key_lookup_failed Fixture.loads Fixture.cfg world "provider" "test" [] 1%Z
             "provider is not a valid name or address");
      [vm_compute; reflexivity | discriminate]. }
  split; [exact HF|].
  exact (bond_identity_failure_keeps_inputs Fixture.loads Fixture.repr Fixture.cfg world
           Fixture.request_by_id [] [("service", JStr "7")] _ _ _ eq_refl eq_refl HF).
Defined.

(** X12 on the request for service "7" whose bond is accepted. *)
Lemma bond_tx_ends_bond_provider_witness :
  let world := Fixture.scripted Fixture.bond_accepted in
  let run := bond_provider Fixture.loads Fixture.repr Fixture.cfg world
               Fixture.request_by_id [] in
  let pre := firstn 2 (snd run) in
  let c := Fixture.command_at 2 (snd run) in
  snd run = pre ++ Run BondTx c :: [] /\
  (@nil event = [] /\ count_site BondTx pre = 0 /\
   exists payload raw b,
     Py.por Fixture.request_by_id (JObj []) = JObj payload /\
     Py.truthy (Py.get payload "service") = true /\
     derive_pubkeys Fixture.loads Fixture.cfg world "provider" "test" []
       = (Ret (raw, b, None), pre) /\
     c = bond_only_cmd Fixture.cfg b (Py.get payload "service")
           (bond_of Fixture.repr Fixture.cfg payload) /\
     match world ([] ++ pre) c with
     | Raised => fst run = Exn
     | Exited code out =>
         exists resp, fst run = Ret resp /\
           (snd resp = 200%Z <-> code = 0%Z) /\ (snd resp = 500%Z <-> code <> 0%Z)
     end).
Proof.
  cbv zeta.
  set (world := Fixture.scripted Fixture.bond_accepted).
  set (run := bond_provider Fixture.loads Fixture.repr Fixture.cfg world
                Fixture.request_by_id []).
  assert (H1 : run = (fst run, snd run)) by (vm_compute; reflexivity).
  assert (H2 : snd run = firstn 2 (snd run)
                 ++ Run BondTx (Fixture.command_at 2 (snd run)) :: [])
    by (vm_compute; reflexivity).
  split; [exact H2|].
  exact (bond_tx_ends_bond_provider Fixture.loads Fixture.repr Fixture.cfg world
           Fixture.request_by_id [] (fst run) (snd run) _ _ _ H1 H2).
Defined.


(** X14 on the rates 10uarkeo and 5uusdc with a number between them. *)
Lemma rates_are_rendered_coin_by_coin_witness :
  let first := [("amount", JStr "10"); ("denom", JStr "uarkeo")] in
  let second := JObj [("denom", JStr "uusdc"); ("amount", JStr "5")] in
  priced (JObj first) = true /\
  existsb priced [JNum 7; second] = true /\
  priced (JNum 7) = false /\
  _rate_to_string Fixture.repr (JArr [JObj first; JNum 7; second]) = "10uarkeo,5uusdc".
Proof.
  cbv zeta.
  set (first := [("amount", JStr "10"); ("denom", JStr "uarkeo")]).
  set (second := JObj [("denom", JStr "uusdc"); ("amount", JStr "5")]).
  assert (H1 : priced (JObj first) = true) by reflexivity.
  assert (H2 : existsb priced [JNum 7; second] = true) by reflexivity.
  assert (H3 : priced (JNum 7) = false) by reflexivity.
  split; [exact H1|]. split; [exact H2|]. split; [exact H3|].
  destruct (rates_are_rendered_coin_by_coin Fixture.repr) as (_ & _ & HC & _).
  rewrite (HC first [JNum 7; second] H1 H2). vm_compute. reflexivity.
Defined.

(** X15 on the same listing. *)
Lemma providers_query_follows_identity_witness :
  let world := Fixture.scripted Fixture.providers_listed in
  let run := provider_services Fixture.decode Fixture.repr Fixture.cfg world [] in
  run = (fst run, snd run) /\
  (forall pre c post,
     snd run = pre ++ Run ProviderQuery c :: post ->
     post = [] /\ c = list_providers_cmd Fixture.cfg /\
     exists raw b,
       derive_pubkeys Fixture.decode Fixture.cfg world "provider" "test" []
         = (Ret (raw, b, None), pre)) /\
  (forall e raw D,
     derivation_failure Fixture.decode Fixture.cfg world "provider" "test" [] e raw D ->
     fst run = Ret (identity_error Fixture.cfg e raw "") /\ snd run = D /\
     count_site ProviderQuery (snd run) = 0).
Proof.
  cbv zeta.
  set (world := Fixture.scripted Fixture.providers_listed).
  set (run := provider_services Fixture.decode Fixture.repr Fixture.cfg world []).
  assert (H1 : run = (fst run, snd run)) by (vm_compute; reflexivity).
  split; [exact H1|].
  exact (providers_query_follows_identity Fixture.decode Fixture.repr Fixture.cfg world []
           (fst run) (snd run) H1).
Defined.

(** X16 on a catalogue printed as JSON. *)
Lemma list_services_takes_any_shape_witness :
  let world := Fixture.answers [Exited 0 Fixture.catalog_text] in
  world [] (Argv (all_services_cmd Fixture.cfg)) = Exited 0 Fixture.catalog_text /\
  (forall n, Fixture.loads (PyStr.drop n Fixture.catalog_text) <> OtherError) /\
  exists resp,
    list_services Fixture.loads Fixture.cfg world []
      = (Ret resp, [Argv (all_services_cmd Fixture.cfg)]) /\
    (snd resp = 200%Z <-> 0%Z = 0%Z) /\
    (0%Z = 0%Z ->
     (forall v, Fixture.loads Fixture.catalog_text = Decoded v -> v <> JNull ->
                field resp "raw" = v) /\
     (Fixture.loads Fixture.catalog_text = Decoded JNull ->
      field resp "raw" = JStr Fixture.catalog_text) /\
     ((forall n, Fixture.loads (PyStr.drop n Fixture.catalog_text) = JSONDecodeError) ->
      field resp "raw" = JStr Fixture.catalog_text) /\
     exists entries,
       field resp "services" = JArr entries /\
       forall e, In e entries -> identified e).
Proof.
  cbv zeta.
  set (world := Fixture.answers [Exited 0 Fixture.catalog_text]).
  assert (H : world [] (Argv (all_services_cmd Fixture.cfg))
              = Exited 0 Fixture.catalog_text) by reflexivity.
  assert (HN : forall n, Fixture.loads (PyStr.drop n Fixture.catalog_text) <> OtherError).
  { intro n. unfold Fixture.loads.
    repeat match goal with
           | |- context [if ?c then _ else _] => destruct c
           end; discriminate. }
  split; [exact H|]. split; [exact HN|].
  destruct (list_services_takes_any_shape Fixture.loads Fixture.cfg world [] 0%Z
              Fixture.catalog_text H) as [HA _].
  exact (HA HN).
Defined.

(** X17 on a warning printed before the catalogue. *)
Lemma parse_json_skips_prefix_witness :
  let prefix := ("WARN: slow node" ++ Fixture.newline)%string in
  let doc := (Fixture.quoted "services" ++ ": []}")%string in
  Fixture.loads (prefix ++ String "{" doc) = JSONDecodeError /\
  parse_json Fixture.loads (prefix ++ String "{" doc) =
  match Fixture.loads (String "{" doc) with
  | Decoded v => Ret v
  | JSONDecodeError => Ret JNull
  | OtherError => Exn
  end.
Proof.
  cbv zeta.
  assert (H : Fixture.loads (("WARN: slow node" ++ Fixture.newline)
                               ++ String "{" (Fixture.quoted "services" ++ ": []}"))
              = JSONDecodeError) by (vm_compute; reflexivity).
  split; [exact H|].
  exact (parse_json_skips_prefix Fixture.loads
           ("WARN: slow node" ++ Fixture.newline) "{"%char
           (Fixture.quoted "services" ++ ": []}") eq_refl eq_refl
           (or_introl eq_refl) H).
Defined.

(** X18 on two lines. *)
Lemma catalogue_lines_are_read_back_witness :
  Forall line_item Fixture.catalogue_items /\
  text_entries (map line_of Fixture.catalogue_items) = map entry_of Fixture.catalogue_items.
Proof.
  assert (H : Forall line_item Fixture.catalogue_items).
  { repeat constructor; try discriminate. }
  split; [exact H|].
  exact (catalogue_lines_are_read_back Fixture.catalogue_items H).
Defined.

(** X19 on three variables, one of them quoted for the shell and one a
    number. *)
Lemma written_env_file_is_read_back_witness :
  let path := "/app/config/sentinel.env" in
  let look := Fixture.only_file path (env_text Fixture.repr Fixture.variables) in
  NoDup (map fst Fixture.variables) /\
  (forall kv, In kv Fixture.variables ->
     clean_key (fst kv) /\ no_newline (py_str Fixture.repr (snd kv)) = true /\
     PyStr.contains "'" (py_str Fixture.repr (snd kv)) = false) /\
  _load_env_file look path =
    Ret (map (fun kv => (fst kv, JStr (py_str Fixture.repr (snd kv)))) Fixture.variables).
Proof.
  cbv zeta.
  assert (H1 : NoDup (map fst Fixture.variables)).
  { repeat constructor; cbn; intuition discriminate. }
  assert (H2 : forall kv, In kv Fixture.variables ->
                 clean_key (fst kv) /\ no_newline (py_str Fixture.repr (snd kv)) = true /\
                 PyStr.contains "'" (py_str Fixture.repr (snd kv)) = false).
  { intros kv [<- | [<- | [<- | []]]]; repeat split. }
  split; [exact H1|]. split; [exact H2|].
  refine (written_env_file_is_read_back Fixture.repr
            (Fixture.only_file "/app/config/sentinel.env"
               (env_text Fixture.repr Fixture.variables))
            "/app/config/sentinel.env" Fixture.variables _ eq_refl H1 H2).
  discriminate.
Defined.

(** X20 on a description with an apostrophe. *)
Lemma single_quote_is_not_read_back_witness :
  let path := "/app/config/sentinel.env" in
  let v := "it's fast" in
  let look := Fixture.only_file path (env_text Fixture.repr [("DESCRIPTION", JStr v)]) in
  clean_key "DESCRIPTION" /\ no_newline v = true /\ PyStr.contains "'" v = true /\
  _load_env_file look path
    = Ret [("DESCRIPTION", JStr (PyStr.replace "'" quoted_quote v))] /\
  String.length v < String.length (PyStr.replace "'" quoted_quote v).
Proof.
  cbv zeta.
  assert (H1 : clean_key "DESCRIPTION") by (repeat split).
  split; [exact H1|]. split; [reflexivity|]. split; [reflexivity|].
  refine (single_quote_is_not_read_back Fixture.repr
            (Fixture.only_file "/app/config/sentinel.env"
               (env_text Fixture.repr [("DESCRIPTION", JStr "it's fast")]))
            "/app/config/sentinel.env" "DESCRIPTION" "it's fast" _ eq_refl H1 eq_refl eq_refl).
  discriminate.
Defined.

(** X22 on a request that sets the key and the moniker. *)
Lemma config_update_is_local_witness :
  let config' :=
    JObj [("provider", JObj [("pubkey", JStr "addr1"); ("name", JStr "node-1");
                             ("listen_addr", JStr "0.0.0.0:3636")]);
          ("services", JArr [JObj [("name", JStr "swapi"); ("id", JNum 7)]]);
          ("api", JObj [("listen_addr", JStr "0.0.0.0:3636")])] in
  updated_config Fixture.rename_request Fixture.sentinel_yaml = Ret config' /\
  (forall k, k <> "provider" -> entry config' k = entry Fixture.sentinel_yaml k) /\
  (forall k, k <> "pubkey" -> k <> "name" ->
     entry (provider_section config') k
       = entry (provider_section Fixture.sentinel_yaml) k) /\
  (Py.truthy (Py.get Fixture.rename_request "provider_pubkey") = true ->
     entry (provider_section config') "pubkey"
       = Some (Py.get Fixture.rename_request "provider_pubkey")) /\
  (Py.truthy (Py.por (Py.get Fixture.rename_request "provider_name")
                (Py.get Fixture.rename_request "moniker")) = true ->
     entry (provider_section config') "name" =
     Some (Py.por (Py.get Fixture.rename_request "provider_name")
             (Py.get Fixture.rename_request "moniker"))).
Proof.
  cbv zeta.
  assert (H : updated_config Fixture.rename_request Fixture.sentinel_yaml =
              Ret (JObj [("provider", JObj [("pubkey", JStr "addr1"); ("name", JStr "node-1");
                                             ("listen_addr", JStr "0.0.0.0:3636")]);
                         ("services", JArr [JObj [("name", JStr "swapi"); ("id", JNum 7)]]);
                         ("api", JObj [("listen_addr", JStr "0.0.0.0:3636")])]))
    by (vm_compute; reflexivity).
  split; [exact H|].
  exact (config_update_is_local Fixture.rename_request Fixture.sentinel_yaml _ H).
Defined.

(** X23 on a node address between single quotes, with a line feed after
    it. *)
Lemma strip_quotes_unquotes_witness :
  PyStr.all_chars PyStr.isspace " " = true /\
  PyStr.all_chars PyStr.isspace Fixture.newline = true /\
  _strip_quotes (Some (" " ++ String "'" ("tcp://node:26657" ++ String "'" Fixture.newline))%string)
    = "tcp://node:26657".
Proof.
  split; [reflexivity|]. split; [reflexivity|].
  exact (strip_quotes_unquotes " " "'"%char "tcp://node:26657" Fixture.newline
           eq_refl eq_refl (or_introl eq_refl)).
Defined.

(** X24 on a request to restart, written with a capital, when
    [supervisorctl] cannot read the packaged configuration and the sentinel
    is not running. *)
Lemma control_runs_allowed_actions_witness :
  let world := Fixture.answers [Raised; Exited 3 "sentinel: ERROR (not running)"] in
  let body := JObj [("action", JStr "Restart")] in
  let run := sentinel_control Fixture.sentinel world Fixture.no_such_file body [] in
  run = (fst run, snd run) /\
  ((snd run = [] /\
    (fst run = Exn \/ exists resp, fst run = Ret resp /\ snd resp = 400%Z)) \/
   exists payload s,
     Py.por body (JObj []) = JObj payload /\
     Py.por (Py.get payload "action") (JStr "") = JStr s /\
     let a := PyStr.lower s in
     let c1 := Argv (SUPERVISORCTL Fixture.sentinel ++ [JStr a; JStr "sentinel"]) in
     let c2 := Argv (SUPERVISORCTL_FALLBACK ++ [JStr a; JStr "sentinel"]) in
     (a = "start" \/ a = "stop" \/ a = "restart") /\
     match world [] c1 with
     | Exited code out => snd run = [c1] /\ fst run = Ret (control_done a code out)
     | Raised =>
         snd run = [c1; c2] /\
         match world ([] ++ [c1]) c2 with
         | Exited code out => fst run = Ret (control_done a code out)
         | Raised => exists resp, fst run = Ret resp /\ snd resp = 500%Z
         end
     end).
Proof.
  cbv zeta.
  set (world := Fixture.answers [Raised; Exited 3 "sentinel: ERROR (not running)"]).
  set (run := sentinel_control Fixture.sentinel world Fixture.no_such_file
                (JObj [("action", JStr "Restart")]) []).
  assert (H : run = (fst run, snd run)) by (vm_compute; reflexivity).
  split; [exact H|].
  exact (control_runs_allowed_actions Fixture.sentinel world Fixture.no_such_file
           (JObj [("action", JStr "Restart")]) [] (fst run) (snd run) H).
Defined.

(** X26 on a node at height 1234. *)
Lemma height_is_text_or_null_witness :
  let world := Fixture.answers [Exited 0 Fixture.status_text] in
  let run := block_height Fixture.decode Fixture.repr Fixture.cfg world [] in
  let resp := match fst run with Ret x => x | Exn => (JNull, 0%Z) end in
  run = (Ret resp, snd run) /\
  snd run = [Argv (status_cmd Fixture.cfg)] /\
  ((snd resp = 200%Z /\
    exists out data,
      world [] (Argv (status_cmd Fixture.cfg)) = Exited 0 out /\
      Fixture.decode out = Decoded data /\
      field resp "status" = data /\
      height_of Fixture.repr data = Ret (field resp "height") /\
      (field resp "height" = JNull \/ exists s, field resp "height" = JStr s))
   \/ (snd resp = 500%Z /\ field resp "cmd" = JArr (status_cmd Fixture.cfg))).
Proof.
  cbv zeta.
  set (world := Fixture.answers [Exited 0 Fixture.status_text]).
  set (run := block_height Fixture.decode Fixture.repr Fixture.cfg world []).
  set (resp := match fst run with Ret x => x | Exn => (JNull, 0%Z) end).
  assert (H : run = (Ret resp, snd run)) by (vm_compute; reflexivity).
  split; [exact H|].
  exact (height_is_text_or_null Fixture.decode Fixture.repr Fixture.cfg world []
           resp (snd run) H).
Defined.

(** X27 on a balance that is not printed as JSON. *)
Lemma balance_follows_address_witness :
  let world := Fixture.answers [Exited 0 ("arkeo1abc" ++ Fixture.newline)%string;
                                Exited 0 "not json"] in
  let run := get_balance Fixture.loads Fixture.cfg world [] in
  run = (fst run, snd run) /\
  match world [] (Shell (key_address_cmd Fixture.cfg)) with
  | Raised => snd run = [Shell (key_address_cmd Fixture.cfg)] /\ fst run = Exn
  | Exited code addr_out =>
      if Z.eqb code 0 then
        let address := PyStr.strip addr_out in
        snd run = [Shell (key_address_cmd Fixture.cfg);
                   Shell (balance_cmd Fixture.cfg address)] /\
        match world ([] ++ [Shell (key_address_cmd Fixture.cfg)])
                (Shell (balance_cmd Fixture.cfg address)) with
        | Raised => fst run = Exn
        | Exited code bal_out =>
            if Z.eqb code 0 then
              match Fixture.loads bal_out with
              | Decoded data =>
                  exists resp,
                    fst run = Ret resp /\ snd resp = 200%Z /\
                    field resp "address" = JStr address /\
                    field resp "balance" = data
              | JSONDecodeError =>
                  exists resp,
                    fst run = Ret resp /\ snd resp = 200%Z /\
                    field resp "address" = JStr address /\
                    field resp "balance" = JObj [("raw", JStr bal_out)]
              | OtherError => fst run = Exn
              end
            else
              exists resp,
                fst run = Ret resp /\ snd resp = 500%Z /\
                field resp "address" = JStr address /\
                field resp "detail" = JStr bal_out
        end
      else
        snd run = [Shell (key_address_cmd Fixture.cfg)] /\
        exists resp, fst run = Ret resp /\ snd resp = 500%Z
  end.
Proof.
  cbv zeta.
  set (world := Fixture.answers [Exited 0 ("arkeo1abc" ++ Fixture.newline)%string;
                                 Exited 0 "not json"]).
  set (run := get_balance Fixture.loads Fixture.cfg world []).
  assert (H : run = (fst run, snd run)) by (vm_compute; reflexivity).
  split; [exact H|].
  exact (balance_follows_address Fixture.loads Fixture.cfg world [] (fst run) (snd run) H).
Defined.

(** X28 on a command that prints only white space. *)
Lemma version_is_never_empty_witness :
  let world := Fixture.answers [Exited 0 ("  " ++ Fixture.newline)%string] in
  let run := version world [] in
  let resp := match fst run with Ret x => x | Exn => (JNull, 0%Z) end in
  run = (Ret resp, snd run) /\ snd resp = 200%Z /\
  exists out v,
    world [] (Shell "arkeod version") = Exited 0 out /\
    field resp "arkeod_version" = JStr v /\
    v <> "" /\ PyStr.strip v = v /\
    (PyStr.strip out <> "" -> v = PyStr.strip out) /\
    (PyStr.strip out = "" -> v = "unknown").
Proof.
  cbv zeta.
  set (world := Fixture.answers [Exited 0 ("  " ++ Fixture.newline)%string]).
  set (run := version world []).
  set (resp := match fst run with Ret x => x | Exn => (JNull, 0%Z) end).
  assert (H1 : run = (Ret resp, snd run)) by (vm_compute; reflexivity).
  assert (H2 : snd resp = 200%Z) by (vm_compute; reflexivity).
  split; [exact H1|]. split; [exact H2|].
  exact (version_is_never_empty world [] resp (snd run) H1 H2).
Defined.

(** X29 on a node whose key command prints no key. *)
Lemma provider_info_reports_identity_witness :
  let world := Fixture.scripted Fixture.key_missing in
  let fs := fun _ : list event =>
              Fixture.only_file "/app/config/sentinel.env"
                (env_text Fixture.repr Fixture.variables) in
  let derived := derive_pubkeys Fixture.loads Fixture.cfg world "provider" "test" [] in
  let e := ("could not parse raw pubkey: " ++ Fixture.no_services_text)%string in
  let vars := [("MONIKER", JStr "my node"); ("WEBSITE", JStr "https://example.org");
               ("FREE_RATE_LIMIT", JStr "10")] in
  derived = (Ret ("", "", Some e), snd derived) /\
  _load_env_file (fs ([] ++ snd derived)) "/app/config/sentinel.env" = Ret vars /\
  exists resp,
    provider_info Fixture.loads Fixture.cfg world Fixture.sentinel fs []
      = (Ret resp, snd derived) /\
    snd resp = 200%Z /\
    field resp "user" = JStr "provider" /\
    field resp "pubkey" = pubkey_json "" "" /\
    field resp "fees" = JStr "200uarkeo" /\
    field resp "bond" = JStr "1" /\
    field resp "provider_metadata" = JObj vars /\
    field resp "pubkey_error" = JStr e.
Proof.
  cbv zeta.
  set (world := Fixture.scripted Fixture.key_missing).
  set (derived := derive_pubkeys Fixture.loads Fixture.cfg world "provider" "test" []).
  assert (H : derived =
              (Ret ("", "", Some ("could not parse raw pubkey: " ++ Fixture.no_services_text)%string),
               snd derived)) by (vm_compute; reflexivity).
  assert (HV : _load_env_file
                 (Fixture.only_file "/app/config/sentinel.env"
                    (env_text Fixture.repr Fixture.variables))
                 "/app/config/sentinel.env"
               = Ret [("MONIKER", JStr "my node"); ("WEBSITE", JStr "https://example.org");
                      ("FREE_RATE_LIMIT", JStr "10")]) by (vm_compute; reflexivity).
  split; [exact H|]. split; [exact HV|].
  exact (provider_info_reports_identity Fixture.loads Fixture.cfg world Fixture.sentinel
           (fun _ : list event =>
              Fixture.only_file "/app/config/sentinel.env"
                (env_text Fixture.repr Fixture.variables))
           [] "" "" _ (snd derived) _ H HV).
Defined.

(** X30 on a listing printed as an empty array. *)
Lemma listing_of_other_shape_raises_witness :
  let world := Fixture.scripted [Exited 0 Fixture.key_text; Exited 0 Fixture.bech32_lines;
                                 Exited 0 Fixture.empty_array_text] in
  let derived := derive_pubkeys Fixture.loads Fixture.cfg world "provider" "test" [] in
  derived = (Ret ("pk1", "addr1", None), snd derived) /\
  world ([] ++ snd derived) (list_providers_cmd Fixture.cfg)
    = Exited 0 Fixture.empty_array_text /\
  Fixture.loads Fixture.empty_array_text = Decoded (JArr []) /\
  provider_services Fixture.loads Fixture.repr Fixture.cfg world [] =
    (Exn, snd derived ++ [Run ProviderQuery (list_providers_cmd Fixture.cfg)]).
Proof.
  cbv zeta.
  set (world := Fixture.scripted [Exited 0 Fixture.key_text; Exited 0 Fixture.bech32_lines;
                                  Exited 0 Fixture.empty_array_text]).
  set (derived := derive_pubkeys Fixture.loads Fixture.cfg world "provider" "test" []).
  assert (H1 : derived = (Ret ("pk1", "addr1", None), snd derived))
    by (vm_compute; reflexivity).
  assert (H2 : world ([] ++ snd derived) (list_providers_cmd Fixture.cfg)
               = Exited 0 Fixture.empty_array_text) by (vm_compute; reflexivity).
  assert (H3 : Fixture.loads Fixture.empty_array_text = Decoded (JArr []))
    by (vm_compute; reflexivity).
  split; [exact H1|]. split; [exact H2|]. split; [exact H3|].
  exact (listing_of_other_shape_raises Fixture.loads Fixture.repr Fixture.cfg world []
           "pk1" "addr1" (snd derived) Fixture.empty_array_text (JArr []) H1 H2 H3 eq_refl).
Defined.

(** X25 on a node where the packaged configuration is missing, the sentinel
    is stopped and the second log cannot be read. *)
Lemma status_always_answers_witness :
  let world := Fixture.answers [Raised; Exited 3 "sentinel    STOPPED"; Exited 0 "ready";
                                Raised] in
  let run := sentinel_status Fixture.sentinel world Fixture.no_such_file [] in
  run = (fst run, snd run) /\
  fst run =
    Ret (JObj [("status", JStr "sentinel    STOPPED"); ("log", JStr "ready");
               ("err_log",
                JStr "errlog error: [Errno 2] No such file or directory: 'supervisorctl'")],
         200%Z) /\
  List.length (snd run) = 4.
Proof.
  cbv zeta.
  set (world := Fixture.answers [Raised; Exited 3 "sentinel    STOPPED"; Exited 0 "ready";
                                 Raised]).
  set (run := sentinel_status Fixture.sentinel world Fixture.no_such_file []).
  assert (H : run = (fst run, snd run)) by (vm_compute; reflexivity).
  split; [exact H|].
  destruct (status_always_answers Fixture.sentinel world Fixture.no_such_file []
              (fst run) (snd run) H)
    as (status & log & err & e1 & HR & HL & H1 & H2 & H3).
  change (world [] (Argv [JStr "supervisorctl"; JStr "-c";
                          JStr (SUPERVISOR_CONF Fixture.sentinel);
                          JStr "status"; JStr "sentinel"])) with Raised in H1.
  destruct H1 as [-> H1]. cbn in H1, H2, H3. subst status log err.
  split; [exact HR|]. rewrite HL. reflexivity.
Defined.
